(** * mssp-ot-rss: the episode scraper and the CSV-to-RSS converter

    A shallow embedding of [Scraper/scraper.py] and [Scraper/csv_to_rss.py].

    The repository code is translated function by function.  The libraries it
    calls are outside the repository and are represented as follows:

    - [urllib.parse.urljoin], the [html.parser] tree builder behind
      [BeautifulSoup(...)] and [Response.raise_for_status] are fields of the
      class [Libraries]; the HTTP session is a field of the class [Network];
      the [ValueError] of [urljoin] is the field of the class [UrlErrors],
      and [ET.tostring] and [minidom] are fields of the class
      [XmlLibraries].  What is proved holds for every instance.
    - The BeautifulSoup tree API ([find], [find_all], [get], [get_text]), the
      [xml.etree.ElementTree] builders, [str.strip], [str.startswith],
      [datetime.strptime] and [datetime.strftime] are modelled directly, for
      ASCII text and the C locale.

    Python [str] values are [string]s; [None] is the [None] of [option]. *)

From Stdlib Require Import ZArith String Ascii List Bool Lia DecimalString.
From stdpp Require Import base option list gmap strings.

Local Open Scope Z_scope.

Set Warnings "-register-all,-clear-no-such-hyp".

(* ===================================================================== *)
(** * Python strings *)
(* ===================================================================== *)

Module Str.

(** The double-quote character (code 34), one of the three characters that
    [csv_to_rss] strips from field values. *)
Definition dquote : ascii := ascii_of_nat 34.

(** [c in chars] *)
Fixpoint contains (chars : string) (c : ascii) : bool :=
  match chars with
  | EmptyString => false
  | String d rest => if Ascii.eqb c d then true else contains rest c
  end.

(** [str.isspace] on one ASCII character: TAB, LF, VT, FF, CR, the four
    separators FS, GS, RS, US and the space. *)
Definition isspace (c : ascii) : bool :=
  let n := nat_of_ascii c in
  ((9 <=? n)%nat && (n <=? 13)%nat) || ((28 <=? n)%nat && (n <=? 32)%nat).

Definition isdigit (c : ascii) : bool :=
  let n := nat_of_ascii c in (48 <=? n)%nat && (n <=? 57)%nat.

(** [c.lower()] on one ASCII character. *)
Definition lower_char (c : ascii) : ascii :=
  let n := nat_of_ascii c in
  if (65 <=? n)%nat && (n <=? 90)%nat then ascii_of_nat (n + 32) else c.

Fixpoint lower (s : string) : string :=
  match s with
  | EmptyString => EmptyString
  | String c rest => String (lower_char c) (lower rest)
  end.

(** [s.startswith(prefix)] *)
Fixpoint startswith (s prefix : string) : bool :=
  match prefix with
  | EmptyString => true
  | String p prefix' =>
      match s with
      | EmptyString => false
      | String c s' => if Ascii.eqb c p then startswith s' prefix' else false
      end
  end.

(** [s.startswith((p1, p2, ...))]: a tuple of prefixes. *)
Definition startswith_any (s : string) (prefixes : list string) : bool :=
  existsb (startswith s) prefixes.

Fixpoint lstrip_with (p : ascii -> bool) (s : string) : string :=
  match s with
  | EmptyString => EmptyString
  | String c rest => if p c then lstrip_with p rest else s
  end.

Fixpoint rstrip_with (p : ascii -> bool) (s : string) : string :=
  match s with
  | EmptyString => EmptyString
  | String c rest =>
      match rstrip_with p rest with
      | EmptyString => if p c then EmptyString else String c EmptyString
      | r => String c r
      end
  end.

(** [s.strip(chars)] *)
Definition strip_chars (chars s : string) : string :=
  rstrip_with (contains chars) (lstrip_with (contains chars) s).

(** [s.strip()] *)
Definition strip (s : string) : string :=
  rstrip_with isspace (lstrip_with isspace s).

(** [bool(s)] for a string: non-empty. *)
Definition nonempty (s : string) : bool :=
  match s with EmptyString => false | _ => true end.

(** [s.split()]: the maximal runs of non-whitespace characters. *)
Fixpoint split_go (cur : option string) (s : string) : list string :=
  match s with
  | EmptyString => option_list (String.rev <$> cur)
  | String c rest =>
      if isspace c
      then option_list (String.rev <$> cur) ++ split_go None rest
      else split_go (Some (String c (default EmptyString cur))) rest
  end.
Definition split (s : string) : list string := split_go None s.

(** [sep.join(parts)] *)
Fixpoint join (sep : string) (parts : list string) : string :=
  match parts with
  | [] => EmptyString
  | [p] => p
  | p :: rest => p +:+ sep +:+ join sep rest
  end.

(** [str(n)] for a non-negative integer. *)
Definition of_nat (n : nat) : string := NilZero.string_of_uint (Nat.to_uint n).
Definition of_Z (z : Z) : string :=
  if z <? 0 then String "-" (of_nat (Z.to_nat (- z))) else of_nat (Z.to_nat z).

(** [format(n, "02d")] for a non-negative integer. *)
Definition zfill2 (z : Z) : string :=
  if (0 <=? z) && (z <? 10) then String "0" (of_Z z) else of_Z z.

(** [int(s)] for an optionally space-padded run of ASCII digits. *)
Fixpoint digits_value (acc : Z) (s : string) : option Z :=
  match s with
  | EmptyString => Some acc
  | String c rest =>
      if isdigit c
      then digits_value (10 * acc + Z.of_nat (nat_of_ascii c - 48)) rest
      else None
  end.
Definition to_int (s : string) : option Z :=
  match strip s with
  | EmptyString => None
  | t => digits_value 0 t
  end.

(** [s.split(sep)] for a separator of one character: the pieces between
    the separators, the empty ones included. *)
Fixpoint split_on (sep : ascii) (s : string) : list string :=
  match s with
  | EmptyString => [EmptyString]
  | String c rest =>
      if Ascii.eqb c sep then EmptyString :: split_on sep rest
      else match split_on sep rest with
           | [] => [String c EmptyString]
           | piece :: pieces => String c piece :: pieces
           end
  end.

(** [s.replace(old, new)] for a non-empty [old]: the occurrences of [old]
    are replaced from left to right, without overlap.  [skip] counts the
    characters of an occurrence that are still to be passed over. *)
Fixpoint replace_from (old new : string) (skip : nat) (s : string) : string :=
  match s with
  | EmptyString => EmptyString
  | String c rest =>
      match skip with
      | S skip' => replace_from old new skip' rest
      | O =>
          if startswith s old
          then new +:+ replace_from old new (String.length old - 1) rest
          else String c (replace_from old new 0 rest)
      end
  end.
Definition replace (s old new : string) : string := replace_from old new 0 s.

End Str.

(* ===================================================================== *)
(** * Exceptions *)
(* ===================================================================== *)

(** The exceptions that the modelled code can raise on its own data. *)
Inductive exn :=
| AttributeError (msg : string).

(** A computation that returns a value or raises. *)
Inductive result (A : Type) :=
| Ok (a : A)
| Raise (e : exn).
Arguments Ok {A} a.
Arguments Raise {A} e.

#[global] Instance result_ret : MRet result := fun _ a => Ok a.
#[global] Instance result_bind : MBind result := fun _ _ k r =>
  match r with
  | Ok a => k a
  | Raise e => Raise e
  end.

(* ===================================================================== *)
(** * [datetime]: the calendar, [strptime] and [strftime] *)
(* ===================================================================== *)

Module datetime.

Record t := make {
  year : Z; month : Z; day : Z;
  hour : Z; minute : Z; second : Z
}.

(** The proleptic Gregorian calendar of the [datetime] module. *)
Definition is_leap (y : Z) : bool :=
  (y mod 4 =? 0) && (negb (y mod 100 =? 0) || (y mod 400 =? 0)).

Definition days_before_year (y : Z) : Z :=
  let y1 := y - 1 in y1 * 365 + y1 / 4 - y1 / 100 + y1 / 400.

Definition DAYS_IN_MONTH : list Z :=
  [31; 28; 31; 30; 31; 30; 31; 31; 30; 31; 30; 31].

Definition days_in_month (y m : Z) : Z :=
  if (m =? 2) && is_leap y then 29
  else nth (Z.to_nat (m - 1)) DAYS_IN_MONTH 0.

Definition days_before_month (y m : Z) : Z :=
  fold_right Z.add 0 (firstn (Z.to_nat (m - 1)) DAYS_IN_MONTH)
  + (if (2 <? m) && is_leap y then 1 else 0).

Definition ymd2ord (y m d : Z) : Z :=
  days_before_year y + days_before_month y m + d.

Definition toordinal (dt : t) : Z := ymd2ord (year dt) (month dt) (day dt).

(** Monday is 0, Sunday is 6. *)
Definition weekday (dt : t) : Z := (toordinal dt + 6) mod 7.

(** The argument check of the [date] constructor. *)
Definition valid_date (y m d : Z) : bool :=
  (1 <=? y) && (y <=? 9999) && (1 <=? m) && (m <=? 12)
  && (1 <=? d) && (d <=? days_in_month y m).

(** Names of the C locale. *)
Definition a_weekday : list string :=
  ["Mon"; "Tue"; "Wed"; "Thu"; "Fri"; "Sat"; "Sun"].
Definition a_month : list string :=
  ["jan"; "feb"; "mar"; "apr"; "may"; "jun";
   "jul"; "aug"; "sep"; "oct"; "nov"; "dec"].
Definition f_month : list string :=
  ["january"; "february"; "march"; "april"; "may"; "june";
   "july"; "august"; "september"; "october"; "november"; "december"].
Definition a_month_title : list string :=
  ["Jan"; "Feb"; "Mar"; "Apr"; "May"; "Jun";
   "Jul"; "Aug"; "Sep"; "Oct"; "Nov"; "Dec"].

(** ** [strftime] *)

(** The expansion of one directive.  [%Y] is not zero-padded (glibc). *)
Definition expand (dt : t) (d : ascii) : string :=
  if Ascii.eqb d "a" then nth (Z.to_nat (weekday dt)) a_weekday ""
  else if Ascii.eqb d "d" then Str.zfill2 (day dt)
  else if Ascii.eqb d "b" then nth (Z.to_nat (month dt - 1)) a_month_title ""
  else if Ascii.eqb d "Y" then Str.of_Z (year dt)
  else if Ascii.eqb d "H" then Str.zfill2 (hour dt)
  else if Ascii.eqb d "M" then Str.zfill2 (minute dt)
  else if Ascii.eqb d "S" then Str.zfill2 (second dt)
  else String "%" (String d EmptyString).

Fixpoint strftime (dt : t) (fmt : string) : string :=
  match fmt with
  | EmptyString => EmptyString
  | String c rest =>
      if Ascii.eqb c "%" then
        match rest with
        | EmptyString => String c EmptyString
        | String d rest' => expand dt d +:+ strftime dt rest'
        end
      else String c (strftime dt rest)
  end.

(** ** [strptime]

    [_strptime] turns the format into a regular expression (each directive
    a named group, each run of white space [\s+], every other character
    itself), matches it case-insensitively at the start of the input, and
    rejects the input when the match does not cover all of it. *)

Inductive token :=
| TLit (c : ascii)      (* a literal character *)
| TSpaces               (* \s+ *)
| TGroup (d : ascii).   (* a directive: b, B, d or Y *)

Fixpoint tokenize_go (in_space : bool) (fmt : string) : option (list token) :=
  match fmt with
  | EmptyString => Some []
  | String c rest =>
      if Str.isspace c then
        if in_space then tokenize_go true rest
        else cons TSpaces <$> tokenize_go true rest
      else if Ascii.eqb c "%" then
        match rest with
        | EmptyString => None
        | String d rest' =>
            if Str.contains "bBdY" d
            then cons (TGroup d) <$> tokenize_go false rest'
            else None
        end
      else cons (TLit c) <$> tokenize_go false rest
  end.
Definition tokenize (fmt : string) : option (list token) := tokenize_go false fmt.

(** [name] at the start of [s], ignoring case: the text matched and the rest. *)
Fixpoint match_name (name s : string) : option (string * string) :=
  match name with
  | EmptyString => Some (EmptyString, s)
  | String n name' =>
      match s with
      | EmptyString => None
      | String c s' =>
          if Ascii.eqb (Str.lower_char c) (Str.lower_char n)
          then prod_map (String c) id <$> match_name name' s'
          else None
      end
  end.

(** An alternation of names, tried from left to right. *)
Definition match_names (names : list string) (s : string) : list (string * string) :=
  omap (fun name => match_name name s) names.

(** A sequence of character classes. *)
Fixpoint match_classes (classes : list (ascii -> bool)) (s : string)
  : option (string * string) :=
  match classes with
  | [] => Some (EmptyString, s)
  | p :: classes' =>
      match s with
      | EmptyString => None
      | String c s' =>
          if p c then prod_map (String c) id <$> match_classes classes' s'
          else None
      end
  end.

Definition between (lo hi : ascii) (c : ascii) : bool :=
  (nat_of_ascii lo <=? nat_of_ascii c)%nat && (nat_of_ascii c <=? nat_of_ascii hi)%nat.

(** [__seqToRE] orders the names from longest to shortest. *)
Definition re_b : list string := a_month.
Definition re_B : list string :=
  ["september"; "february"; "november"; "december"; "january"; "october";
   "august"; "march"; "april"; "june"; "july"; "may"].
(** [3[0-1]|[1-2]\d|0[1-9]|[1-9]| [1-9]] *)
Definition re_d : list (list (ascii -> bool)) :=
  [ [Ascii.eqb "3"; between "0" "1"];
    [between "1" "2"; Str.isdigit];
    [Ascii.eqb "0"; between "1" "9"];
    [between "1" "9"];
    [Ascii.eqb " "; between "1" "9"] ].
(** [\d\d\d\d] *)
Definition re_Y : list (list (ascii -> bool)) :=
  [ [Str.isdigit; Str.isdigit; Str.isdigit; Str.isdigit] ].

(** [\s+], greedy: the rests after the longest run first, down to one. *)
Fixpoint match_spaces (s : string) : list string :=
  match s with
  | EmptyString => []
  | String c s' => if Str.isspace c then match_spaces s' ++ [s'] else []
  end.

(** All the ways one token matches at the start of [s], in the order in
    which a backtracking matcher tries them: the group bound and the rest. *)
Definition match_token (tk : token) (s : string)
  : list (option (ascii * string) * string) :=
  match tk with
  | TLit c =>
      match s with
      | String c' s' =>
          if Ascii.eqb (Str.lower_char c') (Str.lower_char c) then [(None, s')] else []
      | EmptyString => []
      end
  | TSpaces => (fun s' => (None, s')) <$> match_spaces s
  | TGroup d =>
      let found :=
        if Ascii.eqb d "b" then match_names re_b s
        else if Ascii.eqb d "B" then match_names re_B s
        else if Ascii.eqb d "d" then omap (fun cs => match_classes cs s) re_d
        else if Ascii.eqb d "Y" then omap (fun cs => match_classes cs s) re_Y
        else [] in
      (fun '(text, s') => (Some (d, text), s')) <$> found
  end.

(** All the matches of the whole expression, in backtracking order, each
    with its group dictionary and the unconsumed rest. *)
Fixpoint match_tokens (tks : list token) (s : string)
  : list (list (ascii * string) * string) :=
  match tks with
  | [] => [([], s)]
  | tk :: tks' =>
      '(g, s') ← match_token tk s;
      '(gs, s'') ← match_tokens tks' s';
      [(option_list g ++ gs, s'')]
  end.

(** [found_dict[key]] *)
Definition group (key : ascii) (groups : list (ascii * string)) : option string :=
  snd <$> List.find (fun '(k, _) => Ascii.eqb k key) groups.

(** [names.index(name) + 1] *)
Fixpoint index_from (i : Z) (names : list string) (name : string) : option Z :=
  match names with
  | [] => None
  | n :: names' => if String.eqb n name then Some i else index_from (i + 1) names' name
  end.

(** [datetime.strptime(s, fmt)] for formats that bind a month name, a day
    and a year; [None] stands for the [ValueError] it raises. *)
Definition strptime (s fmt : string) : option t :=
  tks ← tokenize fmt;
  '(groups, rest) ← head (match_tokens tks s);
  if Str.nonempty rest then None  (* unconverted data remains *) else
  y ← group "Y" groups ≫= Str.to_int;
  m ← match group "b" groups with
      | Some name => index_from 1 a_month (Str.lower name)
      | None => group "B" groups ≫= fun name => index_from 1 f_month (Str.lower name)
      end;
  d ← group "d" groups ≫= Str.to_int;
  if valid_date y m d then Some (make y m d 0 0 0) else None.

End datetime.

(* ===================================================================== *)
(** * [xml.etree.ElementTree] *)
(* ===================================================================== *)

Module ET.

(** An element: its tag, its attribute dictionary in insertion order, its
    text and its children. *)
Inductive Element :=
| mkElement (tag : string) (attrib : list (string * string))
            (text : option string) (children : list Element).

Definition tag (e : Element) : string := let 'mkElement t _ _ _ := e in t.
Definition attrib (e : Element) : list (string * string) :=
  let 'mkElement _ a _ _ := e in a.
Definition text (e : Element) : option string := let 'mkElement _ _ x _ := e in x.
Definition children (e : Element) : list Element := let 'mkElement _ _ _ c := e in c.

(** [ET.Element(tag)] *)
Definition new (tag : string) : Element := mkElement tag [] None [].

(** [d[key] = value] on an insertion-ordered dictionary. *)
Fixpoint dict_set (d : list (string * string)) (key value : string)
  : list (string * string) :=
  match d with
  | [] => [(key, value)]
  | (k, v) :: d' =>
      if String.eqb k key then (k, value) :: d' else (k, v) :: dict_set d' key value
  end.

(** [e.set(key, value)] *)
Definition set (e : Element) (key value : string) : Element :=
  let 'mkElement t a x c := e in mkElement t (dict_set a key value) x c.

(** [e.text = value] *)
Definition set_text (e : Element) (value : string) : Element :=
  let 'mkElement t a _ c := e in mkElement t a (Some value) c.

(** [e.get(key)] *)
Definition get (e : Element) (key : string) : option string :=
  snd <$> List.find (fun '(k, _) => String.eqb k key) (attrib e).

(** The effect on [parent] of [ET.SubElement(parent, ...)] once the new
    child has received its text, attributes and children. *)
Definition append (parent child : Element) : Element :=
  let 'mkElement t a x c := parent in mkElement t a x (c ++ [child]).

(** [ET.SubElement(parent, tag).text = value] *)
Definition SubElement_text (parent : Element) (tag value : string) : Element :=
  append parent (set_text (new tag) value).

(** [list(e.iter(tag))] restricted to the direct children: [e.findall(tag)]. *)
Definition findall (e : Element) (tag' : string) : list Element :=
  List.filter (fun c => String.eqb (tag c) tag') (children e).

End ET.

(* ===================================================================== *)
(** * [csv_to_rss.py] *)
(* ===================================================================== *)

(** A row of [csv.DictReader]: the header names mapped to the cells of the
    row.  A row shorter than the header maps the missing cells to Python's
    [None], here the inner [None]. *)
Abbreviation row := (gmap string (option string)).

(** [d.get(key, default)] *)
Definition dict_get (d : row) (key : string) (default : option string) : option string :=
  match d !! key with
  | Some v => v
  | None => default
  end.

(** The three characters of the argument of [strip] in [csv_to_rss]: space,
    double quote and [>]. *)
Definition STRAY : string := String " " (String Str.dquote (String ">" EmptyString)).

(** [v.strip(chars)] for a value that may be [None]. *)
Definition strip_value (chars : string) (v : option string) : result string :=
  match v with
  | Some s => Ok (Str.strip_chars chars s)
  | None => Raise (AttributeError "'NoneType' object has no attribute 'strip'")
  end.

(** [v or alt] for a value that is a string or [None]. *)
Definition or_else (v : option string) (alt : string) : string :=
  match v with
  | Some s => if Str.nonempty s then s else alt
  | None => alt
  end.

Definition RFC2822 : string := "%a, %d %b %Y %H:%M:%S +0000".

Definition formats : list string :=
  [ "%b. %d, %Y";   (* Nov. 22, 2016 *)
    "%B %d, %Y";    (* November 22, 2016 *)
    "%b %d, %Y" ].  (* Nov 22, 2016 *)

(** The loop of [parse_date] over the formats, ending in the fall-back. *)
Fixpoint try_formats (now : datetime.t) (date_str : string) (fmts : list string) : string :=
  match fmts with
  | [] => datetime.strftime now RFC2822
  | fmt :: fmts' =>
      match datetime.strptime date_str fmt with
      | Some parsed => datetime.strftime parsed RFC2822
      | None => try_formats now date_str fmts'
      end
  end.

(** [parse_date(date_str)]; [now] is what [datetime.now()] returns when asked. *)
Definition parse_date (now : datetime.t) (date_str : option string) : string :=
  match date_str with
  | None => datetime.strftime now RFC2822
  | Some s =>
      if negb (Str.nonempty s) || String.eqb s "Unknown"
      then datetime.strftime now RFC2822
      else try_formats now s formats
  end.

Definition itunes_ns : string := "{http://www.itunes.com/dtds/podcast-1.0.dtd}".

(** The [rss] element and its [channel] with the fixed metadata, before any
    item is added. *)
Definition rss_root : ET.Element :=
  let rss := ET.new "rss" in
  let rss := ET.set rss "version" "2.0" in
  let rss := ET.set rss "xmlns:content" "http://purl.org/rss/1.0/modules/content/" in
  ET.set rss "xmlns:itunes" "http://www.itunes.com/dtds/podcast-1.0.dtd".

Definition channel_head : ET.Element :=
  let channel := ET.new "channel" in
  let channel := ET.SubElement_text channel "title"
                   "Matt and Shane's Secret Podcast - Old Testament" in
  let channel := ET.SubElement_text channel "link" "https://msspoldt.com/" in
  let channel := ET.SubElement_text channel "description"
                   "Matt and Shane's Secret Podcast - The Old Testament Era" in
  let channel := ET.SubElement_text channel "language" "en-us" in
  let channel := ET.SubElement_text channel (itunes_ns +:+ "author") "Matt and Shane" in
  let owner := ET.new (itunes_ns +:+ "owner") in
  let owner := ET.SubElement_text owner (itunes_ns +:+ "name") "Matt and Shane" in
  let owner := ET.SubElement_text owner (itunes_ns +:+ "email") "mssptold@gmail.com" in
  let channel := ET.append channel owner in
  let category := ET.set (ET.new (itunes_ns +:+ "category")) "text" "Comedy" in
  let channel := ET.append channel category in
  let channel := ET.SubElement_text channel (itunes_ns +:+ "explicit") "yes" in
  ET.append channel
    (ET.set (ET.new (itunes_ns +:+ "image")) "href" "https://msspoldt.com/image.jpg").

(** The body of the loop of [csv_to_rss] over the episodes: the [item]
    element built for [episode] at position [idx]. *)
Definition make_item (now : datetime.t) (idx : nat) (episode : row) : result ET.Element :=
  let item := ET.new "item" in
  title ← strip_value STRAY
            (dict_get episode "title" (Some ("Episode " +:+ Str.of_nat idx)));
  let item := ET.SubElement_text item "title" title in
  let description := dict_get episode "description" (Some title) in
  let item := ET.SubElement_text item "description" (or_else description title) in
  audio_url ← strip_value STRAY (dict_get episode "audio_url" (Some ""));
  item ←
    (if Str.nonempty audio_url then
       link ← strip_value STRAY (dict_get episode "page_url" (Some audio_url));
       let item := ET.SubElement_text item "link" link in
       (* Enclosure (audio file) *)
       let enclosure := ET.new "enclosure" in
       let enclosure := ET.set enclosure "url" audio_url in
       let enclosure := ET.set enclosure "type" "audio/mpeg" in
       let enclosure := ET.set enclosure "length" "0" in
       let item := ET.append item enclosure in
       (* GUID *)
       let guid := ET.set (ET.new "guid") "isPermaLink" "false" in
       let guid := ET.set_text guid audio_url in
       Ok (ET.append item guid)
     else Ok item);
  (* Publish date *)
  let pub_date := parse_date now (dict_get episode "date" (Some "Unknown")) in
  let item := ET.SubElement_text item "pubDate" pub_date in
  (* iTunes metadata for item *)
  let item := ET.SubElement_text item (itunes_ns +:+ "explicit") "yes" in
  Ok (ET.SubElement_text item (itunes_ns +:+ "duration") "0").

(** The loop [for idx, episode in enumerate(episodes, 1)]: every item is
    appended to [channel].  [clock idx] is the wall-clock time while the item
    at position [idx] is built. *)
Fixpoint add_items (clock : nat -> datetime.t) (idx : nat) (episodes : list row)
    (channel : ET.Element) : result ET.Element :=
  match episodes with
  | [] => Ok channel
  | episode :: episodes' =>
      item ← make_item (clock idx) idx episode;
      add_items clock (S idx) episodes' (ET.append channel item)
  end.

(** [csv_to_rss]: from the rows read from the CSV file to the element tree
    that is serialised into the feed file.  The end of the function, where
    the tree is printed and written, is in [Raising.csv_to_rss]. *)
Definition csv_to_rss (clock : nat -> datetime.t) (rows : list row) : result ET.Element :=
  let episodes := rows in
  (* Reverse to have newest first (typical for podcasts) *)
  let episodes := reverse episodes in
  channel ← add_items clock 1 episodes channel_head;
  Ok (ET.append rss_root channel).

(** The [item] elements of a feed, in document order. *)
Definition feed_items (rss : ET.Element) : list ET.Element :=
  c ← ET.findall rss "channel"; ET.findall c "item".

(* ===================================================================== *)
(** * The BeautifulSoup tree *)
(* ===================================================================== *)

Module bs4.

(** A node of the parsed document.  [Tag] carries the tag name, the
    attributes as written in the markup (a valueless attribute such as
    [controls] has the empty string as its value) and the contents.
    [Comment] stands for every string that [get_text] leaves out:
    comments, declarations and the like. *)
Inductive node :=
| Tag (name : string) (attrs : list (string * string)) (contents : list node)
| NavigableString (s : string)
| Comment (s : string).

(** The [BeautifulSoup] object is the root tag, named [[document]]. *)
Definition document (contents : list node) : node := Tag "[document]" [] contents.

Definition name (n : node) : option string :=
  match n with Tag nm _ _ => Some nm | _ => None end.

(** [tag.get(key)] *)
Definition get (n : node) (key : string) : option string :=
  match n with
  | Tag _ attrs _ => snd <$> List.find (fun '(k, _) => String.eqb k key) attrs
  | _ => None
  end.

(** [tag.descendants]: every node below [n], in document order. *)
Fixpoint descendants (n : node) : list node :=
  match n with
  | Tag _ _ contents =>
      (fix go (cs : list node) : list node :=
         match cs with
         | [] => []
         | c :: cs' => c :: descendants c ++ go cs'
         end) contents
  | _ => []
  end.

(** What a keyword argument of [find] and [find_all] asks of an attribute. *)
Inductive attr_test :=
| Present                (* key=True *)
| Equals (v : string).   (* key="v" *)

(** [class] is a multi-valued attribute: the tree holds the list of its
    white-space separated tokens, and a string matches it when it is one of
    the tokens or the tokens joined by one space. *)
Definition attr_matches (key : string) (test : attr_test) (n : node) : bool :=
  match get n key, test with
  | None, _ => false
  | Some _, Present => true
  | Some value, Equals v =>
      if String.eqb key "class"
      then existsb (String.eqb v) (Str.split value)
           || String.eqb v (Str.join " " (Str.split value))
      else String.eqb value v
  end.

Definition matches (nm : string) (tests : list (string * attr_test)) (n : node) : bool :=
  match n with
  | Tag nm' _ _ => String.eqb nm' nm && forallb (fun '(k, t) => attr_matches k t n) tests
  | _ => false
  end.

(** [tag.find_all(name, **tests)] *)
Definition find_all (n : node) (nm : string) (tests : list (string * attr_test))
  : list node :=
  List.filter (matches nm tests) (descendants n).

(** [tag.find(name, **tests)] *)
Definition find (n : node) (nm : string) (tests : list (string * attr_test))
  : option node :=
  head (find_all n nm tests).

(** [tag.get_text(strip=True)]: the text strings below the tag, each
    stripped, the empty ones dropped, concatenated. *)
Definition get_text_strip (n : node) : string :=
  fold_right String.app EmptyString
    (omap (fun d => match d with
                    | NavigableString s =>
                        let s' := Str.strip s in
                        if Str.nonempty s' then Some s' else None
                    | _ => None
                    end) (descendants n)).

End bs4.

(* ===================================================================== *)
(** * [scraper.py] *)
(* ===================================================================== *)

(** ** The libraries and the network *)

Record Response := { status_code : Z; text : string }.

(** [requests.RequestException], with its message. *)
Record RequestException := { message : string }.

(** The library functions, as far as they return.  The field [urljoin] is
    the value of a call that returns; the [ValueError] that [urljoin]
    raises on a malformed bracketed host comes with [UrlErrors] and the
    module [Raising] further down, where the functions of this part are
    given once more with that exception. *)
Class Libraries := {
  (** [urllib.parse.urljoin(base, url)] *)
  urljoin : string -> string -> string;
  (** [BeautifulSoup(markup, "html.parser")] *)
  BeautifulSoup : string -> bs4.node;
  (** [response.raise_for_status()]: the [HTTPError] it raises, if any *)
  raise_for_status : Response -> option RequestException
}.

(** The session and the network behind it: [session.get(url, headers=HEADERS,
    timeout=REQUEST_TIMEOUT)] in world [w] answers or raises, and leaves the
    world in a new state. *)
Class Network (W : Type) := {
  session_get : string -> W -> (RequestException + Response) * W
}.

(** ** Configuration *)

Definition BASE_URL : string := "https://msspoldt.com".
Definition EPISODE_INDEX_URL : string := BASE_URL +:+ "/episodes".

(** ** URL extraction *)

(** The dictionary that [extract_audio_urls] returns. *)
Record episode := {
  audio_url : string;
  title : string;
  date : string;
  page_url : string
}.

(** The loop over the title selectors: the text of the first selector for
    which [soup.find] returns a tag. *)
Fixpoint find_title (soup : bs4.node) (selectors : list string) : option string :=
  match selectors with
  | [] => None
  | selector :: selectors' =>
      match bs4.find soup selector [] with
      | Some tag => Some (bs4.get_text_strip tag)
      | None => find_title soup selectors'
      end
  end.

(** The loop over the date selectors. *)
Fixpoint find_date (soup : bs4.node) (selectors : list string) : option string :=
  match selectors with
  | [] => None
  | selector :: selectors' =>
      match bs4.find soup selector [] with
      | Some tag =>
          let t := bs4.get_text_strip tag in
          if Str.nonempty t then Some t else bs4.get tag "datetime"
      | None => find_date soup selectors'
      end
  end.

Definition title_selectors : list string := ["h1"; "title"; ".episode-title"].
Definition date_selectors : list string := [".episode-date"; "time"; ".date"].

Section Extraction.
Context {L : Libraries}.

Definition extract_audio_urls (html_content page_url : string) : option episode :=
  let soup := BeautifulSoup html_content in
  (* Find audio tag *)
  match bs4.find soup "audio" [("controls", bs4.Present)] with
  | None => None
  | Some audio_tag =>
      match bs4.get audio_tag "src" with
      | None => None
      | Some src =>
          if negb (Str.nonempty src) then None else
          (* Resolve relative URLs to absolute *)
          let audio_url := urljoin page_url src in
          let title := find_title soup title_selectors in
          let date := find_date soup date_selectors in
          Some {| audio_url := audio_url;
                  title := or_else title "Unknown";
                  date := or_else date "Unknown";
                  page_url := page_url |}
      end
  end.

(** Option 1: the links in the second column of the table [artTable]. *)
Definition table_links (soup : bs4.node) (base_url : string) : list string :=
  match bs4.find soup "table" [("id", bs4.Equals "artTable")] with
  | None => []
  | Some table =>
      omap (fun row =>
              let cells := bs4.find_all row "td" [] in
              if (2 <=? length cells)%nat then
                cell ← cells !! 1%nat;
                link ← bs4.find cell "a" [("href", bs4.Present)];
                href ← bs4.get link "href";
                Some (urljoin base_url href)
              else None)
           (tail (bs4.find_all table "tr" []))
  end.

(** Option 2: the links of class [episode]. *)
Definition marked_links (soup : bs4.node) (base_url : string) : list string :=
  omap (fun link =>
          href ← bs4.get link "href";
          if Str.nonempty href then Some (urljoin base_url href) else None)
       (bs4.find_all soup "a" [("class", bs4.Equals "episode")]).

(** Option 3: the links of the container [div.episodes], else [main]. *)
Definition container_links (soup : bs4.node) (base_url : string) : list string :=
  let container :=
    match bs4.find soup "div" [("class", bs4.Equals "episodes")] with
    | Some c => Some c
    | None => bs4.find soup "main" []
    end in
  match container with
  | None => []
  | Some c =>
      omap (fun link =>
              href ← bs4.get link "href";
              (* Filter out anchors and external links *)
              if Str.startswith_any href ["#"; "http"]
                 && negb (Str.startswith href base_url)
              then None
              else Some (urljoin base_url href))
           (bs4.find_all c "a" [("href", bs4.Present)])
  end.

Definition get_episode_links (index_html base_url : string) : list string :=
  let soup := BeautifulSoup index_html in
  let links := table_links soup base_url in
  let links := match links with [] => marked_links soup base_url | _ => links end in
  let links := match links with [] => container_links soup base_url | _ => links end in
  links.

End Extraction.

(** ** Crawling *)

(** What [crawl_episodes] does to the outside, in the order in which it does
    it.  The two requests are told apart by their place in the code: the
    request for the index and the request for an episode page.  Each request
    is recorded with what [session.get] answered. *)
Inductive effect :=
| Print (line : string)                                        (* print(line) *)
| IndexGet (url : string) (answer : RequestException + Response)
| PageGet (url : string) (answer : RequestException + Response)
| Sleep                                                        (* time.sleep(0.5) *)
| VisitedAdd (url : string).                                   (* visited.add(url) *)

(** The variables of [crawl_episodes]: the set [visited], which the caller
    may share, the list [episodes] that is returned, the state of the
    network, and the effects so far. *)
Record crawl_state (W : Type) := CrawlState {
  visited : gset string;
  episodes : list episode;
  world : W;
  trace : list effect
}.
Arguments CrawlState {W} _ _ _ _.
Arguments visited {W} _.
Arguments episodes {W} _.
Arguments world {W} _.
Arguments trace {W} _.

Definition emit {W} (e : effect) (st : crawl_state W) : crawl_state W :=
  CrawlState (visited st) (episodes st) (world st) (trace st ++ [e]).

Section Crawling.
Context {L : Libraries} {W : Type} {N : Network W}.

(** The outcome of a [try] block: [session.get] followed by
    [response.raise_for_status()]. *)
Definition checked (answer : RequestException + Response)
  : RequestException + Response :=
  match answer with
  | inl e => inl e
  | inr response =>
      match raise_for_status response with
      | Some e => inl e
      | None => inr response
      end
  end.

(** The body of the loop over the episode links. *)
Definition crawl_page (total : nat) (st : crawl_state W) (idx : nat)
    (episode_url : string) : crawl_state W :=
  if decide (episode_url ∈ visited st) then
    emit (Print ("[~] Skipping (already visited): " +:+ episode_url)) st
  else
    let st := emit (VisitedAdd episode_url)
                (CrawlState ({[episode_url]} ∪ visited st) (episodes st)
                            (world st) (trace st)) in
    let st := emit (Print ("[" +:+ Str.of_nat idx +:+ "/" +:+ Str.of_nat total
                           +:+ "] Fetching: " +:+ episode_url)) st in
    let '(answer, w) := session_get episode_url (world st) in
    let st := emit (PageGet episode_url answer)
                (CrawlState (visited st) (episodes st) w (trace st)) in
    match checked answer with
    | inl e => emit (Print ("    [!] Error: " +:+ message e)) st
    | inr response =>
        let st := emit Sleep st in
        (* Extract audio URL and metadata *)
        match extract_audio_urls (text response) episode_url with
        | Some episode_data =>
            let st := CrawlState (visited st) (episodes st ++ [episode_data])
                                 (world st) (trace st) in
            emit (Print ("    [+] Audio URL: " +:+ audio_url episode_data)) st
        | None => emit (Print "    [~] No audio found on this page") st
        end
    end.

(** [for idx, episode_url in enumerate(episode_links, 1)] *)
Fixpoint crawl_pages (total idx : nat) (episode_links : list string)
    (st : crawl_state W) : crawl_state W :=
  match episode_links with
  | [] => st
  | episode_url :: rest =>
      crawl_pages total (S idx) rest (crawl_page total st idx episode_url)
  end.

(** [crawl_episodes(session, start_url, visited)].  The list that the
    Python function returns is the field [episodes] of the final state;
    the field [visited] is the caller's set after the call. *)
Definition crawl_episodes (start_url : string) (visited0 : option (gset string))
    (w : W) : crawl_state W :=
  let st := CrawlState (default ∅ visited0) [] w [] in
  let st := emit (Print ("[*] Fetching index: " +:+ start_url)) st in
  let '(answer, w) := session_get start_url (world st) in
  let st := emit (IndexGet start_url answer)
              (CrawlState (visited st) (episodes st) w (trace st)) in
  match checked answer with
  | inl e =>
      emit (Print ("[!] Error fetching " +:+ start_url +:+ ": " +:+ message e)) st
  | inr response =>
      (* Get all episode links from index *)
      let episode_links := get_episode_links (text response) BASE_URL in
      let st := emit (Print ("[+] Found " +:+ Str.of_nat (length episode_links)
                             +:+ " episode links")) st in
      (* Crawl each episode *)
      crawl_pages (length episode_links) 1 episode_links st
  end.

End Crawling.

(** What the answer to the request for an episode page adds to the
    result: the record extracted from the body, when the request succeeded
    and the body holds an audio source. *)
Definition page_record {L : Libraries} (ua : string * (RequestException + Response))
  : option episode :=
  match checked ua.2 with
  | inr response => extract_audio_urls (text response) ua.1
  | inl _ => None
  end.

(** The links in the order of discovery, without those already [seen] and
    without repetitions. *)
Fixpoint unvisited (seen : gset string) (links : list string) : list string :=
  match links with
  | [] => []
  | url :: rest =>
      if decide (url ∈ seen) then unvisited seen rest
      else url :: unvisited ({[url]} ∪ seen) rest
  end.

(** In a trace, every request for an episode page comes after the URL has
    been added to [visited]. *)
Definition adds_precede_gets (tr : list effect) : Prop :=
  forall i url answer, tr !! i = Some (PageGet url answer) ->
    exists j, (j < i)%nat /\ tr !! j = Some (VisitedAdd url).

(** The URLs requested as episode pages, in order. *)
Definition page_gets (tr : list effect) : list string :=
  omap (fun e => match e with PageGet url _ => Some url | _ => None end) tr.

(** The requests for episode pages with their answers, in order. *)
Definition page_answers (tr : list effect)
  : list (string * (RequestException + Response)) :=
  omap (fun e => match e with PageGet url a => Some (url, a) | _ => None end) tr.

(* ===================================================================== *)
(** * The properties of the specification, as definitions *)
(* ===================================================================== *)

(** The title as the specification words it: the text of the first location,
    in order, that is present with a non-empty text. *)
Fixpoint first_nonempty_text (soup : bs4.node) (selectors : list string) : option string :=
  match selectors with
  | [] => None
  | selector :: selectors' =>
      match bs4.find soup selector [] with
      | Some tag =>
          if Str.nonempty (bs4.get_text_strip tag)
          then Some (bs4.get_text_strip tag)
          else first_nonempty_text soup selectors'
      | None => first_nonempty_text soup selectors'
      end
  end.

(** [s] up to the first character that satisfies [stop]. *)
Fixpoint take_until (stop : ascii -> bool) (s : string) : string :=
  match s with
  | EmptyString => EmptyString
  | String c rest => if stop c then EmptyString else String c (take_until stop rest)
  end.

(** The part of [s] after the first occurrence of [sep], if there is one. *)
Fixpoint after_first (sep s : string) : option string :=
  match s with
  | EmptyString => None
  | String _ rest =>
      if Str.startswith s sep
      then Some (String.substring (String.length sep) (String.length s) s)
      else after_first sep rest
  end.

(** The origin of an absolute URL, scheme and host: what precedes [://], and
    what follows it up to the first of [/], [?] and [#]. *)
Definition origin (url : string) : option (string * string) :=
  rest ← after_first "://" url;
  Some (take_until (Ascii.eqb ":") url, take_until (Str.contains "/?#") rest).

(** A row without a missing cell: no value is Python's [None]. *)
Definition no_missing_cell (r : row) : Prop :=
  map_Forall (fun _ cell => cell <> None) r.

#[global] Instance no_missing_cell_dec (r : row) : Decision (no_missing_cell r).
Proof. unfold no_missing_cell. apply _. Defined.

(** The [audio_url] of a row as [csv_to_rss] uses it: trimmed, and empty when
    the row has none. *)
Definition trimmed_audio_url (r : row) : string :=
  match dict_get r "audio_url" (Some "") with
  | Some s => Str.strip_chars STRAY s
  | None => ""
  end.

(** The children of a feed item that the claims speak of. *)
Definition child (item : ET.Element) (tag : string) : option ET.Element :=
  head (ET.findall item tag).
Definition has_child (item : ET.Element) (tag : string) : Prop :=
  is_Some (child item tag).

(* ===================================================================== *)
(** * Example pages, libraries and networks *)
(* ===================================================================== *)

Module Examples.

(** The rule of [requests]: a status from 400 to 599 raises [HTTPError]. *)
Definition status_check (r : Response) : option RequestException :=
  if (400 <=? status_code r) && (status_code r <? 500)
  then Some {| message := Str.of_Z (status_code r) +:+ " Client Error" |}
  else if (500 <=? status_code r) && (status_code r <? 600)
  then Some {| message := Str.of_Z (status_code r) +:+ " Server Error" |}
  else None.

(** An episode page with a heading and an audio source. *)
Definition page7_html : string :=
  "<h1>Episode 7</h1><audio controls src='https://msspoldt.com/audio/7.mp3'></audio>".
Definition page7_soup : bs4.node :=
  bs4.document
    [ bs4.Tag "h1" [] [bs4.NavigableString "Episode 7"];
      bs4.Tag "audio" [("controls", ""); ("src", "https://msspoldt.com/audio/7.mp3")] [] ].

(** An episode page whose heading is empty and whose document title is not. *)
Definition page12_html : string :=
  "<h1></h1><title>Episode 12</title><audio controls src='https://msspoldt.com/audio/12.mp3'></audio>".
Definition page12_soup : bs4.node :=
  bs4.document
    [ bs4.Tag "h1" [] [];
      bs4.Tag "title" [] [bs4.NavigableString "Episode 12"];
      bs4.Tag "audio" [("controls", ""); ("src", "https://msspoldt.com/audio/12.mp3")] [] ].

(** A page without any audio element. *)
Definition about_html : string := "<h1>About</h1><p>No episode here</p>".
Definition about_soup : bs4.node :=
  bs4.document
    [ bs4.Tag "h1" [] [bs4.NavigableString "About"];
      bs4.Tag "p" [] [bs4.NavigableString "No episode here"] ].

(** A page whose audio element has no source. *)
Definition nosrc_html : string := "<h1>Episode 9</h1><audio controls></audio>".
Definition nosrc_soup : bs4.node :=
  bs4.document
    [ bs4.Tag "h1" [] [bs4.NavigableString "Episode 9"];
      bs4.Tag "audio" [("controls", "")] [] ].

(** An index whose container lists episode 7 twice, then episodes 8 and 9. *)
Definition index_html : string :=
  "<main><a href='https://msspoldt.com/ep/7'>7</a><a href='https://msspoldt.com/ep/7'>7 again</a><a href='https://msspoldt.com/ep/8'>8</a><a href='https://msspoldt.com/ep/9'>9</a><a href='https://msspoldt.com/ep/12'>12</a></main>".
Definition index_soup : bs4.node :=
  bs4.document
    [ bs4.Tag "main" []
        [ bs4.Tag "a" [("href", "https://msspoldt.com/ep/7")] [bs4.NavigableString "7"];
          bs4.Tag "a" [("href", "https://msspoldt.com/ep/7")] [bs4.NavigableString "7 again"];
          bs4.Tag "a" [("href", "https://msspoldt.com/ep/8")] [bs4.NavigableString "8"];
          bs4.Tag "a" [("href", "https://msspoldt.com/ep/9")] [bs4.NavigableString "9"];
          bs4.Tag "a" [("href", "https://msspoldt.com/ep/12")] [bs4.NavigableString "12"] ] ].

(** An index whose container links to another host, the name of which
    begins with the characters of [BASE_URL]. *)
Definition foreign_html : string :=
  "<main><a href='#top'>top</a><a href='https://msspoldt.com.evil.example/ep1'>1</a></main>".
Definition foreign_soup : bs4.node :=
  bs4.document
    [ bs4.Tag "main" []
        [ bs4.Tag "a" [("href", "#top")] [bs4.NavigableString "top"];
          bs4.Tag "a" [("href", "https://msspoldt.com.evil.example/ep1")]
            [bs4.NavigableString "1"] ] ].

(** The libraries, as far as the examples go: the trees of the pages
    above, the empty tree for the empty markup, and [urljoin] on a
    reference that is already an absolute URL. *)
Definition parser (markup : string) : bs4.node :=
  if String.eqb markup page7_html then page7_soup
  else if String.eqb markup page12_html then page12_soup
  else if String.eqb markup about_html then about_soup
  else if String.eqb markup nosrc_html then nosrc_soup
  else if String.eqb markup index_html then index_soup
  else if String.eqb markup foreign_html then foreign_soup
  else bs4.document [].

Definition libs : Libraries := {|
  urljoin := fun base url => url;
  BeautifulSoup := parser;
  raise_for_status := status_check
|}.

(** A network that answers from a table, and raises a connection error
    for every other URL.  Its state counts the requests. *)
Definition table_network (table : list (string * Response)) : Network nat := {|
  session_get := fun url n =>
    (match List.find (fun '(u, _) => String.eqb u url) table with
     | Some (_, r) => inr r
     | None => inl {| message := "Connection refused" |}
     end, S n)
|}.

(** The site: the index, episode 7, a page without audio, a page that is
    gone, and episode 12. *)
Definition site : Network nat :=
  table_network
    [ ("https://msspoldt.com/episodes", {| status_code := 200; text := index_html |});
      ("https://msspoldt.com/ep/7", {| status_code := 200; text := page7_html |});
      ("https://msspoldt.com/ep/8", {| status_code := 200; text := about_html |});
      ("https://msspoldt.com/ep/9", {| status_code := 404; text := "" |});
      ("https://msspoldt.com/ep/12", {| status_code := 200; text := page12_html |}) ].

(** A site whose index is an empty page. *)
Definition blank_site : Network nat :=
  table_network
    [ ("https://msspoldt.com/episodes", {| status_code := 200; text := "" |}) ].

(** A site that cannot be reached. *)
Definition dead_site : Network nat := table_network [].

(** A site whose index answers with a server error. *)
Definition broken_site : Network nat :=
  table_network
    [ ("https://msspoldt.com/episodes", {| status_code := 503; text := "" |}) ].

Definition noon : datetime.t := datetime.make 2026 1 15 12 0 0.

(** Rows of [episodes.csv]: a clean one, one whose audio URL drags a stray
    [>] along, one whose audio URL is a single space, and one from a file
    without the [audio_url] column. *)
Definition row7 : row :=
  {[ "title" := Some "Episode 7"; "date" := Some "Nov. 22, 2016";
     "audio_url" := Some "https://msspoldt.com/audio/7.mp3";
     "page_url" := Some "https://msspoldt.com/ep/7" ]}.
Definition row_stray : row :=
  {[ "title" := Some "Episode 8"; "date" := Some "Unknown";
     "audio_url" := Some "https://msspoldt.com/audio/8.mp3>";
     "page_url" := Some "https://msspoldt.com/ep/8" ]}.
Definition row_blank : row :=
  {[ "title" := Some "Episode 9"; "date" := Some "Unknown";
     "audio_url" := Some " ";
     "page_url" := Some "https://msspoldt.com/ep/9" ]}.
Definition row_bare : row :=
  {[ "title" := Some "Episode 10"; "date" := Some "Nov 29, 2016" ]}.

End Examples.

(* ===================================================================== *)
(** * The rest of the two programs *)
(* ===================================================================== *)

(** ** Rows that [csv_to_rss] can turn into an item *)

(** The cell of a column is not Python's [None]: the column is absent from
    the file, or the row is long enough to reach it. *)
Definition cell_present (r : row) (key : string) : bool :=
  match r !! key with
  | Some None => false
  | _ => true
  end.

(** The cells on which the body of the loop calls [strip] are there. *)
Definition row_ok (r : row) : bool :=
  cell_present r "title"
  && cell_present r "audio_url"
  && (negb (Str.nonempty (trimmed_audio_url r)) || cell_present r "page_url").

(** The date of a row is one that a pattern of [parse_date] reads. *)
Definition date_parses (r : row) : bool :=
  match dict_get r "date" (Some "Unknown") with
  | Some s =>
      Str.nonempty s && negb (String.eqb s "Unknown")
      && existsb (fun fmt => bool_decide (is_Some (datetime.strptime s fmt))) formats
  | None => false
  end.

(** The text of the first child of [item] with the given tag. *)
Definition child_text (item : ET.Element) (tag : string) : option string :=
  child item tag ≫= ET.text.

(** The character of a decimal digit. *)
Definition digit (k : Z) : ascii := ascii_of_nat (48 + Z.to_nat k).

(** A year as four digits, as the [%Y] pattern of [strptime] wants it. *)
Definition pad4 (y : Z) : string :=
  String (digit (y / 1000 mod 10))
    (String (digit (y / 100 mod 10))
       (String (digit (y / 10 mod 10))
          (String (digit (y mod 10)) EmptyString))).

(** The month names as they are usually written. *)
Definition f_month_title : list string :=
  ["January"; "February"; "March"; "April"; "May"; "June";
   "July"; "August"; "September"; "October"; "November"; "December"].

(** The three spellings of a date that the comments in [parse_date] name. *)
Definition spelling_dotted (y m d : Z) : string :=
  nth (Z.to_nat (m - 1)) datetime.a_month_title "" +:+ ". " +:+ Str.of_Z d +:+ ", " +:+ pad4 y.
Definition spelling_full (y m d : Z) : string :=
  nth (Z.to_nat (m - 1)) f_month_title "" +:+ " " +:+ Str.of_Z d +:+ ", " +:+ pad4 y.
Definition spelling_short (y m d : Z) : string :=
  nth (Z.to_nat (m - 1)) datetime.a_month_title "" +:+ " " +:+ Str.of_Z d +:+ ", " +:+ pad4 y.

(** ** Trees as the parser builds them *)

(** No tag name of the tree begins with a dot.  The tag names of
    [html.parser] begin with a letter. *)
Definition dotless (soup : bs4.node) : Prop :=
  forall n nm, n ∈ bs4.descendants soup -> bs4.name n = Some nm ->
    Str.startswith nm "." = false.

(** ** Counting in a trace *)

Definition sleeps (tr : list effect) : nat :=
  length (List.filter (fun e => match e with Sleep => true | _ => false end) tr).

(** The requests for episode pages that [raise_for_status] let through. *)
Definition successes {L : Libraries} (tr : list effect) : nat :=
  length (List.filter (fun ua => match checked ua.2 with inr _ => true | inl _ => false end)
            (page_answers tr)).

(** ** File output and [main] *)

(** A relative [pathlib.Path], as the list of its parts. *)
Definition Path := list string.

(** [str(path)] *)
Definition path_str (p : Path) : string :=
  match p with
  | [] => "."
  | _ => Str.join "/" p
  end.

(** [path.parent] *)
Definition path_parent (p : Path) : Path := removelast p.

Definition OUTPUT_DIR : Path := ["podcast_data"].
Definition OUTPUT_CSV : Path := OUTPUT_DIR ++ ["episodes.csv"].
Definition OUTPUT_JSON : Path := OUTPUT_DIR ++ ["episodes.json"].

(** What [main] does to the outside: what the crawl does, and the files. *)
Inductive action :=
| Console (e : effect)
| MkDir (p : Path)        (* p.mkdir(parents=True, exist_ok=True) *)
| WriteCsv (p : Path) (fieldnames : list string) (rows : list (list string))
                          (* DictWriter(f, fieldnames): writeheader, writerows *)
| WriteJson (p : Path) (data : list episode)
                          (* json.dump(data, f, indent=2, ensure_ascii=False) *)
| SessionClose.           (* session.close() *)

Definition FIELDNAMES : list string := ["title"; "date"; "audio_url"; "page_url"].

(** The cells that [DictWriter] writes for one dictionary. *)
Definition csv_cells (ep : episode) : list string :=
  [title ep; date ep; audio_url ep; page_url ep].

Definition save_to_csv (eps : list episode) (output_path : Path) : list action :=
  match eps with
  | [] => [Console (Print "[!] No episodes to save")]
  | _ =>
      [ MkDir (path_parent output_path);
        WriteCsv output_path FIELDNAMES (csv_cells <$> eps);
        Console (Print ("[+] Saved " +:+ Str.of_nat (length eps) +:+ " episodes to "
                        +:+ path_str output_path)) ]
  end.

Definition save_to_json (eps : list episode) (output_path : Path) : list action :=
  [ MkDir (path_parent output_path);
    WriteJson output_path eps;
    Console (Print ("[+] Saved " +:+ Str.of_nat (length eps) +:+ " episodes to "
                    +:+ path_str output_path)) ].

(** [c * n] for a one-character string. *)
Fixpoint repeat_char (c : ascii) (n : nat) : string :=
  match n with
  | O => EmptyString
  | S n' => String c (repeat_char c n')
  end.

Definition RULE : string := repeat_char "=" 60.
Definition NEWLINE : string := String (ascii_of_nat 10) EmptyString.
Definition LOCAL_INDEX : string := "The Old Testament.html".

Section Main.
Context {L : Libraries} {W : Type} {N : Network W}.

(** The body of the loop of [main] over the links of the local index: the
    loop of [crawl_episodes] without the set [visited]. *)
Definition fetch_page (total : nat) (st : crawl_state W) (idx : nat)
    (episode_url : string) : crawl_state W :=
  let st := emit (Print ("[" +:+ Str.of_nat idx +:+ "/" +:+ Str.of_nat total
                         +:+ "] Fetching: " +:+ episode_url)) st in
  let '(answer, w) := session_get episode_url (world st) in
  let st := emit (PageGet episode_url answer)
              (CrawlState (visited st) (episodes st) w (trace st)) in
  match checked answer with
  | inl e => emit (Print ("    [!] Error: " +:+ message e)) st
  | inr response =>
      let st := emit Sleep st in
      match extract_audio_urls (text response) episode_url with
      | Some episode_data =>
          let st := CrawlState (visited st) (episodes st ++ [episode_data])
                               (world st) (trace st) in
          emit (Print ("    [+] Audio URL: " +:+ audio_url episode_data)) st
      | None => emit (Print "    [~] No audio found on this page") st
      end
  end.

Fixpoint fetch_pages (total idx : nat) (episode_links : list string)
    (st : crawl_state W) : crawl_state W :=
  match episode_links with
  | [] => st
  | episode_url :: rest =>
      fetch_pages total (S idx) rest (fetch_page total st idx episode_url)
  end.

(** [main()].  [local_index] is the text of the file [The Old
    Testament.html] when it exists in the working directory.  The result is
    what was done, in order, and the state of the network at the end. *)
Definition main (local_index : option string) (w : W) : list action * W :=
  let banner :=
    [Print RULE; Print "Matt & Shane's Secret Podcast - Audio URL Extractor"; Print RULE] in
  let st :=
    match local_index with
    | Some index_html =>
        let st := CrawlState ∅ [] w
                    (banner ++
                     [Print "[*] Found local 'The Old Testament.html' - using for testing";
                      Print ("[*] Loading index from local file: " +:+ LOCAL_INDEX)]) in
        let episode_links := get_episode_links index_html BASE_URL in
        let st := emit (Print ("[+] Found " +:+ Str.of_nat (length episode_links)
                               +:+ " episode links")) st in
        fetch_pages (length episode_links) 1 episode_links st
    | None =>
        (* Crawl episodes from web *)
        let st := crawl_episodes EPISODE_INDEX_URL None w in
        CrawlState (visited st) (episodes st) (world st) (banner ++ trace st)
    end in
  let eps := episodes st in
  let output :=
    match eps with
    | [] => [Console (Print "[!] No episodes extracted")]
    | _ =>
        [ Console (Print (NEWLINE +:+ RULE));
          Console (Print ("SUMMARY: Extracted " +:+ Str.of_nat (length eps) +:+ " episodes"));
          Console (Print RULE) ]
        ++ save_to_csv eps OUTPUT_CSV
        ++ save_to_json eps OUTPUT_JSON
        ++ [ Console (Print (NEWLINE +:+ "[✓] Next step: Use " +:+ path_str OUTPUT_CSV
                             +:+ " or " +:+ path_str OUTPUT_JSON
                             +:+ " to generate RSS feed")) ]
    end in
  ((Console <$> trace st) ++ output ++ [SessionClose], world st).

End Main.

(** The files written, in order. *)
Definition writes (acts : list action) : list action :=
  List.filter (fun a => match a with WriteCsv _ _ _ | WriteJson _ _ => true | _ => false end)
    acts.

(** The effects of the crawl among the actions, in order. *)
Definition console (acts : list action) : list effect :=
  omap (fun a => match a with Console e => Some e | _ => None end) acts.

(** ** More examples *)

Module MoreExamples.

(** An episode page whose audio element has a source and no [controls]. *)
Definition bare_audio_html : string :=
  "<h1>Episode 4</h1><audio src='https://msspoldt.com/audio/4.mp3'></audio>".
Definition bare_audio_soup : bs4.node :=
  bs4.document
    [ bs4.Tag "h1" [] [bs4.NavigableString "Episode 4"];
      bs4.Tag "audio" [("src", "https://msspoldt.com/audio/4.mp3")] [] ].

(** An episode page with a date in a [time] element without text, and a
    [span] of class [episode-title]. *)
Definition dated_html : string :=
  "<span class='episode-title'>Episode 3</span><time datetime='2016-11-22'></time><audio controls src='https://msspoldt.com/audio/3.mp3'></audio>".
Definition dated_soup : bs4.node :=
  bs4.document
    [ bs4.Tag "span" [("class", "episode-title")] [bs4.NavigableString "Episode 3"];
      bs4.Tag "time" [("datetime", "2016-11-22")] [];
      bs4.Tag "audio" [("controls", ""); ("src", "https://msspoldt.com/audio/3.mp3")] [] ].

Definition parser (markup : string) : bs4.node :=
  if String.eqb markup bare_audio_html then bare_audio_soup
  else if String.eqb markup dated_html then dated_soup
  else Examples.parser markup.

Definition libs : Libraries := {|
  urljoin := fun base url => url;
  BeautifulSoup := parser;
  raise_for_status := Examples.status_check
|}.

(** A row that stops after the title: the other three cells are [None]. *)
Definition row_short : row :=
  {[ "title" := Some "Episode 11"; "date" := None;
     "audio_url" := None; "page_url" := None ]}.

(** A row from a file with the audio URL only. *)
Definition row_audio_only : row :=
  {[ "audio_url" := Some " https://msspoldt.com/audio/5.mp3 " ]}.

Definition midnight : datetime.t := datetime.make 2027 3 1 0 0 0.

End MoreExamples.

(* ===================================================================== *)
(** * What the libraries raise, and what is written *)
(* ===================================================================== *)

(** The functions above follow the runs in which every library call
    returns, and [csv_to_rss] ends with the element tree.  This part adds
    the two exceptions of the libraries that the programs do not catch,
    the [ValueError] of [urljoin] and the [ExpatError] of [minidom], and the
    end of [csv_to_rss], where the tree is printed and written. *)

(** [ValueError], with its message. *)
Record ValueError := { reason : string }.

(** [urljoin_raises base url] is the [ValueError] that the call
    [urljoin(base, url)] raises, if it raises one; [urljoin] does so when
    the host of the reference opens a square bracket that it does not close.
    Where it raises none, the field [urljoin] of [Libraries] is what the
    call returns. *)
Class UrlErrors := {
  urljoin_raises : string -> string -> option ValueError
}.

(** A computation that returns a value or raises an exception of type [E]. *)
Inductive raising (E A : Type) :=
| Value (a : A)
| Exception (e : E).
Arguments Value {E A} a.
Arguments Exception {E A} e.

#[global] Instance raising_ret {E} : MRet (raising E) := fun _ a => Value a.
#[global] Instance raising_bind {E} : MBind (raising E) := fun _ _ k r =>
  match r with
  | Value a => k a
  | Exception e => Exception e
  end.
#[global] Instance raising_fmap {E} : FMap (raising E) := fun _ _ f r =>
  match r with
  | Value a => Value (f a)
  | Exception e => Exception e
  end.

(** A loop that appends to a list what its body finds for each element, if
    anything, and that ends with the first exception of the body: [omap]
    with a body that may raise. *)
Fixpoint collect {E A B} (body : A -> raising E (option B)) (xs : list A)
  : raising E (list B) :=
  match xs with
  | [] => Value []
  | x :: xs' =>
      found ← body x;
      rest ← collect body xs';
      Value (match found with Some b => b :: rest | None => rest end)
  end.

(** How a crawl ends: it returns, with its variables in the state [st], or
    an exception leaves it.  The state of a crawl that raised holds the
    variables at that moment: the list [episodes] is lost with the frame of
    the call, the additions to the caller's set [visited] stay. *)
Inductive outcome (W : Type) :=
| Returned (st : crawl_state W)
| Raised (e : ValueError) (st : crawl_state W).
Arguments Returned {W} st.
Arguments Raised {W} e st.



(** The source that [extract_audio_urls] hands to [urljoin]: the non-empty
    [src] of the first audio element with [controls]. *)
Definition audio_src {L : Libraries} (html_content : string) : option string :=
  audio_tag ← bs4.find (BeautifulSoup html_content) "audio" [("controls", bs4.Present)];
  src ← bs4.get audio_tag "src";
  if Str.nonempty src then Some src else None.


(** [xml.parsers.expat.ExpatError], with its message. *)
Record ExpatError := { expat_message : string }.

(** The XML libraries of [csv_to_rss]; [Document] is the type of a
    [minidom] document. *)
Class XmlLibraries (Document : Type) := {
  (** [ET.tostring(element)] *)
  tostring : ET.Element -> string;
  (** [minidom.parseString(data)]: the document, or the [ExpatError] raised
      on data that is not well-formed XML, a control character in a text
      for one *)
  parseString : string -> ExpatError + Document;
  (** [document.toprettyxml(indent=indent)] *)
  toprettyxml : Document -> string -> string
}.

(** What [csv_to_rss] does to the outside. *)
Inductive output :=
| FeedMkDir (p : Path)                       (* p.mkdir(parents=True, exist_ok=True) *)
| FeedWrite (p : Path) (content : string)    (* f.write(content), the file p opened for writing *)
| FeedPrint (line : string).                 (* print(line) *)

(** What makes [csv_to_rss] fail: an exception of the loop over the rows, or
    the [ExpatError] of [minidom.parseString]. *)
Inductive failure :=
| RowError (e : exn)
| XmlError (e : ExpatError).

(** [s] between double quotes. *)
Definition quoted (s : string) : string :=
  String Str.dquote s +:+ String Str.dquote EmptyString.

(** The XML declaration that [toprettyxml] writes, and the one that
    [csv_to_rss] puts in its place. *)
Definition PLAIN_DECLARATION : string := "<?xml version=" +:+ quoted "1.0" +:+ " ?>".
Definition UTF8_DECLARATION : string :=
  "<?xml version=" +:+ quoted "1.0" +:+ " encoding=" +:+ quoted "UTF-8" +:+ "?>".

Definition LF : ascii := ascii_of_nat 10.

Module Raising.

Section Scraper.
Context {L : Libraries} {U : UrlErrors}.

(** [urljoin(base, url)], returning or raising. *)
Definition urljoin (base url : string) : raising ValueError string :=
  match urljoin_raises base url with
  | Some e => Exception e
  | None => Value (urljoin base url)
  end.

Definition extract_audio_urls (html_content page_url : string)
  : raising ValueError (option episode) :=
  let soup := BeautifulSoup html_content in
  (* Find audio tag *)
  match bs4.find soup "audio" [("controls", bs4.Present)] with
  | None => Value None
  | Some audio_tag =>
      match bs4.get audio_tag "src" with
      | None => Value None
      | Some src =>
          if negb (Str.nonempty src) then Value None else
          (* Resolve relative URLs to absolute *)
          audio_url ← urljoin page_url src;
          let title := find_title soup title_selectors in
          let date := find_date soup date_selectors in
          Value (Some {| audio_url := audio_url;
                         title := or_else title "Unknown";
                         date := or_else date "Unknown";
                         page_url := page_url |})
      end
  end.

(** Option 1: the links in the second column of the table [artTable]. *)
Definition table_links (soup : bs4.node) (base_url : string)
  : raising ValueError (list string) :=
  match bs4.find soup "table" [("id", bs4.Equals "artTable")] with
  | None => Value []
  | Some table =>
      collect (fun row =>
                 let cells := bs4.find_all row "td" [] in
                 if (2 <=? length cells)%nat then
                   match cell ← cells !! 1%nat;
                         link ← bs4.find cell "a" [("href", bs4.Present)];
                         bs4.get link "href" with
                   | Some href => Some <$> urljoin base_url href
                   | None => Value None
                   end
                 else Value None)
              (tail (bs4.find_all table "tr" []))
  end.

(** Option 2: the links of class [episode]. *)
Definition marked_links (soup : bs4.node) (base_url : string)
  : raising ValueError (list string) :=
  collect (fun link =>
             match bs4.get link "href" with
             | Some href =>
                 if Str.nonempty href then Some <$> urljoin base_url href
                 else Value None
             | None => Value None
             end)
          (bs4.find_all soup "a" [("class", bs4.Equals "episode")]).

(** Option 3: the links of the container [div.episodes], else [main]. *)
Definition container_links (soup : bs4.node) (base_url : string)
  : raising ValueError (list string) :=
  let container :=
    match bs4.find soup "div" [("class", bs4.Equals "episodes")] with
    | Some c => Some c
    | None => bs4.find soup "main" []
    end in
  match container with
  | None => Value []
  | Some c =>
      collect (fun link =>
                 match bs4.get link "href" with
                 | Some href =>
                     (* Filter out anchors and external links *)
                     if Str.startswith_any href ["#"; "http"]
                        && negb (Str.startswith href base_url)
                     then Value None
                     else Some <$> urljoin base_url href
                 | None => Value None
                 end)
              (bs4.find_all c "a" [("href", bs4.Present)])
  end.

Definition get_episode_links (index_html base_url : string)
  : raising ValueError (list string) :=
  let soup := BeautifulSoup index_html in
  links ← table_links soup base_url;
  links ← match links with [] => marked_links soup base_url | _ => Value links end;
  links ← match links with [] => container_links soup base_url | _ => Value links end;
  Value links.

End Scraper.

Section Crawling.
Context {L : Libraries} {U : UrlErrors} {W : Type} {N : Network W}.

(** The body of the loop over the episode links.  The call of
    [extract_audio_urls] comes after the [try] block: its exception is not
    caught. *)
Definition crawl_page (total : nat) (st : crawl_state W) (idx : nat)
    (episode_url : string) : outcome W :=
  if decide (episode_url ∈ visited st) then
    Returned (emit (Print ("[~] Skipping (already visited): " +:+ episode_url)) st)
  else
    let st := emit (VisitedAdd episode_url)
                (CrawlState ({[episode_url]} ∪ visited st) (episodes st)
                            (world st) (trace st)) in
    let st := emit (Print ("[" +:+ Str.of_nat idx +:+ "/" +:+ Str.of_nat total
                           +:+ "] Fetching: " +:+ episode_url)) st in
    let '(answer, w) := session_get episode_url (world st) in
    let st := emit (PageGet episode_url answer)
                (CrawlState (visited st) (episodes st) w (trace st)) in
    match checked answer with
    | inl e => Returned (emit (Print ("    [!] Error: " +:+ message e)) st)
    | inr response =>
        let st := emit Sleep st in
        (* Extract audio URL and metadata *)
        match extract_audio_urls (text response) episode_url with
        | Exception e => Raised e st
        | Value (Some episode_data) =>
            let st := CrawlState (visited st) (episodes st ++ [episode_data])
                                 (world st) (trace st) in
            Returned (emit (Print ("    [+] Audio URL: " +:+ audio_url episode_data)) st)
        | Value None => Returned (emit (Print "    [~] No audio found on this page") st)
        end
    end.

(** [for idx, episode_url in enumerate(episode_links, 1)] *)
Fixpoint crawl_pages (total idx : nat) (episode_links : list string)
    (st : crawl_state W) : outcome W :=
  match episode_links with
  | [] => Returned st
  | episode_url :: rest =>
      match crawl_page total st idx episode_url with
      | Returned st' => crawl_pages total (S idx) rest st'
      | Raised e st' => Raised e st'
      end
  end.

(** [crawl_episodes(session, start_url, visited)].  The call of
    [get_episode_links] comes after the [try] block as well. *)
Definition crawl_episodes (start_url : string) (visited0 : option (gset string))
    (w : W) : outcome W :=
  let st := CrawlState (default ∅ visited0) [] w [] in
  let st := emit (Print ("[*] Fetching index: " +:+ start_url)) st in
  let '(answer, w) := session_get start_url (world st) in
  let st := emit (IndexGet start_url answer)
              (CrawlState (visited st) (episodes st) w (trace st)) in
  match checked answer with
  | inl e =>
      Returned
        (emit (Print ("[!] Error fetching " +:+ start_url +:+ ": " +:+ message e)) st)
  | inr response =>
      (* Get all episode links from index *)
      match get_episode_links (text response) BASE_URL with
      | Exception e => Raised e st
      | Value episode_links =>
          let st := emit (Print ("[+] Found " +:+ Str.of_nat (length episode_links)
                                 +:+ " episode links")) st in
          (* Crawl each episode *)
          crawl_pages (length episode_links) 1 episode_links st
      end
  end.

(** The body of the loop of [main] over the links of the local index. *)
Definition fetch_page (total : nat) (st : crawl_state W) (idx : nat)
    (episode_url : string) : outcome W :=
  let st := emit (Print ("[" +:+ Str.of_nat idx +:+ "/" +:+ Str.of_nat total
                         +:+ "] Fetching: " +:+ episode_url)) st in
  let '(answer, w) := session_get episode_url (world st) in
  let st := emit (PageGet episode_url answer)
              (CrawlState (visited st) (episodes st) w (trace st)) in
  match checked answer with
  | inl e => Returned (emit (Print ("    [!] Error: " +:+ message e)) st)
  | inr response =>
      let st := emit Sleep st in
      match extract_audio_urls (text response) episode_url with
      | Exception e => Raised e st
      | Value (Some episode_data) =>
          let st := CrawlState (visited st) (episodes st ++ [episode_data])
                               (world st) (trace st) in
          Returned (emit (Print ("    [+] Audio URL: " +:+ audio_url episode_data)) st)
      | Value None => Returned (emit (Print "    [~] No audio found on this page") st)
      end
  end.

Fixpoint fetch_pages (total idx : nat) (episode_links : list string)
    (st : crawl_state W) : outcome W :=
  match episode_links with
  | [] => Returned st
  | episode_url :: rest =>
      match fetch_page total st idx episode_url with
      | Returned st' => fetch_pages total (S idx) rest st'
      | Raised e st' => Raised e st'
      end
  end.

(** [main()]: what was done, in order, the state of the network at the end,
    and the exception that left [main], if one did.  The [finally] clause
    closes the session on either way out. *)
Definition main (local_index : option string) (w : W)
  : list action * W * option ValueError :=
  let banner :=
    [Print RULE; Print "Matt & Shane's Secret Podcast - Audio URL Extractor"; Print RULE] in
  let loaded :=
    match local_index with
    | Some index_html =>
        let st := CrawlState ∅ [] w
                    (banner ++
                     [Print "[*] Found local 'The Old Testament.html' - using for testing";
                      Print ("[*] Loading index from local file: " +:+ LOCAL_INDEX)]) in
        match get_episode_links index_html BASE_URL with
        | Exception e => Raised e st
        | Value episode_links =>
            let st := emit (Print ("[+] Found " +:+ Str.of_nat (length episode_links)
                                   +:+ " episode links")) st in
            fetch_pages (length episode_links) 1 episode_links st
        end
    | None =>
        (* Crawl episodes from web *)
        match crawl_episodes EPISODE_INDEX_URL None w with
        | Returned st =>
            Returned (CrawlState (visited st) (episodes st) (world st) (banner ++ trace st))
        | Raised e st =>
            Raised e (CrawlState (visited st) (episodes st) (world st) (banner ++ trace st))
        end
    end in
  match loaded with
  | Raised e st => ((Console <$> trace st) ++ [SessionClose], world st, Some e)
  | Returned st =>
      let eps := episodes st in
      let output :=
        match eps with
        | [] => [Console (Print "[!] No episodes extracted")]
        | _ =>
            [ Console (Print (NEWLINE +:+ RULE));
              Console (Print ("SUMMARY: Extracted " +:+ Str.of_nat (length eps) +:+ " episodes"));
              Console (Print RULE) ]
            ++ save_to_csv eps OUTPUT_CSV
            ++ save_to_json eps OUTPUT_JSON
            ++ [ Console (Print (NEWLINE +:+ "[✓] Next step: Use " +:+ path_str OUTPUT_CSV
                                 +:+ " or " +:+ path_str OUTPUT_JSON
                                 +:+ " to generate RSS feed")) ]
        end in
      ((Console <$> trace st) ++ output ++ [SessionClose], world st, None)
  end.

End Crawling.

Section Feed.
Context {Document : Type} {X : XmlLibraries Document}.

(** [csv_to_rss(csv_path, rss_path)], from the rows read from the CSV file
    to the end: the tree is built as [csv_to_rss] above has it, printed,
    tidied and written to [rss_path].  The result is what was done to the
    outside, or the exception that left the function. *)
Definition csv_to_rss (clock : nat -> datetime.t) (rows : list row) (rss_path : Path)
  : raising failure (list output) :=
  match csv_to_rss clock rows with
  | Raise e => Exception (RowError e)
  | Ok rss =>
      (* Pretty print *)
      match parseString (tostring rss) with
      | inl e => Exception (XmlError e)
      | inr document =>
          let xml_str := toprettyxml document "  " in
          (* Remove XML declaration and extra blank lines *)
          let xml_str :=
            Str.join NEWLINE
              (List.filter (fun line => Str.nonempty (Str.strip line))
                 (Str.split_on LF xml_str)) in
          let xml_str := Str.replace xml_str PLAIN_DECLARATION UTF8_DECLARATION in
          (* Write to file *)
          Value
            [ FeedMkDir (path_parent rss_path);
              FeedWrite rss_path xml_str;
              FeedPrint ("[+] Generated RSS feed with " +:+ Str.of_nat (length rows)
                         +:+ " episodes");
              FeedPrint ("[+] Saved to " +:+ path_str rss_path);
              FeedPrint (NEWLINE +:+ "[*] RSS Feed URL for Overcast:");
              FeedPrint "    Raw GitHub URL: https://raw.githubusercontent.com/leebrady/mssp-ot-rss/main/feed.xml" ]
      end
  end.

End Feed.

End Raising.

(** The files that a conversion wrote, in order. *)
Definition feed_writes (done : list output) : list (Path * string) :=
  omap (fun o => match o with FeedWrite p content => Some (p, content) | _ => None end) done.

(** ** Examples with exceptions *)

Module RaisingExamples.

(** [urljoin] as far as the examples go: it raises on the two references
    whose host opens a bracket and stops. *)
Definition url_errors : UrlErrors := {|
  urljoin_raises := fun base url =>
    if String.eqb url "http://[" || String.eqb url "//["
    then Some {| reason := "Invalid IPv6 URL" |}
    else None
|}.

(** An episode page whose audio source opens a bracketed host and stops. *)
Definition bracket_html : string :=
  "<h1>Episode 5</h1><audio controls src='http://['></audio>".
Definition bracket_soup : bs4.node :=
  bs4.document
    [ bs4.Tag "h1" [] [bs4.NavigableString "Episode 5"];
      bs4.Tag "audio" [("controls", ""); ("src", "http://[")] [] ].

(** An index that lists episode 9, episode 5 and episode 7. *)
Definition short_index_html : string :=
  "<main><a href='https://msspoldt.com/ep/9'>9</a><a href='https://msspoldt.com/ep/5'>5</a><a href='https://msspoldt.com/ep/7'>7</a></main>".
Definition short_index_soup : bs4.node :=
  bs4.document
    [ bs4.Tag "main" []
        [ bs4.Tag "a" [("href", "https://msspoldt.com/ep/9")] [bs4.NavigableString "9"];
          bs4.Tag "a" [("href", "https://msspoldt.com/ep/5")] [bs4.NavigableString "5"];
          bs4.Tag "a" [("href", "https://msspoldt.com/ep/7")] [bs4.NavigableString "7"] ] ].

(** An index with a link whose target has no scheme and a host that opens
    a bracket and stops. *)
Definition bracket_index_html : string :=
  "<main><a href='https://msspoldt.com/ep/7'>7</a><a href='//['>?</a></main>".
Definition bracket_index_soup : bs4.node :=
  bs4.document
    [ bs4.Tag "main" []
        [ bs4.Tag "a" [("href", "https://msspoldt.com/ep/7")] [bs4.NavigableString "7"];
          bs4.Tag "a" [("href", "//[")] [bs4.NavigableString "?"] ] ].

Definition parser (markup : string) : bs4.node :=
  if String.eqb markup bracket_html then bracket_soup
  else if String.eqb markup short_index_html then short_index_soup
  else if String.eqb markup bracket_index_html then bracket_index_soup
  else MoreExamples.parser markup.

Definition libs : Libraries := {|
  urljoin := fun base url => url;
  BeautifulSoup := parser;
  raise_for_status := Examples.status_check
|}.



(** The XML libraries as far as the examples go: the elements are printed
    one after the other without escaping or namespace prefixes, a text
    with a form feed is not well-formed, and the pretty printer puts the
    declaration on a line of its own and ends with an empty line. *)
Fixpoint print_element (e : ET.Element) : string :=
  match e with
  | ET.mkElement tag attrib text children =>
      "<" +:+ tag
      +:+ fold_right (fun '(k, v) acc => " " +:+ k +:+ "=" +:+ quoted v +:+ acc) "" attrib
      +:+ ">" +:+ default "" text
      +:+ (fix go (cs : list ET.Element) : string :=
             match cs with
             | [] => ""
             | c :: cs' => print_element c +:+ go cs'
             end) children
      +:+ "</" +:+ tag +:+ ">"
  end.

Definition FF : ascii := ascii_of_nat 12.

Definition xml : XmlLibraries string := {|
  tostring := print_element;
  parseString := fun data =>
    if Str.contains data FF
    then inl {| expat_message := "not well-formed (invalid token)" |}
    else inr data;
  toprettyxml := fun document indent =>
    PLAIN_DECLARATION +:+ NEWLINE +:+ document +:+ NEWLINE +:+ NEWLINE
|}.

(** A row whose title holds a form feed. *)
Definition row_form_feed : row :=
  {[ "title" := Some (String FF "Episode 13"); "date" := Some "Nov 29, 2016";
     "audio_url" := Some "https://msspoldt.com/audio/13.mp3";
     "page_url" := Some "https://msspoldt.com/ep/13" ]}.

Definition FEED_PATH : Path := [".."; "feed.xml"].

End RaisingExamples.

(* ===================================================================== *)
(** * Date normalisation *)
(* ===================================================================== *)

(** C2: the three spellings of 22 November 2016 normalise to one and the same
    text, whatever the clock says, each through the pattern written for it;
    that text is the RFC 2822 form of the date with day 22, month 11 and
    year 2016. *)
Theorem parse_date_three_spellings (now : datetime.t) :
  let november_22 := datetime.make 2016 11 22 0 0 0 in
  parse_date now (Some "Nov. 22, 2016") = "Tue, 22 Nov 2016 00:00:00 +0000"
  /\ parse_date now (Some "November 22, 2016") = "Tue, 22 Nov 2016 00:00:00 +0000"
  /\ parse_date now (Some "Nov 22, 2016") = "Tue, 22 Nov 2016 00:00:00 +0000"
  /\ datetime.strptime "Nov. 22, 2016" "%b. %d, %Y" = Some november_22
  /\ datetime.strptime "November 22, 2016" "%B %d, %Y" = Some november_22
  /\ datetime.strptime "Nov 22, 2016" "%b %d, %Y" = Some november_22
  /\ datetime.strftime november_22 RFC2822 = "Tue, 22 Nov 2016 00:00:00 +0000".
Proof.
  cbv zeta. unfold parse_date.
  repeat split; vm_compute; reflexivity.
Qed.

(* ===================================================================== *)
(** * Feed assembly *)
(* ===================================================================== *)

Section Assembly.

Implicit Types (r : row) (item channel : ET.Element).

Lemma dict_get_present r key dflt :
  no_missing_cell r -> exists s, dict_get r key (Some dflt) = Some s.
Proof.
  intros Hr. unfold dict_get. destruct (r !! key) as [[s|]|] eqn:E; eauto.
  exfalso. exact (Hr key None E eq_refl).
Qed.

(** The item of a row, spelled out: the audio URL after trimming decides
    between the two shapes. *)
Lemma make_item_shape now idx r item :
  make_item now idx r = Ok item ->
  exists ttl desc date rest,
    ET.tag item = "item"
    /\ ET.children item =
         [ET.set_text (ET.new "title") ttl; ET.set_text (ET.new "description") desc]
         ++ rest
         ++ [ET.set_text (ET.new "pubDate") date;
             ET.set_text (ET.new (itunes_ns +:+ "explicit")) "yes";
             ET.set_text (ET.new (itunes_ns +:+ "duration")) "0"]
    /\ ((trimmed_audio_url r = "" /\ rest = [])
        \/ (trimmed_audio_url r <> "" /\ exists link,
              rest = [ET.set_text (ET.new "link") link;
                      ET.set (ET.set (ET.set (ET.new "enclosure")
                                "url" (trimmed_audio_url r)) "type" "audio/mpeg")
                             "length" "0";
                      ET.set_text (ET.set (ET.new "guid") "isPermaLink" "false")
                                  (trimmed_audio_url r)])).
Proof.
  unfold make_item, trimmed_audio_url.
  destruct (strip_value STRAY (dict_get r "title" _)) as [ttl|] eqn:Et; [|discriminate].
  cbn [mbind result_bind].
  destruct (dict_get r "audio_url" (Some "")) as [raw|] eqn:Ea; [|discriminate].
  cbn [strip_value mbind result_bind].
  destruct (Str.nonempty (Str.strip_chars STRAY raw)) eqn:En.
  - destruct (strip_value STRAY (dict_get r "page_url" _)) as [link|] eqn:El;
      [|discriminate].
    cbn [mbind result_bind]. intros [= <-].
    eexists _, _, _, [_; _; _]. split; [reflexivity|].
    split; [reflexivity|]. right. split.
    + intros E. rewrite E in En. discriminate.
    + eexists. reflexivity.
  - cbn [mbind result_bind]. intros [= <-].
    eexists _, _, _, []. split; [reflexivity|].
    split; [reflexivity|]. left. split; [|reflexivity].
    destruct (Str.strip_chars STRAY raw); [reflexivity|discriminate].
Qed.

Lemma make_item_total now idx r :
  no_missing_cell r -> exists item, make_item now idx r = Ok item.
Proof.
  intros Hr. unfold make_item.
  destruct (dict_get_present r "title" ("Episode " +:+ Str.of_nat idx) Hr) as [t ->].
  cbn [strip_value mbind result_bind].
  destruct (dict_get_present r "audio_url" "" Hr) as [a ->].
  cbn [strip_value mbind result_bind].
  destruct (Str.nonempty (Str.strip_chars STRAY a)).
  - destruct (dict_get_present r "page_url" (Str.strip_chars STRAY a) Hr) as [p ->].
    cbn [strip_value mbind result_bind]. eauto.
  - cbn [mbind result_bind]. eauto.
Qed.

(** C4, as the code has it: the item of a row carries a link, an enclosure
    and a guid exactly when the row's audio URL, trimmed of the spaces,
    double quotes and [>] around it, is not empty; the guid text and the
    enclosure URL are that trimmed audio URL; without it the item carries
    none of the three; the title, the description and the publication
    date are there in both cases.  A row without a missing cell always
    yields an item. *)
Theorem item_elements_follow_trimmed_audio_url now idx r :
  (no_missing_cell r -> exists item, make_item now idx r = Ok item)
  /\ forall item, make_item now idx r = Ok item ->
       let audio := trimmed_audio_url r in
       ((has_child item "link" /\ has_child item "enclosure" /\ has_child item "guid")
        <-> audio <> "")
       /\ (audio <> "" ->
           exists guid enclosure,
             child item "guid" = Some guid /\ ET.text guid = Some audio
             /\ ET.get guid "isPermaLink" = Some "false"
             /\ child item "enclosure" = Some enclosure
             /\ ET.get enclosure "url" = Some audio
             /\ ET.get enclosure "type" = Some "audio/mpeg"
             /\ ET.get enclosure "length" = Some "0")
       /\ (audio = "" ->
           child item "link" = None /\ child item "enclosure" = None
           /\ child item "guid" = None)
       /\ has_child item "title" /\ has_child item "description"
       /\ has_child item "pubDate".
Proof.
  split; [apply make_item_total|].
  intros item Hitem. cbv zeta.
  destruct (make_item_shape _ _ _ _ Hitem) as (ttl & desc & date & rest & _ & Hch & Hcase).
  generalize dependent (trimmed_audio_url r). intros audio Hcase.
  unfold has_child, child, ET.findall. rewrite Hch. clear Hch Hitem.
  destruct Hcase as [[-> ->] | [Hne (link & ->)]].
  - split; [split|split; [|split]].
    + intros (Hlink & _). vm_compute in Hlink. destruct Hlink as [? [=]].
    + intros Hne. destruct Hne. reflexivity.
    + intros Hne. destruct Hne. reflexivity.
    + intros _. vm_compute. auto.
    + vm_compute. repeat split; eexists; reflexivity.
  - split; [split|split; [|split]].
    + intros _. exact Hne.
    + intros _. vm_compute. repeat split; eexists; reflexivity.
    + intros _. eexists _, _. vm_compute. repeat split; reflexivity.
    + intros E. contradiction.
    + vm_compute. repeat split; eexists; reflexivity.
Qed.

Lemma add_items_spec clock episodes : forall idx channel channel',
  add_items clock idx episodes channel = Ok channel' ->
  exists items,
    ET.tag channel' = ET.tag channel
    /\ ET.children channel' = ET.children channel ++ items
    /\ length items = length episodes
    /\ Forall (fun item => ET.tag item = "item") items
    /\ forall i r, episodes !! i = Some r ->
         exists item, make_item (clock (idx + i)%nat) (idx + i)%nat r = Ok item
                      /\ items !! i = Some item.
Proof.
  induction episodes as [|r episodes IH]; intros idx channel channel'; simpl.
  - intros [= <-]. exists []. rewrite app_nil_r. repeat split; auto.
    intros i r Hi. rewrite lookup_nil in Hi. discriminate.
  - destruct (make_item (clock idx) idx r) as [item|] eqn:Eitem; [|discriminate].
    cbn [mbind result_bind]. intros Hrest.
    destruct (IH _ _ _ Hrest) as (items & Htag & Hch & Hlen & Htags & Hat).
    exists (item :: items).
    destruct channel as [t a x c]. simpl in *.
    split; [exact Htag|]. split; [rewrite Hch, <- app_assoc; reflexivity|].
    split; [simpl; congruence|]. split.
    + constructor; [|exact Htags].
      destruct (make_item_shape _ _ _ _ Eitem) as (? & ? & ? & ? & Ht & _). exact Ht.
    + intros [|i] r' Hi; simpl in Hi.
      * injection Hi as <-. rewrite Nat.add_0_r. eauto.
      * destruct (Hat i r' Hi) as (item' & Hmk & Hit).
        exists item'. replace (idx + S i)%nat with (S idx + i)%nat by lia. auto.
Qed.

Lemma add_items_total clock episodes : forall idx channel,
  Forall no_missing_cell episodes ->
  exists channel', add_items clock idx episodes channel = Ok channel'.
Proof.
  induction episodes as [|r episodes IH]; intros idx channel Hall; simpl; [eauto|].
  inversion Hall as [|? ? Hr Hrest]; subst.
  destruct (make_item_total (clock idx) idx r Hr) as [item ->].
  cbn [mbind result_bind]. apply IH, Hrest.
Qed.

Lemma filter_all_items (items : list ET.Element) :
  Forall (fun item => ET.tag item = "item") items ->
  List.filter (fun c => String.eqb (ET.tag c) "item") items = items.
Proof.
  induction 1 as [|item items Ht _ IH]; simpl; [reflexivity|].
  rewrite Ht. simpl. f_equal. exact IH.
Qed.

(** C3: the rows are reversed once: the feed has one item per row, and the
    item at position [i] is the one built, with index [i + 1], from the row
    at position [n - 1 - i].  When no cell is missing the feed is produced. *)
Theorem csv_to_rss_reverses_once clock (rows : list row) :
  (Forall no_missing_cell rows -> exists rss, csv_to_rss clock rows = Ok rss)
  /\ forall rss, csv_to_rss clock rows = Ok rss ->
       length (feed_items rss) = length rows
       /\ forall i r, (i < length rows)%nat ->
            rows !! (length rows - 1 - i)%nat = Some r ->
            exists item, make_item (clock (S i)) (S i) r = Ok item
                         /\ feed_items rss !! i = Some item.
Proof.
  unfold csv_to_rss. split.
  - intros Hall.
    destruct (add_items_total clock (reverse rows) 1%nat channel_head) as [channel ->].
    + apply Forall_reverse, Hall.
    + cbn [mbind result_bind]. eauto.
  - intros rss.
    destruct (add_items clock 1 (reverse rows) channel_head) as [channel|] eqn:Eadd;
      [|discriminate].
    cbn [mbind result_bind]. intros Hrss.
    assert (rss = ET.append rss_root channel) as -> by (injection Hrss as <-; reflexivity).
    clear Hrss.
    destruct (add_items_spec _ _ _ _ _ Eadd) as (items & Htag & Hch & Hlen & Htags & Hat).
    assert (Hfeed : feed_items (ET.append rss_root channel) = items).
    { unfold feed_items, ET.findall. simpl. rewrite Htag. simpl.
      rewrite Hch, List.filter_app, (filter_all_items _ Htags).
      rewrite app_nil_r. reflexivity. }
    rewrite Hfeed. rewrite length_reverse in Hlen. split; [exact Hlen|].
    intros i r Hi Hr.
    apply (Hat i r). rewrite reverse_lookup by exact Hi.
    replace (length rows - S i)%nat with (length rows - 1 - i)%nat by lia. exact Hr.
Qed.

End Assembly.

(** C3 at work: two rows, the newer one comes first. *)
Lemma csv_to_rss_reverses_once_witness :
  exists rss item,
    csv_to_rss (fun _ => Examples.noon) [Examples.row7; Examples.row_bare] = Ok rss
    /\ length (feed_items rss) = 2%nat
    /\ make_item Examples.noon 1 Examples.row_bare = Ok item
    /\ feed_items rss !! 0%nat = Some item.
Proof.
  destruct (csv_to_rss_reverses_once (fun _ => Examples.noon)
              [Examples.row7; Examples.row_bare]) as [Htotal Hat].
  destruct Htotal as [rss Hrss].
  { apply (bool_decide_unpack _). vm_compute. exact I. }
  destruct (Hat rss Hrss) as [Hlen Hpos].
  destruct (Hpos 0%nat Examples.row_bare) as (item & Hitem & Hget);
    [simpl; lia | reflexivity |].
  exists rss, item. auto.
Defined.

(** C4 at work on a clean row. *)
Lemma item_elements_follow_trimmed_audio_url_witness :
  exists item guid,
    make_item Examples.noon 1 Examples.row7 = Ok item
    /\ child item "guid" = Some guid
    /\ ET.text guid = Some "https://msspoldt.com/audio/7.mp3".
Proof.
  destruct (item_elements_follow_trimmed_audio_url Examples.noon 1 Examples.row7)
    as [Htotal Hitem].
  destruct Htotal as [item Hmk].
  { apply (bool_decide_unpack _). vm_compute. exact I. }
  destruct (Hitem item Hmk) as (_ & Hguid & _).
  destruct Hguid as (guid & enclosure & Hg & Htext & _).
  { vm_compute. discriminate. }
  exists item, guid. repeat split; [exact Hmk | exact Hg |].
  rewrite Htext. vm_compute. reflexivity.
Defined.

(** C4 as stated fails: the guid is not the audio URL of the row when that
    URL ends in a stray [>], and a row whose audio URL is a single space,
    which is not empty, gets no link, no enclosure and no guid. *)
Lemma audio_url_trimmed_not_verbatim :
  (exists item guid raw,
     make_item Examples.noon 1 Examples.row_stray = Ok item
     /\ Examples.row_stray !! "audio_url" = Some (Some raw)
     /\ child item "guid" = Some guid
     /\ ET.text guid = Some "https://msspoldt.com/audio/8.mp3"
     /\ ET.text guid <> Some raw)
  /\ (exists item raw,
        make_item Examples.noon 1 Examples.row_blank = Ok item
        /\ Examples.row_blank !! "audio_url" = Some (Some raw)
        /\ raw <> ""
        /\ child item "link" = None
        /\ child item "enclosure" = None
        /\ child item "guid" = None).
Proof.
  split.
  - eexists _, _, _. split; [vm_compute; reflexivity|].
    split; [vm_compute; reflexivity|].
    split; [vm_compute; reflexivity|].
    split; [vm_compute; reflexivity|]. vm_compute. discriminate.
  - eexists _, _. split; [vm_compute; reflexivity|].
    split; [vm_compute; reflexivity|].
    split; [discriminate|]. repeat split; vm_compute; reflexivity.
Qed.

(* ===================================================================== *)
(** * Markup extraction *)
(* ===================================================================== *)

Section ExtractionProofs.
Context {L : Libraries}.

Lemma find_all_elem n nm tests tag :
  tag ∈ bs4.find_all n nm tests ->
  tag ∈ bs4.descendants n /\ bs4.name tag = Some nm.
Proof.
  unfold bs4.find_all. rewrite list_elem_of_In, List.filter_In, <- list_elem_of_In.
  intros [Hin Hm]. split; [exact Hin|].
  destruct tag as [nm' attrs cs| |]; simpl in Hm; try discriminate.
  apply andb_prop in Hm as [Hnm _]. apply String.eqb_eq in Hnm. simpl. congruence.
Qed.

Lemma find_elem n nm tests tag :
  bs4.find n nm tests = Some tag ->
  tag ∈ bs4.descendants n /\ bs4.name tag = Some nm.
Proof.
  unfold bs4.find. intros Hhead. apply (find_all_elem n nm tests).
  destruct (bs4.find_all n nm tests); simpl in Hhead; [discriminate|].
  injection Hhead as ->. left.
Qed.

(** C9: a page without any audio element yields no record.  The function
    is total: it returns [None] here and raises nothing. *)
Theorem no_audio_element_no_record html_content page_url :
  (forall n, n ∈ bs4.descendants (BeautifulSoup html_content) ->
             bs4.name n <> Some "audio") ->
  extract_audio_urls html_content page_url = None.
Proof.
  intros Hnone. unfold extract_audio_urls.
  destruct (bs4.find _ "audio" _) as [tag|] eqn:Efind; [|reflexivity].
  apply find_elem in Efind as [Hin Hname].
  destruct (Hnone tag Hin Hname).
Qed.

(** C10: when the audio element that the function picks, the first one
    with a [controls] attribute, has no [src] or an empty one, the page
    yields no record; so does every page all of whose audio elements lack
    a source. *)
Theorem audio_without_source_no_record html_content page_url :
  let soup := BeautifulSoup html_content in
  ((forall audio_tag,
       bs4.find soup "audio" [("controls", bs4.Present)] = Some audio_tag ->
       bs4.get audio_tag "src" = None \/ bs4.get audio_tag "src" = Some "") ->
   extract_audio_urls html_content page_url = None)
  /\ ((forall n, n ∈ bs4.descendants soup -> bs4.name n = Some "audio" ->
                 bs4.get n "src" = None \/ bs4.get n "src" = Some "") ->
      extract_audio_urls html_content page_url = None).
Proof.
  cbv zeta.
  assert (Hfirst : (forall audio_tag,
       bs4.find (BeautifulSoup html_content) "audio" [("controls", bs4.Present)]
         = Some audio_tag ->
       bs4.get audio_tag "src" = None \/ bs4.get audio_tag "src" = Some "") ->
     extract_audio_urls html_content page_url = None).
  { intros Hsrc. unfold extract_audio_urls.
    destruct (bs4.find _ "audio" _) as [tag|] eqn:Efind; [|reflexivity].
    destruct (Hsrc tag eq_refl) as [-> | ->]; reflexivity. }
  split; [exact Hfirst|].
  intros Hall. apply Hfirst. intros tag Hfind.
  apply find_elem in Hfind as [Hin Hname]. auto.
Qed.

(** C6, as the code has it: on a page with an audio source a record is
    returned, and its title comes from the first of the heading [h1] and
    the document [title] that is present, whether or not it has any text:
    it is the stripped text of that element, and [Unknown] when that text
    is empty. *)
Theorem title_from_first_present_location html_content url audio_tag src :
  let soup := BeautifulSoup html_content in
  bs4.find soup "audio" [("controls", bs4.Present)] = Some audio_tag ->
  bs4.get audio_tag "src" = Some src ->
  src <> "" ->
  exists ep,
    extract_audio_urls html_content url = Some ep
    /\ audio_url ep = urljoin url src
    /\ page_url ep = url
    /\ (forall h1, bs4.find soup "h1" [] = Some h1 ->
          title ep = or_else (Some (bs4.get_text_strip h1)) "Unknown")
    /\ (forall t, bs4.find soup "h1" [] = None ->
          bs4.find soup "title" [] = Some t ->
          title ep = or_else (Some (bs4.get_text_strip t)) "Unknown").
Proof.
  cbv zeta. intros Hfind Hsrc Hne. unfold extract_audio_urls.
  rewrite Hfind, Hsrc.
  destruct src as [|c src']; [contradiction|]. cbn [Str.nonempty negb].
  eexists. split; [reflexivity|]. cbn [audio_url page_url title].
  split; [reflexivity|]. split; [reflexivity|].
  unfold title_selectors. cbn [find_title]. split.
  - intros h1 ->. reflexivity.
  - intros t -> ->. reflexivity.
Qed.

End ExtractionProofs.

(** C9 at work on the page about the site. *)
Lemma no_audio_element_no_record_witness :
  extract_audio_urls (L := Examples.libs) Examples.about_html
    "https://msspoldt.com/ep/8" = None.
Proof.
  apply (no_audio_element_no_record (L := Examples.libs)).
  intros n Hn. vm_compute in Hn.
  repeat (apply elem_of_cons in Hn as [-> | Hn]; [intros Heq; discriminate Heq|]).
  apply elem_of_nil in Hn. destruct Hn.
Defined.

(** C10 at work on the page whose audio element has no source. *)
Lemma audio_without_source_no_record_witness :
  extract_audio_urls (L := Examples.libs) Examples.nosrc_html
    "https://msspoldt.com/ep/9" = None.
Proof.
  apply (proj1 (audio_without_source_no_record (L := Examples.libs)
                  Examples.nosrc_html "https://msspoldt.com/ep/9")).
  intros audio_tag Hfind. vm_compute in Hfind. injection Hfind as <-.
  left. reflexivity.
Defined.

(** C6 at work on the page of episode 7. *)
Lemma title_from_first_present_location_witness :
  exists ep,
    extract_audio_urls (L := Examples.libs) Examples.page7_html
      "https://msspoldt.com/ep/7" = Some ep
    /\ title ep = "Episode 7".
Proof.
  destruct (title_from_first_present_location (L := Examples.libs)
              Examples.page7_html "https://msspoldt.com/ep/7"
              (bs4.Tag "audio" [("controls", "");
                                ("src", "https://msspoldt.com/audio/7.mp3")] [])
              "https://msspoldt.com/audio/7.mp3")
    as (ep & Hep & _ & _ & Hh1 & _);
    [vm_compute; reflexivity | reflexivity | discriminate |].
  exists ep. split; [exact Hep|].
  rewrite (Hh1 (bs4.Tag "h1" [] [bs4.NavigableString "Episode 7"]))
    by (vm_compute; reflexivity).
  vm_compute. reflexivity.
Defined.

(** C6 as stated fails: the heading is there but empty, the document title
    has a text, and the title of the record is [Unknown]. *)
Lemma empty_heading_hides_document_title :
  BeautifulSoup (Libraries := Examples.libs) Examples.page12_html = Examples.page12_soup
  /\ first_nonempty_text Examples.page12_soup title_selectors = Some "Episode 12"
  /\ title <$> extract_audio_urls (L := Examples.libs) Examples.page12_html
                 "https://msspoldt.com/ep/12" = Some "Unknown".
Proof. repeat split; vm_compute; reflexivity. Qed.

(** C5 on a failing input: the container links to another host, and the link
    is returned, whatever [urljoin] makes of it; with the example libraries
    the result is that very URL, whose origin is not the one of [BASE_URL]. *)
Theorem container_keeps_foreign_origin :
  (forall L : Libraries,
      container_links (L := L) Examples.foreign_soup BASE_URL
      = [urljoin BASE_URL "https://msspoldt.com.evil.example/ep1"])
  /\ get_episode_links (L := Examples.libs) Examples.foreign_html BASE_URL
     = ["https://msspoldt.com.evil.example/ep1"]
  /\ origin "https://msspoldt.com.evil.example/ep1"
     = Some ("https", "msspoldt.com.evil.example")
  /\ origin BASE_URL = Some ("https", "msspoldt.com")
  /\ origin "https://msspoldt.com.evil.example/ep1" <> origin BASE_URL.
Proof.
  split; [intros L; reflexivity|].
  split; [vm_compute; reflexivity|].
  split; [vm_compute; reflexivity|].
  split; [vm_compute; reflexivity|].
  vm_compute. discriminate.
Qed.

(* ===================================================================== *)
(** * Crawling *)
(* ===================================================================== *)

Section TraceFacts.

Lemma page_answers_app tr1 tr2 :
  page_answers (tr1 ++ tr2) = page_answers tr1 ++ page_answers tr2.
Proof. apply omap_app. Qed.

Lemma page_gets_answers tr : page_gets tr = (page_answers tr).*1.
Proof.
  induction tr as [|e tr IH]; [reflexivity|].
  unfold page_gets, page_answers in *.
  destruct e; simpl; first [exact IH | f_equal; exact IH].
Qed.

Lemma page_gets_app tr1 tr2 : page_gets (tr1 ++ tr2) = page_gets tr1 ++ page_gets tr2.
Proof. apply omap_app. Qed.

Lemma adds_precede_gets_app tr1 tr2 :
  adds_precede_gets tr1 -> adds_precede_gets tr2 -> adds_precede_gets (tr1 ++ tr2).
Proof.
  intros H1 H2 i url answer Hi.
  apply lookup_app_Some in Hi as [Hi | [Hlen Hi]].
  - destruct (H1 i url answer Hi) as (j & Hlt & Hj).
    exists j. split; [exact Hlt|]. apply lookup_app_l_Some, Hj.
  - destruct (H2 _ url answer Hi) as (j & Hlt & Hj).
    exists (length tr1 + j)%nat. split; [lia|].
    rewrite lookup_app_r by lia.
    replace (length tr1 + j - length tr1)%nat with j by lia. exact Hj.
Qed.


Lemma unvisited_same seen seen' links :
  seen = seen' -> unvisited seen links = unvisited seen' links.
Proof. intros ->. reflexivity. Qed.

Lemma unvisited_elem links : forall seen url,
  url ∈ unvisited seen links <-> url ∈ links /\ url ∉ seen.
Proof.
  induction links as [|l links IH]; intros seen url; simpl.
  - rewrite !elem_of_nil. tauto.
  - destruct (decide (l ∈ seen)) as [Hin|Hout].
    + rewrite IH, elem_of_cons. split.
      * intros [? ?]. auto.
      * intros [[-> | ?] ?]; [contradiction | auto].
    + rewrite !elem_of_cons, IH. split.
      * intros [-> | [? Hn]]; [auto|]. split; [auto|]. set_solver.
      * intros [[-> | ?] Hn]; [auto|].
        destruct (decide (url = l)) as [-> | Hne]; [auto|].
        right. split; [assumption|]. set_solver.
Qed.

Lemma unvisited_NoDup links : forall seen, NoDup (unvisited seen links).
Proof.
  induction links as [|l links IH]; intros seen; simpl; [constructor|].
  destruct (decide (l ∈ seen)); [apply IH|].
  constructor; [|apply IH].
  rewrite unvisited_elem. intros [_ Hn]. set_solver.
Qed.

End TraceFacts.

Section CrawlProofs.
Context {L : Libraries} {W : Type} {N : Network W}.

Lemma page_record_url url answer ep :
  page_record (url, answer) = Some ep -> page_url ep = url.
Proof.
  unfold page_record, extract_audio_urls. simpl.
  destruct (checked answer) as [e|response]; [discriminate|].
  destruct (bs4.find _ "audio" _) as [tag|]; [|discriminate].
  destruct (bs4.get tag "src") as [src|]; [|discriminate].
  destruct (negb (Str.nonempty src)); [discriminate|].
  intros [= <-]. reflexivity.
Qed.

Lemma records_in_request_order (answers : list (string * (RequestException + Response))) :
  sublist (page_url <$> omap page_record answers) answers.*1.
Proof.
  induction answers as [|[url answer] answers IH]; simpl; [constructor|].
  destruct (page_record (url, answer)) as [ep|] eqn:E; simpl.
  - rewrite (page_record_url _ _ _ E). constructor. exact IH.
  - constructor. exact IH.
Qed.

(** One turn of the loop. *)
Lemma crawl_page_spec total st idx url :
  exists tr,
    trace (crawl_page total st idx url) = trace st ++ tr
    /\ visited (crawl_page total st idx url) = {[url]} ∪ visited st
    /\ page_gets tr = (if decide (url ∈ visited st) then [] else [url])
    /\ episodes (crawl_page total st idx url)
       = episodes st ++ omap page_record (page_answers tr)
    /\ adds_precede_gets tr.
Proof.
  unfold crawl_page. destruct (decide (url ∈ visited st)) as [Hin|Hout].
  - eexists [_]. simpl. split; [reflexivity|]. split; [set_solver|].
    split; [reflexivity|]. split; [rewrite app_nil_r; reflexivity|].
    intros [|[|i]] u a Hi; simpl in Hi; discriminate.
  - cbn [emit world trace visited episodes].
    destruct (session_get url (world st)) as [answer w'] eqn:Eget.
    assert (Hpre : forall rest,
               (forall i u a, rest !! i <> Some (PageGet u a)) ->
               adds_precede_gets
                 (VisitedAdd url
                  :: Print ("[" +:+ Str.of_nat idx +:+ "/" +:+ Str.of_nat total
                            +:+ "] Fetching: " +:+ url)
                  :: PageGet url answer :: rest)).
    { intros rest Hrest [|[|[|i]]] u a Hi; simpl in Hi; try discriminate.
      - injection Hi as <- <-. exists 0%nat. split; [lia|reflexivity].
      - destruct (Hrest i u a Hi). }
    unfold page_record at 1.
    destruct (checked answer) as [e|response] eqn:Echk.
    + eexists [_; _; _; _]. cbn [emit world trace visited episodes].
      split; [rewrite <- !app_assoc; reflexivity|]. split; [reflexivity|].
      split; [reflexivity|]. split.
      * cbn. unfold page_record. cbn. rewrite Echk, app_nil_r. reflexivity.
      * apply Hpre. intros [|[|i]] u a; simpl; discriminate.
    + destruct (extract_audio_urls (text response) url) as [ep|] eqn:Eext.
      * eexists [_; _; _; _; _]. cbn [emit world trace visited episodes].
        split; [rewrite <- !app_assoc; reflexivity|]. split; [reflexivity|].
        split; [reflexivity|]. split.
        -- cbn. unfold page_record. cbn. rewrite Echk, Eext. reflexivity.
        -- apply Hpre. intros [|[|[|i]]] u a; simpl; discriminate.
      * eexists [_; _; _; _; _]. cbn [emit world trace visited episodes].
        split; [rewrite <- !app_assoc; reflexivity|]. split; [reflexivity|].
        split; [reflexivity|]. split.
        -- cbn. unfold page_record. cbn. rewrite Echk, Eext, app_nil_r. reflexivity.
        -- apply Hpre. intros [|[|[|i]]] u a; simpl; discriminate.
Qed.

(** The whole loop. *)
Lemma crawl_pages_spec total links : forall idx st,
  exists tr,
    trace (crawl_pages total idx links st) = trace st ++ tr
    /\ visited (crawl_pages total idx links st) = list_to_set links ∪ visited st
    /\ page_gets tr = unvisited (visited st) links
    /\ episodes (crawl_pages total idx links st)
       = episodes st ++ omap page_record (page_answers tr)
    /\ adds_precede_gets tr.
Proof.
  induction links as [|url links IH]; intros idx st; simpl.
  - exists []. rewrite !app_nil_r. split; [reflexivity|]. split; [set_solver|].
    split; [reflexivity|]. split; [reflexivity|].
    intros i u a Hi. rewrite lookup_nil in Hi. discriminate.
  - destruct (crawl_page_spec total st idx url) as (tr1 & Ht1 & Hv1 & Hg1 & He1 & Hp1).
    destruct (IH (S idx) (crawl_page total st idx url))
      as (tr2 & Ht2 & Hv2 & Hg2 & He2 & Hp2).
    exists (tr1 ++ tr2).
    split; [rewrite Ht2, Ht1, app_assoc; reflexivity|].
    split; [rewrite Hv2, Hv1; set_solver|].
    split.
    + rewrite page_gets_app, Hg1, Hg2, Hv1.
      destruct (decide (url ∈ visited st)) as [Hin|Hout]; simpl; [|reflexivity].
      apply unvisited_same. set_solver.
    + split; [|apply adds_precede_gets_app; assumption].
      rewrite He2, He1, page_answers_app, omap_app, app_assoc. reflexivity.
Qed.

(** The run as a whole: what is printed and requested for the index, and
    then either the error message or the loop over the links. *)
Lemma crawl_episodes_spec start_url visited0 w :
  let st := crawl_episodes start_url visited0 w in
  let answer := (session_get start_url w).1 in
  match checked answer with
  | inl e =>
      trace st = [Print ("[*] Fetching index: " +:+ start_url);
                  IndexGet start_url answer;
                  Print ("[!] Error fetching " +:+ start_url +:+ ": " +:+ message e)]
      /\ episodes st = []
      /\ visited st = default ∅ visited0
      /\ world st = (session_get start_url w).2
  | inr response =>
      let links := get_episode_links (text response) BASE_URL in
      exists tr,
        trace st = [Print ("[*] Fetching index: " +:+ start_url);
                    IndexGet start_url answer;
                    Print ("[+] Found " +:+ Str.of_nat (length links)
                           +:+ " episode links")] ++ tr
        /\ visited st = list_to_set links ∪ default ∅ visited0
        /\ page_gets tr = unvisited (default ∅ visited0) links
        /\ episodes st = omap page_record (page_answers tr)
        /\ adds_precede_gets tr
  end.
Proof.
  cbv zeta. unfold crawl_episodes. cbn [emit world trace visited episodes].
  destruct (session_get start_url w) as [answer w'] eqn:Eget. cbn [fst snd].
  destruct (checked answer) as [e|response] eqn:Echk.
  - repeat split; reflexivity.
  - match goal with
    | |- context [crawl_pages ?total ?idx ?links ?st] =>
        destruct (crawl_pages_spec total links idx st) as (tr & Ht & Hv & Hg & He & Hp)
    end.
    exists tr. cbn [emit world trace visited episodes app] in *.
    repeat split; assumption.
Qed.

Lemma no_page_get_in_head (a b c : effect) :
  (forall url answer, a <> PageGet url answer) ->
  (forall url answer, b <> PageGet url answer) ->
  (forall url answer, c <> PageGet url answer) ->
  page_gets [a; b; c] = [] /\ page_answers [a; b; c] = [] /\ adds_precede_gets [a; b; c].
Proof.
  intros Ha Hb Hc. split; [|split].
  - destruct a, b, c; try reflexivity;
      solve [edestruct Ha; reflexivity | edestruct Hb; reflexivity
            | edestruct Hc; reflexivity].
  - destruct a, b, c; try reflexivity;
      solve [edestruct Ha; reflexivity | edestruct Hb; reflexivity
            | edestruct Hc; reflexivity].
  - intros [|[|[|i]]] url answer Hi; simpl in Hi; try discriminate;
      injection Hi as ->; [destruct (Ha url answer) | destruct (Hb url answer)
                          | destruct (Hc url answer)]; reflexivity.
Qed.

(** What every run satisfies, failed index or not. *)
Lemma crawl_episodes_trace start_url visited0 w :
  let st := crawl_episodes start_url visited0 w in
  NoDup (page_gets (trace st))
  /\ (forall url, url ∈ page_gets (trace st) ->
                  (url ∉ default ∅ visited0) /\ (url ∈ visited st))
  /\ episodes st = omap page_record (page_answers (trace st))
  /\ adds_precede_gets (trace st).
Proof.
  cbv zeta. pose proof (crawl_episodes_spec start_url visited0 w) as Hspec.
  cbv zeta in Hspec.
  destruct (checked (session_get start_url w).1) as [e|response].
  - destruct Hspec as (-> & -> & -> & _).
    destruct (no_page_get_in_head
                (Print ("[*] Fetching index: " +:+ start_url))
                (IndexGet start_url (session_get start_url w).1)
                (Print ("[!] Error fetching " +:+ start_url +:+ ": " +:+ message e)))
      as (Hg & Ha & Hp); try discriminate.
    rewrite Hg, Ha. split; [constructor|]. split; [|split; [reflexivity|exact Hp]].
    intros url Hin. apply elem_of_nil in Hin. destruct Hin.
  - destruct Hspec as (tr & -> & -> & Hg & -> & Hp).
    destruct (no_page_get_in_head
                (Print ("[*] Fetching index: " +:+ start_url))
                (IndexGet start_url (session_get start_url w).1)
                (Print ("[+] Found "
                        +:+ Str.of_nat (length (get_episode_links (text response) BASE_URL))
                        +:+ " episode links")))
      as (Hg0 & Ha0 & Hp0); try discriminate.
    rewrite page_gets_app, page_answers_app, Hg0, Ha0, Hg. cbn [app].
    split; [apply unvisited_NoDup|]. split; [|split; [reflexivity|]].
    + intros url Hin. apply unvisited_elem in Hin as [Hin Hout].
      split; [exact Hout|]. apply elem_of_union_l, elem_of_list_to_set, Hin.
    + apply (adds_precede_gets_app [_; _; _] tr); assumption.
Qed.

(** C1: within one call each URL is requested as an episode page at most
    once, and at most one record is extracted for it; a link that is in
    [visited] when the call begins is never requested; every request for a
    page comes after the URL has been added to [visited], where it still
    is when the call ends. *)
Theorem crawl_fetches_each_link_once start_url visited0 w :
  let st := crawl_episodes start_url visited0 w in
  NoDup (page_gets (trace st))
  /\ NoDup (page_url <$> episodes st)
  /\ (forall url, url ∈ default ∅ visited0 -> url ∉ page_gets (trace st))
  /\ (forall i url answer, trace st !! i = Some (PageGet url answer) ->
        exists j, (j < i)%nat /\ trace st !! j = Some (VisitedAdd url))
  /\ (forall url, url ∈ page_gets (trace st) -> url ∈ visited st).
Proof.
  cbv zeta.
  destruct (crawl_episodes_trace start_url visited0 w) as (Hnd & Hin & Hep & Hp).
  split; [exact Hnd|]. split; [|split; [|split]].
  - rewrite Hep. eapply sublist_NoDup; [|apply records_in_request_order].
    rewrite <- page_gets_answers. exact Hnd.
  - intros url Hv Hg. destruct (Hin url Hg) as [Hout _]. contradiction.
  - exact Hp.
  - intros url Hg. apply (Hin url Hg).
Qed.

(** C8, as the code has it: when the request for the index fails, by an
    exception of [session.get] or of [raise_for_status], the call prints
    the error, requests no page, leaves [visited] as it was and returns the
    empty list; a call whose index is fetched and lists no link returns
    the empty list and the same [visited] as well. *)
Theorem index_failure_returns_empty start_url visited0 w :
  let st := crawl_episodes start_url visited0 w in
  (forall e, checked (session_get start_url w).1 = inl e ->
     episodes st = [] /\ visited st = default ∅ visited0 /\ page_gets (trace st) = []
     /\ last (trace st)
        = Some (Print ("[!] Error fetching " +:+ start_url +:+ ": " +:+ message e)))
  /\ (forall response, checked (session_get start_url w).1 = inr response ->
        get_episode_links (text response) BASE_URL = [] ->
        episodes st = [] /\ visited st = default ∅ visited0 /\ page_gets (trace st) = []).
Proof.
  cbv zeta. pose proof (crawl_episodes_spec start_url visited0 w) as Hspec.
  cbv zeta in Hspec. split.
  - intros e He. rewrite He in Hspec. destruct Hspec as (-> & -> & -> & _).
    repeat split; reflexivity.
  - intros response Hr Hlinks. rewrite Hr, Hlinks in Hspec.
    destruct Hspec as (tr & -> & -> & Hg & -> & _). simpl in Hg.
    rewrite page_gets_app, Hg. rewrite (page_gets_answers tr) in Hg.
    apply fmap_nil_inv in Hg. rewrite Hg.
    split; [reflexivity|]. split; [set_solver|reflexivity].
Qed.

End CrawlProofs.

(** C1 at work on the example site, whose index lists episode 7 twice. *)
Lemma crawl_fetches_each_link_once_witness :
  let st := crawl_episodes (L := Examples.libs) (N := Examples.site)
              EPISODE_INDEX_URL None 0%nat in
  page_gets (trace st)
  = ["https://msspoldt.com/ep/7"; "https://msspoldt.com/ep/8";
     "https://msspoldt.com/ep/9"; "https://msspoldt.com/ep/12"]
  /\ "https://msspoldt.com/ep/7" ∈ visited st
  /\ exists j, (j < 5)%nat /\ trace st !! j = Some (VisitedAdd "https://msspoldt.com/ep/7").
Proof.
  cbv zeta.
  destruct (crawl_fetches_each_link_once (L := Examples.libs) (N := Examples.site)
              EPISODE_INDEX_URL None 0%nat) as (_ & _ & _ & Hbefore & Hvisited).
  split; [vm_compute; reflexivity|]. split.
  - apply Hvisited. apply (bool_decide_unpack _). vm_compute. exact I.
  - eapply Hbefore. vm_compute. reflexivity.
Defined.

(** C8 at work on the site that cannot be reached. *)
Lemma index_failure_returns_empty_witness :
  episodes (crawl_episodes (L := Examples.libs) (N := Examples.dead_site)
              EPISODE_INDEX_URL None 0%nat) = []
  /\ episodes (crawl_episodes (L := Examples.libs) (N := Examples.blank_site)
                 EPISODE_INDEX_URL None 0%nat) = [].
Proof.
  destruct (index_failure_returns_empty (L := Examples.libs) (N := Examples.dead_site)
              EPISODE_INDEX_URL None 0%nat) as [Hfail _].
  destruct (index_failure_returns_empty (L := Examples.libs) (N := Examples.blank_site)
              EPISODE_INDEX_URL None 0%nat) as [_ Hnone].
  split.
  - apply (Hfail {| message := "Connection refused" |}). vm_compute. reflexivity.
  - apply (Hnone {| status_code := 200; text := "" |}); vm_compute; reflexivity.
Defined.

(** C8 as stated fails: a call whose index cannot be fetched, because the
    connection is refused or because the server answers 503, and a call
    whose index is fetched and lists nothing hand the same to the caller:
    the empty list, and [visited] unchanged. *)
Lemma index_failure_not_signalled :
  let refused := crawl_episodes (L := Examples.libs) (N := Examples.dead_site)
                   EPISODE_INDEX_URL None 0%nat in
  let unavailable := crawl_episodes (L := Examples.libs) (N := Examples.broken_site)
                       EPISODE_INDEX_URL None 0%nat in
  let nothing := crawl_episodes (L := Examples.libs) (N := Examples.blank_site)
                   EPISODE_INDEX_URL None 0%nat in
  checked (L := Examples.libs)
    (session_get (Network := Examples.dead_site) EPISODE_INDEX_URL 0%nat).1
  = inl {| message := "Connection refused" |}
  /\ checked (L := Examples.libs)
       (session_get (Network := Examples.broken_site) EPISODE_INDEX_URL 0%nat).1
     = inl {| message := "503 Server Error" |}
  /\ checked (L := Examples.libs)
       (session_get (Network := Examples.blank_site) EPISODE_INDEX_URL 0%nat).1
     = inr {| status_code := 200; text := "" |}
  /\ episodes refused = episodes nothing
  /\ episodes unavailable = episodes nothing
  /\ visited refused = visited nothing
  /\ visited unavailable = visited nothing.
Proof. cbv zeta. repeat split; vm_compute; reflexivity. Qed.

(* ===================================================================== *)
(** * More on feed assembly *)
(* ===================================================================== *)

Section Trimming.
Variable p : ascii -> bool.

Lemma lstrip_with_head s :
  Str.lstrip_with p s = EmptyString
  \/ exists c rest, Str.lstrip_with p s = String c rest /\ p c = false.
Proof.
  induction s as [|c s IH]; simpl; [auto|].
  destruct (p c) eqn:E; [exact IH|]. right. eauto.
Qed.

Lemma lstrip_with_fixed c rest : p c = false -> Str.lstrip_with p (String c rest) = String c rest.
Proof. intros E. simpl. rewrite E. reflexivity. Qed.

Lemma rstrip_with_head c rest :
  p c = false -> exists rest', Str.rstrip_with p (String c rest) = String c rest'.
Proof.
  intros E. simpl. destruct (Str.rstrip_with p rest); [rewrite E|]; eauto.
Qed.

Lemma rstrip_with_idem s : Str.rstrip_with p (Str.rstrip_with p s) = Str.rstrip_with p s.
Proof.
  induction s as [|c s IH]; simpl; [reflexivity|].
  destruct (Str.rstrip_with p s) as [|c' r] eqn:E.
  - destruct (p c) eqn:Ec; simpl; [reflexivity|]. rewrite Ec. reflexivity.
  - simpl in IH |- *. rewrite IH. reflexivity.
Qed.

(** Text whose last character is kept is not touched by [rstrip]. *)
Lemma rstrip_with_kept pre c :
  p c = false ->
  Str.rstrip_with p (pre +:+ String c EmptyString) = pre +:+ String c EmptyString.
Proof.
  intros E. induction pre as [|a pre IH].
  - simpl. rewrite E. reflexivity.
  - change (String a pre +:+ String c EmptyString)
      with (String a (pre +:+ String c EmptyString)).
    cbn [Str.rstrip_with]. rewrite IH. destruct pre; reflexivity.
Qed.

Lemma strip_with_idem s :
  Str.rstrip_with p (Str.lstrip_with p (Str.rstrip_with p (Str.lstrip_with p s)))
  = Str.rstrip_with p (Str.lstrip_with p s).
Proof.
  destruct (lstrip_with_head s) as [-> | (c & rest & -> & E)]; [reflexivity|].
  destruct (rstrip_with_head c rest E) as [rest' Hr].
  rewrite Hr, (lstrip_with_fixed _ _ E), <- Hr. apply rstrip_with_idem.
Qed.

End Trimming.

Lemma strip_chars_idem chars s :
  Str.strip_chars chars (Str.strip_chars chars s) = Str.strip_chars chars s.
Proof. apply strip_with_idem. Qed.

(** The decimal numeral of a number ends in a digit. *)
Lemma of_nat_last_digit n :
  exists pre c, Str.of_nat n = pre +:+ String c EmptyString /\ Str.isdigit c = true.
Proof.
  unfold Str.of_nat.
  assert (Hne : forall u, u <> Decimal.Nil ->
            exists pre c, NilEmpty.string_of_uint u = pre +:+ String c EmptyString
                          /\ Str.isdigit c = true).
  { induction u as [|u IH|u IH|u IH|u IH|u IH|u IH|u IH|u IH|u IH|u IH]; intros Hu;
      [destruct Hu; reflexivity|..];
      (destruct u as [|u'|u'|u'|u'|u'|u'|u'|u'|u'|u'];
       [ eexists EmptyString, _; split; reflexivity
       | destruct IH as (pre & c & E & Hc); [discriminate|];
         eexists (String _ pre), c; split; [|exact Hc];
         cbn [NilEmpty.string_of_uint] in E |- *; rewrite E; reflexivity .. ]). }
  unfold NilZero.string_of_uint.
  destruct (Nat.to_uint n) eqn:E;
    [eexists EmptyString, _; split; reflexivity | rewrite <- E; apply Hne; rewrite E; discriminate ..].
Qed.

Lemma default_title_untouched idx :
  Str.strip_chars STRAY ("Episode " +:+ Str.of_nat idx) = "Episode " +:+ Str.of_nat idx.
Proof.
  destruct (of_nat_last_digit idx) as (pre & c & -> & Hc).
  assert (Happ : forall a b d : string, (a +:+ b) +:+ d = a +:+ b +:+ d).
  { intros a b d. induction a as [|x a IH]; [reflexivity|].
    change ((String x a +:+ b) +:+ d) with (String x ((a +:+ b) +:+ d)).
    rewrite IH. reflexivity. }
  rewrite <- (Happ "Episode " pre (String c EmptyString)).
  unfold Str.strip_chars.
  change (("Episode " +:+ pre) +:+ String c EmptyString)
    with (String "E" (("pisode " +:+ pre) +:+ String c EmptyString)) at 1.
  rewrite lstrip_with_fixed by reflexivity.
  change (String "E" (("pisode " +:+ pre) +:+ String c EmptyString))
    with (("Episode " +:+ pre) +:+ String c EmptyString).
  apply rstrip_with_kept.
  unfold Str.isdigit in Hc. unfold STRAY, Str.contains, Str.dquote.
  destruct c as [[] [] [] [] [] [] [] []]; try discriminate Hc; reflexivity.
Qed.

Section AssemblyMore.

Implicit Types (r : row) (item channel : ET.Element).

Lemma trimmed_audio_url_cell r raw :
  dict_get r "audio_url" (Some "") = Some raw ->
  trimmed_audio_url r = Str.strip_chars STRAY raw.
Proof. unfold trimmed_audio_url. intros ->. reflexivity. Qed.

Lemma trimmed_audio_url_fixed r :
  Str.strip_chars STRAY (trimmed_audio_url r) = trimmed_audio_url r.
Proof.
  unfold trimmed_audio_url.
  destruct (dict_get r "audio_url" (Some "")); [apply strip_chars_idem|reflexivity].
Qed.

Lemma nonempty_iff s : Str.nonempty s = true <-> s <> "".
Proof. destruct s; simpl; split; congruence. Qed.

Lemma full_item_texts ttl desc link audio pub :
  let item :=
    ET.SubElement_text
      (ET.SubElement_text
         (ET.SubElement_text
            (ET.append
               (ET.append
                  (ET.SubElement_text
                     (ET.SubElement_text
                        (ET.SubElement_text (ET.new "item") "title" ttl)
                        "description" desc)
                     "link" link)
                  (ET.set (ET.set (ET.set (ET.new "enclosure") "url" audio)
                             "type" "audio/mpeg") "length" "0"))
               (ET.set_text (ET.set (ET.new "guid") "isPermaLink" "false") audio))
            "pubDate" pub)
         (itunes_ns +:+ "explicit") "yes")
      (itunes_ns +:+ "duration") "0" in
  child_text item "title" = Some ttl
  /\ child_text item "description" = Some desc
  /\ child_text item "pubDate" = Some pub
  /\ child_text item "link" = Some link
  /\ child_text item "guid" = Some audio.
Proof. repeat split; vm_compute; reflexivity. Qed.

Lemma bare_item_texts ttl desc pub :
  let item :=
    ET.SubElement_text
      (ET.SubElement_text
         (ET.SubElement_text
            (ET.SubElement_text
               (ET.SubElement_text (ET.new "item") "title" ttl)
               "description" desc)
            "pubDate" pub)
         (itunes_ns +:+ "explicit") "yes")
      (itunes_ns +:+ "duration") "0" in
  child_text item "title" = Some ttl
  /\ child_text item "description" = Some desc
  /\ child_text item "pubDate" = Some pub
  /\ child_text item "link" = None
  /\ child_text item "guid" = None.
Proof. repeat split; vm_compute; reflexivity. Qed.

(** The texts of an item, read back from the element that was built. *)
Lemma make_item_texts now idx r item :
  make_item now idx r = Ok item ->
  exists ttl,
    strip_value STRAY (dict_get r "title" (Some ("Episode " +:+ Str.of_nat idx))) = Ok ttl
    /\ child_text item "title" = Some ttl
    /\ child_text item "description" = Some (or_else (dict_get r "description" (Some ttl)) ttl)
    /\ child_text item "pubDate" = Some (parse_date now (dict_get r "date" (Some "Unknown")))
    /\ (trimmed_audio_url r <> "" ->
        exists link,
          strip_value STRAY (dict_get r "page_url" (Some (trimmed_audio_url r))) = Ok link
          /\ child_text item "link" = Some link
          /\ child_text item "guid" = Some (trimmed_audio_url r))
    /\ (trimmed_audio_url r = "" ->
        child_text item "link" = None /\ child_text item "guid" = None).
Proof.
  unfold make_item.
  destruct (strip_value STRAY (dict_get r "title" _)) as [ttl|] eqn:Et; [|discriminate].
  cbn [mbind result_bind].
  destruct (dict_get r "audio_url" (Some "")) as [raw|] eqn:Ea; [|discriminate].
  rewrite (trimmed_audio_url_cell _ _ Ea).
  cbn [strip_value mbind result_bind]. cbv zeta.
  destruct (Str.nonempty (Str.strip_chars STRAY raw)) eqn:En.
  - destruct (strip_value STRAY (dict_get r "page_url" _)) as [link|] eqn:El;
      [|discriminate].
    cbn [mbind result_bind]. intros Hitem.
    pose proof (full_item_texts ttl (or_else (dict_get r "description" (Some ttl)) ttl)
                  link (Str.strip_chars STRAY raw)
                  (parse_date now (dict_get r "date" (Some "Unknown"))))
      as (H1 & H2 & H3 & H4 & H5).
    injection Hitem as <-.
    exists ttl. split; [reflexivity|]. split; [exact H1|]. split; [exact H2|].
    split; [exact H3|]. split.
    + intros _. exists link. split; [reflexivity|]. split; [exact H4|exact H5].
    + intros E. rewrite E in En. discriminate.
  - cbn [mbind result_bind]. intros Hitem.
    pose proof (bare_item_texts ttl (or_else (dict_get r "description" (Some ttl)) ttl)
                  (parse_date now (dict_get r "date" (Some "Unknown"))))
      as (H1 & H2 & H3 & H4 & H5).
    injection Hitem as <-.
    exists ttl. split; [reflexivity|]. split; [exact H1|]. split; [exact H2|].
    split; [exact H3|]. split.
    + intros Hne. apply nonempty_iff in Hne. congruence.
    + intros _. split; [exact H4|exact H5].
Qed.

(** X1: a row from a file without a [title] column is
    titled [Episode k], [k] being the position of its item in the feed; the
    description is the cell of the row, as it is, when there is a non-empty
    one, and the title otherwise; without a [date] column the publication
    date is the time of the conversion; without a [page_url] column the link
    is the audio URL. *)
Theorem absent_columns_get_defaults now idx r item :
  make_item now idx r = Ok item ->
  (r !! "title" = None ->
     child_text item "title" = Some ("Episode " +:+ Str.of_nat idx))
  /\ (forall d, r !! "description" = Some (Some d) -> d <> "" ->
        child_text item "description" = Some d)
  /\ (r !! "description" = None \/ r !! "description" = Some None
      \/ r !! "description" = Some (Some "") ->
        child_text item "description" = child_text item "title")
  /\ (r !! "date" = None \/ r !! "date" = Some None ->
        child_text item "pubDate" = Some (datetime.strftime now RFC2822))
  /\ (r !! "page_url" = None -> trimmed_audio_url r <> "" ->
        child_text item "link" = Some (trimmed_audio_url r)).
Proof.
  intros Hitem.
  destruct (make_item_texts _ _ _ _ Hitem)
    as (ttl & Ht & Htitle & Hdesc & Hpub & Haudio & _).
  rewrite Htitle, Hdesc, Hpub. unfold dict_get in *. repeat split.
  - intros E. rewrite E in Ht. simpl in Ht. injection Ht as <-.
    rewrite default_title_untouched. reflexivity.
  - intros d -> Hd. simpl. destruct d; [contradiction|reflexivity].
  - intros [-> | [-> | ->]]; simpl; try reflexivity. destruct ttl; reflexivity.
  - intros [-> | ->]; reflexivity.
  - intros E Hne. destruct (Haudio Hne) as (link & Hl & -> & _).
    rewrite E in Hl. simpl in Hl. injection Hl as <-.
    rewrite trimmed_audio_url_fixed. reflexivity.
Qed.

(** X2: the title, the link and the guid of an item are
    texts that trimming leaves as they are: no space, double quote or [>]
    is left at either end. *)
Theorem item_texts_are_trimmed now idx r item :
  make_item now idx r = Ok item ->
  (forall t, child_text item "title" = Some t -> Str.strip_chars STRAY t = t)
  /\ (forall t, child_text item "link" = Some t -> Str.strip_chars STRAY t = t)
  /\ (forall t, child_text item "guid" = Some t -> Str.strip_chars STRAY t = t).
Proof.
  intros Hitem.
  destruct (make_item_texts _ _ _ _ Hitem)
    as (ttl & Ht & Htitle & _ & _ & Haudio & Hnone).
  assert (Hstrip : forall v t, strip_value STRAY v = Ok t -> Str.strip_chars STRAY t = t).
  { intros [raw|] t; simpl; [|discriminate]. intros [= <-]. apply strip_chars_idem. }
  split; [|].
  - intros t. rewrite Htitle. intros [= <-]. exact (Hstrip _ _ Ht).
  - destruct (decide (trimmed_audio_url r = "")) as [E|Hne].
    + destruct (Hnone E) as (-> & ->). split; intros t; discriminate.
    + destruct (Haudio Hne) as (link & Hl & -> & ->). split.
      * intros t [= <-]. exact (Hstrip _ _ Hl).
      * intros t [= <-]. apply trimmed_audio_url_fixed.
Qed.

End AssemblyMore.

Section FeedMore.

Implicit Types (r : row) (item channel : ET.Element).

Lemma add_items_frame clock episodes : forall idx channel channel',
  add_items clock idx episodes channel = Ok channel' ->
  exists items,
    channel' = ET.mkElement (ET.tag channel) (ET.attrib channel) (ET.text channel)
                 (ET.children channel ++ items)
    /\ Forall (fun item => ET.tag item = "item") items.
Proof.
  induction episodes as [|r episodes IH]; intros idx channel channel'; simpl.
  - intros [= <-]. exists []. rewrite app_nil_r. destruct channel; auto.
  - destruct (make_item (clock idx) idx r) as [item|] eqn:Eitem; [|discriminate].
    cbn [mbind result_bind]. intros Hrest.
    destruct (IH _ _ _ Hrest) as (items & -> & Htags).
    exists (item :: items). destruct channel as [t a x c]. simpl.
    rewrite <- app_assoc. split; [reflexivity|].
    constructor; [|exact Htags].
    destruct (make_item_shape _ _ _ _ Eitem) as (? & ? & ? & ? & Ht & _). exact Ht.
Qed.

(** X3: whatever the rows, the feed is the [rss] element with
    its three attributes and one [channel]; the channel begins with the nine
    fixed metadata elements, in their order, and all that follows are the
    items.  No rows give the metadata and no item. *)
Theorem feed_skeleton_is_fixed clock (rows : list row) :
  csv_to_rss clock [] = Ok (ET.append rss_root channel_head)
  /\ feed_items (ET.append rss_root channel_head) = []
  /\ forall rss, csv_to_rss clock rows = Ok rss ->
       rss = ET.mkElement "rss"
               [("version", "2.0");
                ("xmlns:content", "http://purl.org/rss/1.0/modules/content/");
                ("xmlns:itunes", "http://www.itunes.com/dtds/podcast-1.0.dtd")]
               None
               [ET.mkElement "channel" [] None
                  (ET.children channel_head ++ feed_items rss)]
       /\ length (ET.children channel_head) = 9%nat.
Proof.
  split; [reflexivity|]. split; [reflexivity|].
  intros rss. unfold csv_to_rss.
  destruct (add_items clock 1 (reverse rows) channel_head) as [channel|] eqn:Eadd;
    [|discriminate].
  cbn [mbind result_bind]. intros Hrss.
  assert (rss = ET.append rss_root channel) as -> by (injection Hrss as <-; reflexivity).
  destruct (add_items_frame _ _ _ _ _ Eadd) as (items & -> & Htags).
  split; [|reflexivity].
  assert (Hfeed : feed_items
            (ET.append rss_root
               (ET.mkElement (ET.tag channel_head) (ET.attrib channel_head)
                  (ET.text channel_head) (ET.children channel_head ++ items))) = items).
  { unfold feed_items, ET.findall. simpl.
    rewrite (filter_all_items _ Htags). apply app_nil_r. }
  rewrite Hfeed. reflexivity.
Qed.

Lemma cell_present_get r key dflt :
  cell_present r key = true <-> exists s, dict_get r key (Some dflt) = Some s.
Proof.
  unfold cell_present, dict_get. destruct (r !! key) as [[s|]|]; split; eauto.
  - intros [=].
  - intros [s [=]].
Qed.

Lemma make_item_ok_iff now idx r :
  (exists item, make_item now idx r = Ok item) <-> row_ok r = true.
Proof.
  unfold row_ok, make_item, trimmed_audio_url.
  destruct (cell_present r "title") eqn:Et.
  - apply (cell_present_get r "title" ("Episode " +:+ Str.of_nat idx)) in Et as [t ->].
    cbn [strip_value mbind result_bind andb].
    destruct (cell_present r "audio_url") eqn:Ea.
    + apply (cell_present_get r "audio_url" "") in Ea as [a ->].
      cbn [strip_value mbind result_bind andb].
      destruct (Str.nonempty (Str.strip_chars STRAY a)); cbn [negb orb].
      * destruct (cell_present r "page_url") eqn:Ep.
        -- apply (cell_present_get r "page_url" (Str.strip_chars STRAY a)) in Ep as [p ->].
           cbn [strip_value mbind result_bind]. split; eauto.
        -- assert (dict_get r "page_url" (Some (Str.strip_chars STRAY a)) = None) as ->.
           { unfold cell_present in Ep. unfold dict_get.
             destruct (r !! "page_url") as [[?|]|]; congruence. }
           cbn [strip_value mbind result_bind]. split; [intros [? [=]]|discriminate].
      * cbn [mbind result_bind]. split; eauto.
    + assert (dict_get r "audio_url" (Some "") = None) as ->.
      { unfold cell_present in Ea. unfold dict_get.
        destruct (r !! "audio_url") as [[?|]|]; congruence. }
      cbn [strip_value mbind result_bind andb]. split; [intros [? [=]]|discriminate].
  - assert (dict_get r "title" (Some ("Episode " +:+ Str.of_nat idx)) = None) as ->.
    { unfold cell_present in Et. unfold dict_get.
      destruct (r !! "title") as [[?|]|]; congruence. }
    cbn [strip_value mbind result_bind andb]. split; [intros [? [=]]|discriminate].
Qed.

Lemma add_items_ok_iff clock episodes : forall idx channel,
  (exists channel', add_items clock idx episodes channel = Ok channel')
  <-> forallb row_ok episodes = true.
Proof.
  induction episodes as [|r episodes IH]; intros idx channel; simpl.
  - split; eauto.
  - rewrite andb_true_iff, <- (make_item_ok_iff (clock idx) idx r).
    destruct (make_item (clock idx) idx r) as [item|] eqn:E; cbn [mbind result_bind].
    + rewrite (IH (S idx) (ET.append channel item)). split; [eauto|tauto].
    + split; [intros [? [=]] | intros [[? [=]] _]].
Qed.

Lemma try_formats_clock_free now1 now2 s fmts :
  existsb (fun fmt => bool_decide (is_Some (datetime.strptime s fmt))) fmts = true ->
  try_formats now1 s fmts = try_formats now2 s fmts.
Proof.
  induction fmts as [|fmt fmts IH]; simpl; [discriminate|].
  destruct (datetime.strptime s fmt); [reflexivity|].
  rewrite bool_decide_eq_false_2 by (intros [? [=]]). simpl. exact IH.
Qed.

Lemma make_item_clock_free now1 now2 idx r :
  date_parses r = true -> make_item now1 idx r = make_item now2 idx r.
Proof.
  unfold date_parses, make_item. intros Hd.
  assert (parse_date now1 (dict_get r "date" (Some "Unknown"))
          = parse_date now2 (dict_get r "date" (Some "Unknown"))) as ->; [|reflexivity].
  destruct (dict_get r "date" (Some "Unknown")) as [s|]; [|discriminate].
  apply andb_prop in Hd as [Hd Hp]. apply andb_prop in Hd as [Hn Hu].
  unfold parse_date. rewrite Hn. apply negb_true_iff in Hu. rewrite Hu.
  cbn [negb orb]. apply try_formats_clock_free, Hp.
Qed.

(** X5: when the date of every row is read by one of the
    patterns, the feed does not depend on the time of the conversion: two
    conversions of the same rows give the same tree. *)
Theorem feed_is_reproducible_when_dates_parse clock1 clock2 (rows : list row) :
  forallb date_parses rows = true ->
  csv_to_rss clock1 rows = csv_to_rss clock2 rows.
Proof.
  intros Hall. unfold csv_to_rss.
  assert (Hrev : Forall (fun r => date_parses r = true) (reverse rows)).
  { apply Forall_reverse, Forall_forall. intros r Hr.
    rewrite forallb_forall in Hall. apply Hall, list_elem_of_In, Hr. }
  assert (Hadd : forall idx channel,
            add_items clock1 idx (reverse rows) channel
            = add_items clock2 idx (reverse rows) channel).
  { induction Hrev as [|r rest Hr _ IH]; intros idx channel; simpl; [reflexivity|].
    rewrite (make_item_clock_free (clock1 idx) (clock2 idx) idx r Hr).
    destruct (make_item (clock2 idx) idx r); cbn [mbind result_bind]; [apply IH|reflexivity]. }
  rewrite Hadd. reflexivity.
Qed.

End FeedMore.

(* ===================================================================== *)
(** * More on markup extraction and link discovery *)
(* ===================================================================== *)

Section TreeFacts.

Lemma node_nested_ind (P : bs4.node -> Prop) :
  (forall nm attrs cs, Forall P cs -> P (bs4.Tag nm attrs cs)) ->
  (forall s, P (bs4.NavigableString s)) ->
  (forall s, P (bs4.Comment s)) ->
  forall n, P n.
Proof.
  intros Htag Hstr Hcom. fix IH 1. intros [nm attrs cs|s|s]; [|apply Hstr|apply Hcom].
  apply Htag. revert cs. fix IHcs 1. intros [|c cs]; constructor; [apply IH|apply IHcs].
Qed.

Lemma descendants_tag nm attrs cs :
  bs4.descendants (bs4.Tag nm attrs cs) = cs ≫= (fun c => c :: bs4.descendants c).
Proof.
  simpl. induction cs as [|c cs IH]; [reflexivity|].
  rewrite IH. reflexivity.
Qed.

Lemma descendants_trans r : forall m n,
  m ∈ bs4.descendants r -> n ∈ bs4.descendants m -> n ∈ bs4.descendants r.
Proof.
  induction r as [nm attrs cs IH|s|s] using node_nested_ind; intros m n Hm Hn;
    [|apply elem_of_nil in Hm; destruct Hm..].
  rewrite descendants_tag in Hm |- *.
  apply list_elem_of_bind in Hm as (c & Hmc & Hc).
  apply list_elem_of_bind. exists c. split; [|exact Hc].
  apply elem_of_cons in Hmc as [-> | Hmc]; [right; exact Hn|].
  right. rewrite Forall_forall in IH. exact (IH c Hc m n Hmc Hn).
Qed.

Lemma find_all_matches n nm tests tag :
  tag ∈ bs4.find_all n nm tests -> bs4.matches nm tests tag = true.
Proof.
  unfold bs4.find_all. rewrite list_elem_of_In, List.filter_In. tauto.
Qed.

Lemma find_matches n nm tests tag :
  bs4.find n nm tests = Some tag -> bs4.matches nm tests tag = true.
Proof.
  unfold bs4.find. intros Hhead. apply (find_all_matches n nm tests).
  apply head_Some_elem_of, Hhead.
Qed.

Lemma matches_present nm key tag :
  bs4.matches nm [(key, bs4.Present)] tag = true -> exists v, bs4.get tag key = Some v.
Proof.
  destruct tag as [nm' attrs cs| |]; simpl; try discriminate.
  intros Hm. apply andb_prop in Hm as [_ Hm]. apply andb_prop in Hm as [Hm _].
  unfold bs4.attr_matches in Hm. simpl in Hm.
  destruct (List.find _ attrs) as [[k v]|]; simpl in *; [eauto|discriminate].
Qed.

Lemma elem_of_tail {A} (x : A) (l : list A) : x ∈ tail l -> x ∈ l.
Proof. destruct l; simpl; [auto|]. intros Hx. right. exact Hx. Qed.

Lemma dotless_find soup selector :
  dotless soup -> Str.startswith selector "." = true -> bs4.find soup selector [] = None.
Proof.
  intros Hd Hs. destruct (bs4.find soup selector []) as [tag|] eqn:E; [|reflexivity].
  apply find_elem in E as [Hin Hname].
  rewrite (Hd tag selector Hin Hname) in Hs. discriminate.
Qed.

Lemma or_else_nonempty v alt : alt <> "" -> or_else v alt <> "".
Proof.
  intros Ha. unfold or_else. destruct v as [[|c s]|]; simpl; try exact Ha. discriminate.
Qed.

End TreeFacts.

Section ExtractionMore.
Context {L : Libraries}.

(** X8: an audio element without a [controls] attribute is not
    looked at, whatever its source: a page whose audio elements all lack
    the attribute yields no record. *)
Theorem audio_without_controls_is_ignored html_content url :
  (forall n, n ∈ bs4.descendants (BeautifulSoup html_content) ->
             bs4.name n = Some "audio" -> bs4.get n "controls" = None) ->
  extract_audio_urls html_content url = None.
Proof.
  intros Hnone. unfold extract_audio_urls.
  destruct (bs4.find _ "audio" _) as [tag|] eqn:Efind; [|reflexivity].
  pose proof (find_matches _ _ _ _ Efind) as Hm.
  apply matches_present in Hm as [v Hv].
  apply find_elem in Efind as [Hin Hname].
  rewrite (Hnone tag Hin Hname) in Hv. discriminate.
Qed.

(** X9: a record that is returned carries the URL of the page
    it was asked for, and neither its title nor its date is empty: where
    the page gives none, the text is [Unknown]. *)
Theorem record_fields_are_filled html_content url ep :
  extract_audio_urls html_content url = Some ep ->
  page_url ep = url /\ title ep <> "" /\ date ep <> ""
  /\ exists src, src <> "" /\ audio_url ep = urljoin url src.
Proof.
  unfold extract_audio_urls.
  destruct (bs4.find _ "audio" _) as [tag|]; [|discriminate].
  destruct (bs4.get tag "src") as [src|]; [|discriminate].
  destruct (Str.nonempty src) eqn:En; [|discriminate]. cbn [negb].
  intros [= <-]. cbn [page_url title date audio_url].
  split; [reflexivity|]. split; [apply or_else_nonempty; discriminate|].
  split; [apply or_else_nonempty; discriminate|].
  exists src. split; [|reflexivity]. intros ->. discriminate.
Qed.

(** X10: on a tree as the parser builds it, in which no tag
    name begins with a dot, the selectors written like CSS classes find
    nothing: the title comes from [h1] or [title] only, and the date from
    the first [time] element only: its stripped text, or its [datetime]
    attribute when it has no text, or [Unknown]. *)
Theorem class_selectors_find_nothing html_content url ep :
  dotless (BeautifulSoup html_content) ->
  extract_audio_urls html_content url = Some ep ->
  let soup := BeautifulSoup html_content in
  title ep = or_else (find_title soup ["h1"; "title"]) "Unknown"
  /\ date ep
     = match bs4.find soup "time" [] with
       | Some tag =>
           if Str.nonempty (bs4.get_text_strip tag) then bs4.get_text_strip tag
           else or_else (bs4.get tag "datetime") "Unknown"
       | None => "Unknown"
       end.
Proof.
  intros Hd. unfold extract_audio_urls. cbv zeta.
  destruct (bs4.find _ "audio" _) as [tag|]; [|discriminate].
  destruct (bs4.get tag "src") as [src|]; [|discriminate].
  destruct (negb (Str.nonempty src)); [discriminate|].
  intros [= <-]. cbn [title date].
  unfold title_selectors, date_selectors. cbn [find_title find_date].
  rewrite (dotless_find _ ".episode-title" Hd eq_refl).
  rewrite (dotless_find _ ".episode-date" Hd eq_refl).
  rewrite (dotless_find _ ".date" Hd eq_refl).
  split.
  - destruct (bs4.find _ "h1" []); [reflexivity|].
    destruct (bs4.find _ "title" []); reflexivity.
  - destruct (bs4.find _ "time" []) as [t|]; [|reflexivity].
    destruct (bs4.get_text_strip t) eqn:E; reflexivity.
Qed.

(** X11: every URL that [get_episode_links] returns
    is [urljoin] of the base URL and the [href] of an [a] element of the
    index; no URL is made up. *)
Theorem discovered_links_come_from_anchors index_html base_url u :
  u ∈ get_episode_links index_html base_url ->
  exists a href,
    a ∈ bs4.descendants (BeautifulSoup index_html)
    /\ bs4.name a = Some "a"
    /\ bs4.get a "href" = Some href
    /\ u = urljoin base_url href.
Proof.
  unfold get_episode_links. set (soup := BeautifulSoup index_html).
  assert (Htable : u ∈ table_links soup base_url ->
            exists a href, a ∈ bs4.descendants soup /\ bs4.name a = Some "a"
                           /\ bs4.get a "href" = Some href /\ u = urljoin base_url href).
  { unfold table_links.
    destruct (bs4.find soup "table" _) as [table|] eqn:Et;
      [|intros Hu; apply elem_of_nil in Hu; destruct Hu].
    intros Hu. apply list_elem_of_omap in Hu as (row & Hrow & Hf).
    apply elem_of_tail, find_all_elem in Hrow as [Hrow _].
    destruct (2 <=? length (bs4.find_all row "td" []))%nat; [|discriminate].
    destruct (bs4.find_all row "td" [] !! 1%nat) as [cell|] eqn:Ec; [|discriminate].
    cbn [mbind option_bind] in Hf.
    destruct (bs4.find cell "a" _) as [link|] eqn:El; [|discriminate].
    cbn [mbind option_bind] in Hf.
    destruct (bs4.get link "href") as [href|] eqn:Eh; [|discriminate].
    injection Hf as <-. exists link, href.
    apply list_elem_of_lookup_2, find_all_elem in Ec as [Hcell _].
    apply find_elem in El as [Hlink Hname].
    apply find_elem in Et as [Htab _].
    split; [|auto].
    eapply descendants_trans; [exact Htab|].
    eapply descendants_trans; [exact Hrow|].
    eapply descendants_trans; [exact Hcell|exact Hlink]. }
  assert (Hmarked : u ∈ marked_links soup base_url ->
            exists a href, a ∈ bs4.descendants soup /\ bs4.name a = Some "a"
                           /\ bs4.get a "href" = Some href /\ u = urljoin base_url href).
  { unfold marked_links. intros Hu.
    apply list_elem_of_omap in Hu as (link & Hlink & Hf).
    destruct (bs4.get link "href") as [href|] eqn:Eh; [|discriminate].
    cbn [mbind option_bind] in Hf.
    destruct (Str.nonempty href); [|discriminate]. injection Hf as <-.
    apply find_all_elem in Hlink as [Hlink Hname]. eauto 6. }
  assert (Hcont : u ∈ container_links soup base_url ->
            exists a href, a ∈ bs4.descendants soup /\ bs4.name a = Some "a"
                           /\ bs4.get a "href" = Some href /\ u = urljoin base_url href).
  { unfold container_links.
    assert (Hc : forall c, c ∈ bs4.descendants soup ->
              u ∈ omap (fun link =>
                          href ← bs4.get link "href";
                          if Str.startswith_any href ["#"; "http"]
                             && negb (Str.startswith href base_url)
                          then None else Some (urljoin base_url href))
                    (bs4.find_all c "a" [("href", bs4.Present)]) ->
              exists a href, a ∈ bs4.descendants soup /\ bs4.name a = Some "a"
                             /\ bs4.get a "href" = Some href /\ u = urljoin base_url href).
    { intros c Hcin Hu. apply list_elem_of_omap in Hu as (link & Hlink & Hf).
      destruct (bs4.get link "href") as [href|] eqn:Eh; [|discriminate].
      cbn [mbind option_bind] in Hf.
      destruct (Str.startswith_any href ["#"; "http"] && negb (Str.startswith href base_url));
        [discriminate|].
      injection Hf as <-. apply find_all_elem in Hlink as [Hlink Hname].
      exists link, href. split; [|auto]. eapply descendants_trans; eassumption. }
    destruct (bs4.find soup "div" _) as [c|] eqn:Ediv.
    - apply find_elem in Ediv as [Hcin _]. apply Hc, Hcin.
    - destruct (bs4.find soup "main" []) as [c|] eqn:Emain.
      + apply find_elem in Emain as [Hcin _]. apply Hc, Hcin.
      + intros Hu. apply elem_of_nil in Hu. destruct Hu. }
  destruct (table_links soup base_url) as [|t ts] eqn:E1; [|exact Htable].
  destruct (marked_links soup base_url) as [|m ms] eqn:E2; [|exact Hmarked].
  exact Hcont.
Qed.

(** X12: with a base URL that is not empty and does not
    begin with [#], every URL from the container heuristic comes from an
    [href] that does not begin with [#], and that begins with the base URL
    if it begins with [http]. *)
Theorem container_drops_anchors_and_other_prefixes soup base_url u :
  base_url <> "" ->
  Str.startswith base_url "#" = false ->
  u ∈ container_links soup base_url ->
  exists href,
    u = urljoin base_url href
    /\ Str.startswith href "#" = false
    /\ (Str.startswith href "http" = true -> Str.startswith href base_url = true).
Proof.
  intros Hne Hhash. unfold container_links.
  assert (Hc : forall links : list bs4.node,
            u ∈ omap (fun link =>
                        href ← bs4.get link "href";
                        if Str.startswith_any href ["#"; "http"]
                           && negb (Str.startswith href base_url)
                        then None else Some (urljoin base_url href)) links ->
            exists href, u = urljoin base_url href
                         /\ Str.startswith href "#" = false
                         /\ (Str.startswith href "http" = true ->
                             Str.startswith href base_url = true)).
  { intros links Hu. apply list_elem_of_omap in Hu as (link & _ & Hf).
    destruct (bs4.get link "href") as [href|]; [|discriminate].
    cbn [mbind option_bind] in Hf.
    destruct (Str.startswith_any href ["#"; "http"] && negb (Str.startswith href base_url))
      eqn:Ef; [discriminate|].
    injection Hf as <-. exists href. split; [reflexivity|].
    unfold Str.startswith_any in Ef. cbn [existsb] in Ef. rewrite orb_false_r in Ef.
    apply andb_false_iff in Ef. split.
    - destruct (Str.startswith href "#") eqn:Eh; [|reflexivity]. exfalso.
      assert (Hb : Str.startswith href base_url = false).
      { destruct href as [|c href']; [discriminate|]. cbn [Str.startswith] in Eh.
        destruct (Ascii.eqb c "#") eqn:Ec; [|discriminate].
        apply Ascii.eqb_eq in Ec as ->.
        destruct base_url as [|b base']; [contradiction|].
        cbn [Str.startswith] in Hhash |- *.
        rewrite Ascii.eqb_sym.
        destruct (Ascii.eqb b "#"); [destruct base'; discriminate|reflexivity]. }
      rewrite Hb in Ef. destruct Ef as [Ef | Ef]; discriminate.
    - intros Hh. rewrite Hh, orb_true_r in Ef.
      destruct Ef as [Ef | Ef]; [discriminate|]. apply negb_false_iff, Ef. }
  destruct (bs4.find soup "div" _) as [c|]; [apply Hc|].
  destruct (bs4.find soup "main" []) as [c|]; [apply Hc|].
  intros Hu. apply elem_of_nil in Hu. destruct Hu.
Qed.

End ExtractionMore.

(* ===================================================================== *)
(** * More on crawling *)
(* ===================================================================== *)

Section CountFacts.
Context {L : Libraries}.

Lemma sleeps_app tr1 tr2 : sleeps (tr1 ++ tr2) = (sleeps tr1 + sleeps tr2)%nat.
Proof. unfold sleeps. rewrite List.filter_app, length_app. reflexivity. Qed.

Lemma successes_app tr1 tr2 : successes (tr1 ++ tr2) = (successes tr1 + successes tr2)%nat.
Proof.
  unfold successes. rewrite page_answers_app, List.filter_app, length_app. reflexivity.
Qed.


Lemma unvisited_length links : forall seen,
  (length (unvisited seen links) <= length links)%nat.
Proof.
  induction links as [|l links IH]; intros seen; simpl; [lia|].
  destruct (decide (l ∈ seen)); simpl.
  - specialize (IH seen). lia.
  - specialize (IH ({[l]} ∪ seen)). lia.
Qed.

End CountFacts.

Section CrawlMore.
Context {L : Libraries} {W : Type} {N : Network W}.

Lemma crawl_page_sleeps total st idx url :
  exists tr,
    trace (crawl_page total st idx url) = trace st ++ tr
    /\ sleeps tr = successes tr.
Proof.
  unfold crawl_page. destruct (decide (url ∈ visited st)).
  - eexists [_]. split; reflexivity.
  - cbn [emit world trace visited episodes].
    destruct (session_get url (world st)) as [answer w'] eqn:Eget.
    destruct (checked answer) as [e|response] eqn:Echk.
    + eexists [_; _; _; _]. cbn [emit world trace visited episodes].
      split; [rewrite <- !app_assoc; reflexivity|].
      unfold successes. cbn. rewrite Echk. reflexivity.
    + destruct (extract_audio_urls (text response) url) as [ep|].
      * eexists [_; _; _; _; _]. cbn [emit world trace visited episodes].
        split; [rewrite <- !app_assoc; reflexivity|].
        unfold successes. cbn. rewrite Echk. reflexivity.
      * eexists [_; _; _; _; _]. cbn [emit world trace visited episodes].
        split; [rewrite <- !app_assoc; reflexivity|].
        unfold successes. cbn. rewrite Echk. reflexivity.
Qed.

Lemma crawl_pages_sleeps total links : forall idx st,
  exists tr,
    trace (crawl_pages total idx links st) = trace st ++ tr
    /\ sleeps tr = successes tr.
Proof.
  induction links as [|url links IH]; intros idx st; simpl.
  - exists []. rewrite app_nil_r. split; reflexivity.
  - destruct (crawl_page_sleeps total st idx url) as (tr1 & Ht1 & Hs1).
    destruct (IH (S idx) (crawl_page total st idx url)) as (tr2 & Ht2 & Hs2).
    exists (tr1 ++ tr2). split; [rewrite Ht2, Ht1, app_assoc; reflexivity|].
    rewrite sleeps_app, successes_app. lia.
Qed.

(** X13: the call sleeps once after every request for a page that
    was answered without error, and at no other moment: not after the
    request for the index, and not after a request that failed. *)
Theorem one_sleep_per_successful_page start_url visited0 w :
  sleeps (trace (crawl_episodes start_url visited0 w))
  = successes (trace (crawl_episodes start_url visited0 w)).
Proof.
  unfold crawl_episodes. cbn [emit world trace visited episodes].
  destruct (session_get start_url w) as [answer w'].
  destruct (checked answer) as [e|response].
  - reflexivity.
  - match goal with
    | |- context [crawl_pages ?total ?idx ?links ?st] =>
        destruct (crawl_pages_sleeps total links idx st) as (tr & -> & Hs)
    end.
    cbn [emit world trace visited episodes].
    rewrite sleeps_app, successes_app, Hs. reflexivity.
Qed.


(** X15: every record returned is for a link of the
    index that was not in [visited] when the call began, and there are no
    more records than page requests, and no more page requests than
    links. *)
Theorem records_come_from_unvisited_links start_url visited0 w response :
  let st := crawl_episodes start_url visited0 w in
  let links := get_episode_links (text response) BASE_URL in
  checked (session_get start_url w).1 = inr response ->
  (forall ep, ep ∈ episodes st ->
     page_url ep ∈ links /\ page_url ep ∉ default ∅ visited0)
  /\ (length (episodes st) <= length (page_gets (trace st)))%nat
  /\ (length (page_gets (trace st)) <= length links)%nat.
Proof.
  cbv zeta. intros Hok.
  pose proof (crawl_episodes_spec start_url visited0 w) as Hs.
  cbv zeta in Hs. rewrite Hok in Hs. destruct Hs as (tr & Ht & _ & Hg & He & _).
  assert (Hsub : sublist (page_url <$> episodes (crawl_episodes start_url visited0 w))
                   (page_gets tr)).
  { rewrite He, page_gets_answers. apply records_in_request_order. }
  assert (Hgets : page_gets (trace (crawl_episodes start_url visited0 w)) = page_gets tr).
  { rewrite Ht, page_gets_app. reflexivity. }
  rewrite Hgets. split; [|split].
  - intros ep Hep. apply unvisited_elem. rewrite <- Hg.
    eapply elem_of_sublist; [|exact Hsub]. apply list_elem_of_fmap_2, Hep.
  - apply sublist_length in Hsub. rewrite length_fmap in Hsub. exact Hsub.
  - rewrite Hg. apply unvisited_length.
Qed.

Lemma fetch_page_spec total st idx url :
  exists tr,
    trace (fetch_page total st idx url) = trace st ++ tr
    /\ page_gets tr = [url]
    /\ episodes (fetch_page total st idx url)
       = episodes st ++ omap page_record (page_answers tr)
    /\ (forall u a, IndexGet u a ∉ tr)
    /\ (forall u, VisitedAdd u ∉ tr).
Proof.
  unfold fetch_page. cbn [emit world trace visited episodes].
  destruct (session_get url (world st)) as [answer w'].
  assert (Hno : forall (tr : list effect),
            Forall (fun e => match e with IndexGet _ _ | VisitedAdd _ => False | _ => True end) tr ->
            (forall u a, IndexGet u a ∉ tr) /\ (forall u, VisitedAdd u ∉ tr)).
  { intros tr Hall. rewrite Forall_forall in Hall.
    split; intros; intros Hin; apply (Hall _ Hin). }
  unfold page_record at 1.
  destruct (checked answer) as [e|response] eqn:Echk.
  - eexists [_; _; _]. cbn [emit world trace visited episodes].
    split; [rewrite <- !app_assoc; reflexivity|]. split; [reflexivity|]. split.
    + cbn. unfold page_record. cbn. rewrite Echk, app_nil_r. reflexivity.
    + apply Hno. repeat constructor.
  - destruct (extract_audio_urls (text response) url) as [ep|] eqn:Eext.
    + eexists [_; _; _; _]. cbn [emit world trace visited episodes].
      split; [rewrite <- !app_assoc; reflexivity|]. split; [reflexivity|]. split.
      * cbn. unfold page_record. cbn. rewrite Echk, Eext. reflexivity.
      * apply Hno. repeat constructor.
    + eexists [_; _; _; _]. cbn [emit world trace visited episodes].
      split; [rewrite <- !app_assoc; reflexivity|]. split; [reflexivity|]. split.
      * cbn. unfold page_record. cbn. rewrite Echk, Eext, app_nil_r. reflexivity.
      * apply Hno. repeat constructor.
Qed.

Lemma fetch_pages_spec total links : forall idx st,
  exists tr,
    trace (fetch_pages total idx links st) = trace st ++ tr
    /\ page_gets tr = links
    /\ episodes (fetch_pages total idx links st)
       = episodes st ++ omap page_record (page_answers tr)
    /\ (forall u a, IndexGet u a ∉ tr)
    /\ (forall u, VisitedAdd u ∉ tr).
Proof.
  induction links as [|url links IH]; intros idx st; simpl.
  - exists []. rewrite !app_nil_r. repeat split; try reflexivity;
      intros; apply not_elem_of_nil.
  - destruct (fetch_page_spec total st idx url) as (tr1 & Ht1 & Hg1 & He1 & Hi1 & Hv1).
    destruct (IH (S idx) (fetch_page total st idx url))
      as (tr2 & Ht2 & Hg2 & He2 & Hi2 & Hv2).
    exists (tr1 ++ tr2).
    split; [rewrite Ht2, Ht1, app_assoc; reflexivity|].
    split; [rewrite page_gets_app, Hg1, Hg2; reflexivity|].
    split; [rewrite He2, He1, page_answers_app, omap_app, app_assoc; reflexivity|].
    split; intros; rewrite elem_of_app; intros [?|?];
      first [eapply Hi1; eassumption | eapply Hi2; eassumption
            | eapply Hv1; eassumption | eapply Hv2; eassumption].
Qed.

Lemma console_app a1 a2 : console (a1 ++ a2) = console a1 ++ console a2.
Proof. apply omap_app. Qed.

Lemma console_Console tr : console (Console <$> tr) = tr.
Proof. induction tr as [|e tr IH]; [reflexivity|]. unfold console in *. simpl. f_equal. exact IH. Qed.

Lemma writes_Console tr : writes (Console <$> tr) = [].
Proof. induction tr as [|e tr IH]; [reflexivity|]. exact IH. Qed.

Lemma writes_app a1 a2 : writes (a1 ++ a2) = writes a1 ++ writes a2.
Proof. apply List.filter_app. Qed.



End CrawlMore.

(* ===================================================================== *)
(** * Crawling when [urljoin] raises *)
(* ===================================================================== *)

Section CollectFacts.
Context {E A B : Type}.
Implicit Types (body : A -> raising E (option B)) (f : A -> option B).


Lemma collect_returned body f xs ys :
  (forall x y, body x = Value y -> y = f x) ->
  collect body xs = Value ys -> ys = omap f xs.
Proof.
  intros Hbody. revert ys. induction xs as [|x xs IH]; intros ys; cbn [collect].
  - intros [= <-]. reflexivity.
  - destruct (body x) as [y|e] eqn:Ex; [|discriminate]. cbn [mbind raising_bind].
    destruct (collect body xs) as [zs|e]; [|discriminate]. cbn [mbind raising_bind].
    intros [= <-]. pose proof (Hbody x y Ex) as ->. pose proof (IH zs eq_refl) as ->.
    cbn [omap list_omap]. destruct (f x); reflexivity.
Qed.

End CollectFacts.

Section RaisingFacts.
Context {L : Libraries} {U : UrlErrors}.

Lemma urljoin_returned base url v :
  Raising.urljoin base url = Value v -> v = urljoin base url.
Proof.
  unfold Raising.urljoin. destruct (urljoin_raises base url); [discriminate|].
  intros [= <-]. reflexivity.
Qed.


Lemma joined_returned base url (y : option string) :
  Some <$> Raising.urljoin base url = Value y -> y = Some (urljoin base url).
Proof.
  destruct (Raising.urljoin base url) as [v|e] eqn:E; [|discriminate].
  intros [= <-]. rewrite (urljoin_returned _ _ _ E). reflexivity.
Qed.

(** The source of a page decides what [extract_audio_urls] does. *)
Lemma extract_audio_urls_cases html_content url :
  match audio_src html_content with
  | None =>
      Raising.extract_audio_urls html_content url = Value None
      /\ extract_audio_urls html_content url = None
  | Some src =>
      (exists ep, extract_audio_urls html_content url = Some ep
                  /\ page_url ep = url /\ audio_url ep = urljoin url src)
      /\ match urljoin_raises url src with
         | Some e => Raising.extract_audio_urls html_content url = Exception e
         | None =>
             Raising.extract_audio_urls html_content url
             = Value (extract_audio_urls html_content url)
         end
  end.
Proof.
  unfold audio_src, Raising.extract_audio_urls, extract_audio_urls.
  destruct (bs4.find _ "audio" _) as [tag|]; [|split; reflexivity].
  cbn [mbind option_bind].
  destruct (bs4.get tag "src") as [src|]; [|split; reflexivity].
  cbn [mbind option_bind].
  destruct (Str.nonempty src); cbn [negb]; [|split; reflexivity].
  split; [eexists; split; [reflexivity|split; reflexivity]|].
  unfold Raising.urljoin. destruct (urljoin_raises url src); reflexivity.
Qed.

Lemma extract_audio_urls_returned html_content url found :
  Raising.extract_audio_urls html_content url = Value found ->
  found = extract_audio_urls html_content url.
Proof.
  pose proof (extract_audio_urls_cases html_content url) as Hc.
  destruct (audio_src html_content) as [src|].
  - destruct Hc as [_ Hc]. destruct (urljoin_raises url src).
    + rewrite Hc. discriminate.
    + rewrite Hc. intros [= <-]. reflexivity.
  - destruct Hc as [-> ->]. intros [= <-]. reflexivity.
Qed.

Lemma table_links_returned soup base_url links :
  Raising.table_links soup base_url = Value links -> links = table_links soup base_url.
Proof.
  unfold Raising.table_links, table_links.
  destruct (bs4.find soup "table" _) as [table|]; [|intros [= <-]; reflexivity].
  apply collect_returned. intros row y.
  destruct (2 <=? length (bs4.find_all row "td" []))%nat; [|intros [= <-]; reflexivity].
  destruct (bs4.find_all row "td" [] !! 1%nat) as [cell|];
    [|intros [= <-]; reflexivity].
  cbn [mbind option_bind].
  destruct (bs4.find cell "a" _) as [link|]; [|intros [= <-]; reflexivity].
  cbn [mbind option_bind].
  destruct (bs4.get link "href") as [href|]; [|intros [= <-]; reflexivity].
  cbn [mbind option_bind]. apply joined_returned.
Qed.

Lemma marked_links_returned soup base_url links :
  Raising.marked_links soup base_url = Value links -> links = marked_links soup base_url.
Proof.
  unfold Raising.marked_links, marked_links.
  apply collect_returned. intros link y.
  destruct (bs4.get link "href") as [href|]; [|intros [= <-]; reflexivity].
  cbn [mbind option_bind].
  destruct (Str.nonempty href); [apply joined_returned|intros [= <-]; reflexivity].
Qed.

Lemma container_links_returned soup base_url links :
  Raising.container_links soup base_url = Value links ->
  links = container_links soup base_url.
Proof.
  unfold Raising.container_links, container_links.
  destruct (match bs4.find soup "div" _ with Some c => Some c | None => bs4.find soup "main" [] end)
    as [c|]; [|intros [= <-]; reflexivity].
  apply collect_returned. intros link y.
  destruct (bs4.get link "href") as [href|]; [|intros [= <-]; reflexivity].
  cbn [mbind option_bind].
  destruct (Str.startswith_any href ["#"; "http"] && negb (Str.startswith href base_url));
    [intros [= <-]; reflexivity|apply joined_returned].
Qed.

(** Where [get_episode_links] returns, it returns the links of the
    function without exceptions. *)
Lemma get_episode_links_returned index_html base_url links :
  Raising.get_episode_links index_html base_url = Value links ->
  links = get_episode_links index_html base_url.
Proof.
  unfold Raising.get_episode_links, get_episode_links. cbv zeta.
  destruct (Raising.table_links _ base_url) as [l1|e] eqn:E1; [|discriminate].
  apply table_links_returned in E1 as ->. cbn [mbind raising_bind].
  destruct (table_links _ base_url) as [|t ts].
  - destruct (Raising.marked_links _ base_url) as [l2|e] eqn:E2; [|discriminate].
    apply marked_links_returned in E2 as ->. cbn [mbind raising_bind].
    destruct (marked_links _ base_url) as [|m ms].
    + destruct (Raising.container_links _ base_url) as [l3|e] eqn:E3; [|discriminate].
      apply container_links_returned in E3 as ->. cbn [mbind raising_bind].
      intros [= <-]. reflexivity.
    + cbn [mbind raising_bind]. intros [= <-]. reflexivity.
  - cbn [mbind raising_bind]. intros [= <-]. reflexivity.
Qed.



End RaisingFacts.

Section RaisingCrawl.
Context {L : Libraries} {U : UrlErrors} {W : Type} {N : Network W}.

Lemma checked_inr answer response :
  checked answer = inr response ->
  answer = inr response /\ raise_for_status response = None.
Proof.
  unfold checked. destruct answer as [e|r]; [discriminate|].
  destruct (raise_for_status r) eqn:E; [discriminate|].
  intros [= <-]. auto.
Qed.

(** One turn of the loop: where it returns, it has done what the loop
    without exceptions does; where it raises, the page was requested and
    answered without error, and [urljoin] did not take its audio source. *)
Lemma crawl_page_outcome total (st : crawl_state W) idx url :
  match Raising.crawl_page total st idx url with
  | Returned st' => st' = crawl_page total st idx url
  | Raised e st' =>
      exists r src,
        (url, inr r) ∈ page_answers (trace st')
        /\ raise_for_status r = None
        /\ audio_src (text r) = Some src
        /\ urljoin_raises url src = Some e
  end.
Proof.
  unfold Raising.crawl_page, crawl_page.
  destruct (decide (url ∈ visited st)); [reflexivity|].
  cbn [emit world trace visited episodes].
  destruct (session_get url (world st)) as [answer w'].
  destruct (checked answer) as [e|response] eqn:Echk; [reflexivity|].
  apply checked_inr in Echk as [-> Hstatus].
  pose proof (extract_audio_urls_cases (text response) url) as Hc.
  destruct (audio_src (text response)) as [src|] eqn:Esrc.
  - destruct Hc as [_ Hc]. destruct (urljoin_raises url src) as [e|] eqn:Eraise.
    + rewrite Hc. exists response, src. cbn [emit world trace visited episodes].
      split; [|repeat split; assumption].
      rewrite !page_answers_app. cbn. set_solver.
    + rewrite Hc. destruct (extract_audio_urls (text response) url); reflexivity.
  - destruct Hc as [-> ->]. reflexivity.
Qed.

Lemma crawl_pages_outcome total links : forall idx (st : crawl_state W),
  match Raising.crawl_pages total idx links st with
  | Returned st' => st' = crawl_pages total idx links st
  | Raised e st' =>
      exists url r src,
        (url, inr r) ∈ page_answers (trace st')
        /\ raise_for_status r = None
        /\ audio_src (text r) = Some src
        /\ urljoin_raises url src = Some e
  end.
Proof.
  induction links as [|url links IH]; intros idx st; simpl; [reflexivity|].
  pose proof (crawl_page_outcome total st idx url) as Hpage.
  destruct (Raising.crawl_page total st idx url) as [st1|e st1].
  - rewrite Hpage. apply IH.
  - destruct Hpage as (r & src & Hin & Hrest). eauto 6.
Qed.

(** The call as a whole, where it returns. *)
Lemma crawl_episodes_returned start_url visited0 (w : W) st :
  Raising.crawl_episodes start_url visited0 w = Returned st ->
  st = crawl_episodes start_url visited0 w.
Proof.
  unfold Raising.crawl_episodes, crawl_episodes.
  cbn [emit world trace visited episodes].
  destruct (session_get start_url w) as [answer w'].
  destruct (checked answer) as [e|response]; [intros [= <-]; reflexivity|].
  destruct (Raising.get_episode_links (text response) BASE_URL) as [links|e] eqn:El;
    [|discriminate].
  apply get_episode_links_returned in El as ->.
  match goal with
  | |- Raising.crawl_pages ?total ?idx ?links ?st0 = _ -> _ =>
      pose proof (crawl_pages_outcome total links idx st0) as Hloop;
      destruct (Raising.crawl_pages total idx links st0) as [st1|e st1]
  end; [|discriminate].
  intros [= <-]. exact Hloop.
Qed.





End RaisingCrawl.

(* ===================================================================== *)
(** * The feed, written *)
(* ===================================================================== *)

Section FeedWritten.
Context {Document : Type} {X : XmlLibraries Document}.

Lemma csv_to_rss_ok_iff clock (rows : list row) :
  (exists rss, csv_to_rss clock rows = Ok rss) <-> forallb row_ok rows = true.
Proof.
  unfold csv_to_rss.
  assert (forallb row_ok rows = forallb row_ok (reverse rows)) as ->.
  { apply eq_true_iff_eq. rewrite !forallb_forall.
    setoid_rewrite <- list_elem_of_In. setoid_rewrite elem_of_reverse. reflexivity. }
  rewrite <- (add_items_ok_iff clock (reverse rows) 1%nat channel_head).
  destruct (add_items clock 1 (reverse rows) channel_head); cbn [mbind result_bind].
  - split; eauto.
  - split; intros [? [=]].
Qed.

Lemma row_ok_insert_other r key (cell : option string) :
  key <> "title" -> key <> "audio_url" -> key <> "page_url" ->
  row_ok (<[key := cell]> r) = row_ok r.
Proof.
  intros Ht Ha Hp. unfold row_ok, cell_present, trimmed_audio_url, dict_get.
  rewrite !lookup_insert_ne by assumption. reflexivity.
Qed.

(** X4: the conversion raises [AttributeError] exactly when some row is
    too short to reach its title or its audio URL, or has an audio URL and
    is too short to reach its page URL, and it does so before anything is
    printed or written.  Short of that the tree is built, and what is left
    to fail is [minidom.parseString]: when it raises [ExpatError] nothing
    is written either, and when it returns the conversion makes the
    directory, writes one file, the feed with its blank lines dropped and
    its declaration replaced, and prints four lines.  A missing date or
    description cell does no harm. *)
Theorem csv_to_rss_raises_on_short_rows clock (rows : list row) (rss_path : Path) :
  let run := Raising.csv_to_rss clock rows rss_path in
  ((exists msg, run = Exception (RowError (AttributeError msg)))
   <-> forallb row_ok rows = false)
  /\ (forallb row_ok rows = true ->
      exists rss,
        csv_to_rss clock rows = Ok rss
        /\ match parseString (tostring rss) with
           | inl e => run = Exception (XmlError e)
           | inr document =>
               run
               = Value
                   [ FeedMkDir (path_parent rss_path);
                     FeedWrite rss_path
                       (Str.replace
                          (Str.join NEWLINE
                             (List.filter (fun line => Str.nonempty (Str.strip line))
                                (Str.split_on LF (toprettyxml document "  "))))
                          PLAIN_DECLARATION UTF8_DECLARATION);
                     FeedPrint ("[+] Generated RSS feed with "
                                +:+ Str.of_nat (length rows) +:+ " episodes");
                     FeedPrint ("[+] Saved to " +:+ path_str rss_path);
                     FeedPrint (NEWLINE +:+ "[*] RSS Feed URL for Overcast:");
                     FeedPrint "    Raw GitHub URL: https://raw.githubusercontent.com/leebrady/mssp-ot-rss/main/feed.xml" ]
           end)
  /\ (forall r cell, row_ok (<["date" := cell]> r) = row_ok r
                     /\ row_ok (<["description" := cell]> r) = row_ok r).
Proof.
  cbv zeta. pose proof (csv_to_rss_ok_iff clock rows) as Hok.
  unfold Raising.csv_to_rss. split; [|split].
  - destruct (csv_to_rss clock rows) as [rss|[msg]] eqn:E.
    + assert (Htrue : forallb row_ok rows = true) by (apply Hok; eauto).
      rewrite Htrue. split; [|discriminate].
      intros [msg Hrun]. destruct (parseString (tostring rss)); discriminate Hrun.
    + split; [|eauto]. intros _.
      destruct (forallb row_ok rows); [|reflexivity].
      destruct Hok as [_ Hok]. destruct (Hok eq_refl) as [? [=]].
  - intros Htrue. apply Hok in Htrue as [rss Hrss]. exists rss.
    rewrite Hrss. split; [reflexivity|].
    destruct (parseString (tostring rss)); reflexivity.
  - intros r cell. split; apply row_ok_insert_other; discriminate.
Qed.

End FeedWritten.

Section DateTexts.




End DateTexts.

(* ===================================================================== *)
(** * [main] when [urljoin] raises *)
(* ===================================================================== *)

Section RaisingMain.
Context {L : Libraries} {U : UrlErrors} {W : Type} {N : Network W}.

Lemma fetch_page_returned total (st : crawl_state W) idx url st' :
  Raising.fetch_page total st idx url = Returned st' ->
  st' = fetch_page total st idx url.
Proof.
  unfold Raising.fetch_page, fetch_page.
  cbn [emit world trace visited episodes].
  destruct (session_get url (world st)) as [answer w'].
  destruct (checked answer) as [e|response]; [intros [= <-]; reflexivity|].
  destruct (Raising.extract_audio_urls (text response) url) as [found|e] eqn:Eext;
    [|discriminate].
  apply extract_audio_urls_returned in Eext as <-.
  destruct found; intros [= <-]; reflexivity.
Qed.

Lemma fetch_pages_returned total links : forall idx (st st' : crawl_state W),
  Raising.fetch_pages total idx links st = Returned st' ->
  st' = fetch_pages total idx links st.
Proof.
  induction links as [|url links IH]; intros idx st st'; simpl.
  - intros [= <-]. reflexivity.
  - destruct (Raising.fetch_page total st idx url) as [st1|e st1] eqn:Epage; [|discriminate].
    apply fetch_page_returned in Epage as ->. apply IH.
Qed.

(** [main] returns with what [main] without exceptions does, or is left by
    an exception after closing the session, without having written. *)
Lemma main_outcome local_index (w : W) :
  match (Raising.main local_index w).2 with
  | None => (Raising.main local_index w).1 = main local_index w
  | Some e =>
      exists tr, (Raising.main local_index w).1.1 = (Console <$> tr) ++ [SessionClose]
  end.
Proof.
  unfold Raising.main, main. destruct local_index as [index_html|].
  - destruct (Raising.get_episode_links index_html BASE_URL) as [links|e] eqn:El.
    + apply get_episode_links_returned in El as ->.
      match goal with
      | |- context [Raising.fetch_pages ?total ?idx ?links ?st0] =>
          destruct (Raising.fetch_pages total idx links st0) as [st1|e st1] eqn:Eloop
      end.
      * apply fetch_pages_returned in Eloop as ->. reflexivity.
      * cbn [fst snd]. eauto.
    + cbn [fst snd]. eauto.
  - destruct (Raising.crawl_episodes EPISODE_INDEX_URL None w) as [st|e st] eqn:Erun.
    + apply crawl_episodes_returned in Erun as ->. reflexivity.
    + cbn [fst snd]. eauto.
Qed.

Lemma page_answers_Print (lines : list string) : page_answers (Print <$> lines) = [].
Proof. induction lines as [|l lines IH]; [reflexivity|exact IH]. Qed.

(** The records of [main] are the ones extracted from the answers to its
    page requests, with or without a local index. *)
Lemma main_records local_index (w : W) :
  exists tr eps,
    (main local_index w).1
    = (Console <$> tr)
      ++ match eps with
         | [] => [Console (Print "[!] No episodes extracted")]
         | _ =>
             [ Console (Print (NEWLINE +:+ RULE));
               Console (Print ("SUMMARY: Extracted " +:+ Str.of_nat (length eps)
                               +:+ " episodes"));
               Console (Print RULE) ]
             ++ save_to_csv eps OUTPUT_CSV
             ++ save_to_json eps OUTPUT_JSON
             ++ [ Console (Print (NEWLINE +:+ "[✓] Next step: Use " +:+ path_str OUTPUT_CSV
                                  +:+ " or " +:+ path_str OUTPUT_JSON
                                  +:+ " to generate RSS feed")) ]
         end
      ++ [SessionClose]
    /\ eps = omap page_record (page_answers tr)
    /\ (local_index = None -> eps = episodes (crawl_episodes EPISODE_INDEX_URL None w)).
Proof.
  unfold main. destruct local_index as [index_html|].
  - match goal with
    | |- context [fetch_pages ?total ?idx ?links ?st] =>
        destruct (fetch_pages_spec total links idx st) as (tr & Ht & _ & He & _);
        exists (trace (fetch_pages total idx links st)),
               (episodes (fetch_pages total idx links st))
    end.
    split; [reflexivity|]. split; [|discriminate].
    rewrite Ht, He. cbn [emit trace episodes].
    rewrite !page_answers_app. reflexivity.
  - eexists _, _. cbn [episodes trace]. split; [reflexivity|]. split; [|reflexivity].
    destruct (crawl_episodes_trace EPISODE_INDEX_URL None w) as (_ & _ & Hep & _).
    rewrite page_answers_app. exact Hep.
Qed.

Lemma page_record_spelled_out (answers : list (string * (RequestException + Response))) :
  omap (fun '(url, answer) =>
          match answer with
          | inl _ => None
          | inr r =>
              match raise_for_status r with
              | Some _ => None
              | None => extract_audio_urls (text r) url
              end
          end) answers
  = omap page_record answers.
Proof.
  induction answers as [|[url [e|r]] answers IH]; [reflexivity| |].
  - cbn. exact IH.
  - cbn [omap list_omap]. rewrite IH. unfold page_record, checked. cbn [fst snd].
    destruct (raise_for_status r); reflexivity.
Qed.

(** X17: [main] writes both files, the CSV file first, when it comes to
    its end with at least one record, and no file when it has none or when
    an exception of [urljoin] leaves it; the records are the ones extracted
    from the pages that were answered without error, with or without a
    local index; the CSV file has the header [title, date, audio_url,
    page_url] and one row per record, in the order of the records, with the
    cells in the order of the header; closing the session is the last
    thing [main] does on either way out. *)
Theorem main_writes_both_files_or_none local_index (w : W) :
  let acts := (Raising.main local_index w).1.1 in
  let raised := (Raising.main local_index w).2 in
  let eps :=
    omap (fun '(url, answer) =>
            match answer with
            | inl _ => None
            | inr r =>
                match raise_for_status r with
                | Some _ => None
                | None => extract_audio_urls (text r) url
                end
            end) (page_answers (console acts)) in
  writes acts
  = match raised, eps with
    | None, _ :: _ =>
        [ WriteCsv OUTPUT_CSV ["title"; "date"; "audio_url"; "page_url"]
            ((fun ep => [title ep; date ep; audio_url ep; page_url ep]) <$> eps);
          WriteJson OUTPUT_JSON eps ]
    | _, _ => []
    end
  /\ last acts = Some SessionClose
  /\ (raised = None -> local_index = None ->
      eps = episodes (crawl_episodes EPISODE_INDEX_URL None w)).
Proof.
  cbv zeta. rewrite page_record_spelled_out.
  pose proof (main_outcome local_index w) as Hout.
  destruct (Raising.main local_index w) as [[acts w'] [e|]]; cbn [fst snd] in *.
  - destruct Hout as [tr ->]. split; [|split; [apply last_snoc|discriminate]].
    rewrite writes_app, writes_Console. reflexivity.
  - destruct (main_records local_index w) as (tr & eps & Hacts & Heps & Hcrawl).
    rewrite <- Hout in Hacts. cbn [fst] in Hacts. subst acts.
    assert (Hanswers : page_answers
              (console
                 ((Console <$> tr)
                  ++ match eps with
                     | [] => [Console (Print "[!] No episodes extracted")]
                     | _ =>
                         [ Console (Print (NEWLINE +:+ RULE));
                           Console (Print ("SUMMARY: Extracted "
                                           +:+ Str.of_nat (length eps) +:+ " episodes"));
                           Console (Print RULE) ]
                         ++ save_to_csv eps OUTPUT_CSV
                         ++ save_to_json eps OUTPUT_JSON
                         ++ [ Console (Print (NEWLINE +:+ "[✓] Next step: Use "
                                              +:+ path_str OUTPUT_CSV
                                              +:+ " or " +:+ path_str OUTPUT_JSON
                                              +:+ " to generate RSS feed")) ]
                     end
                  ++ [SessionClose]))
            = page_answers tr).
    { rewrite console_app, console_Console, page_answers_app.
      destruct eps; cbn; apply app_nil_r. }
    rewrite Hanswers, <- Heps.
    split; [|split].
    + rewrite writes_app, writes_Console. destruct eps; reflexivity.
    + rewrite app_assoc. apply last_snoc.
    + intros _ Hnone. apply Hcrawl, Hnone.
Qed.

End RaisingMain.

(* ===================================================================== *)
(** * The three spellings of a date *)
(* ===================================================================== *)

Section Spellings.

Lemma digit_facts k :
  0 <= k <= 9 ->
  Str.isdigit (digit k) = true
  /\ Str.isspace (digit k) = false
  /\ Z.of_nat (nat_of_ascii (digit k) - 48) = k.
Proof.
  intros Hk.
  assert (k = 0 \/ k = 1 \/ k = 2 \/ k = 3 \/ k = 4 \/ k = 5 \/ k = 6 \/ k = 7
          \/ k = 8 \/ k = 9) as Hcases by lia.
  repeat (destruct Hcases as [-> | Hcases]; [repeat split|]); subst; repeat split.
Qed.

Lemma bind_single {A B} (x : A) (f : A -> list B) : [x] ≫= f = f x.
Proof. cbn. apply app_nil_r. Qed.

Lemma match_tokens_cons tk tks s :
  datetime.match_tokens (tk :: tks) s
  = '(g, s') ← datetime.match_token tk s;
    '(gs, s'') ← datetime.match_tokens tks s';
    [(option_list g ++ gs, s'')].
Proof. reflexivity. Qed.

Lemma match_lit_here c s :
  datetime.match_token (datetime.TLit c) (String c s) = [(None, s)].
Proof. simpl. rewrite Ascii.eqb_refl. reflexivity. Qed.

Lemma match_spaces_one c s :
  Str.isspace c = false ->
  datetime.match_token datetime.TSpaces (String " " (String c s)) = [(None, String c s)].
Proof.
  intros Hc. cbn [datetime.match_token datetime.match_spaces].
  change (Str.isspace " ") with true. cbn iota. rewrite Hc. reflexivity.
Qed.

Lemma match_year_here c1 c2 c3 c4 :
  Str.isdigit c1 = true -> Str.isdigit c2 = true ->
  Str.isdigit c3 = true -> Str.isdigit c4 = true ->
  datetime.match_token (datetime.TGroup "Y")
    (String c1 (String c2 (String c3 (String c4 EmptyString))))
  = [(Some ("Y"%char, String c1 (String c2 (String c3 (String c4 EmptyString)))),
      EmptyString)].
Proof.
  intros H1 H2 H3 H4. unfold datetime.match_token.
  change (Ascii.eqb "Y" "b") with false. change (Ascii.eqb "Y" "B") with false.
  change (Ascii.eqb "Y" "d") with false. change (Ascii.eqb "Y" "Y") with true.
  cbn iota. unfold datetime.re_Y. cbn [omap list_omap datetime.match_classes].
  rewrite H1, H2, H3, H4. reflexivity.
Qed.

(** What the end of each pattern, [, %Y], makes of a comma, a space and a
    year of four digits. *)
Lemma year_suffix y :
  1 <= y <= 9999 ->
  datetime.match_tokens
    [datetime.TLit ","; datetime.TSpaces; datetime.TGroup "Y"]
    (String "," (String " " (pad4 y)))
  = [([("Y"%char, pad4 y)], EmptyString)]
  /\ Str.to_int (pad4 y) = Some y.
Proof.
  intros Hy. unfold pad4.
  set (a := y / 1000 mod 10). set (b := y / 100 mod 10).
  set (c := y / 10 mod 10). set (e := y mod 10).
  assert (Ha : 0 <= a <= 9) by (subst a; Z.to_euclidean_division_equations; lia).
  assert (Hb : 0 <= b <= 9) by (subst b; Z.to_euclidean_division_equations; lia).
  assert (Hc : 0 <= c <= 9) by (subst c; Z.to_euclidean_division_equations; lia).
  assert (He : 0 <= e <= 9) by (subst e; Z.to_euclidean_division_equations; lia).
  assert (Hsum : y = 1000 * a + 100 * b + 10 * c + e)
    by (subst a b c e; Z.to_euclidean_division_equations; lia).
  destruct (digit_facts a Ha) as (Hda & Hsa & Hva).
  destruct (digit_facts b Hb) as (Hdb & Hsb & Hvb).
  destruct (digit_facts c Hc) as (Hdc & Hsc & Hvc).
  destruct (digit_facts e He) as (Hde & Hse & Hve).
  clearbody a b c e.
  generalize dependent (digit a). intros ca Hda Hsa Hva.
  generalize dependent (digit b). intros cb Hdb Hsb Hvb.
  generalize dependent (digit c). intros cc Hdc Hsc Hvc.
  generalize dependent (digit e). intros ce Hde Hse Hve.
  split.
  - rewrite match_tokens_cons, match_lit_here, bind_single.
    rewrite match_tokens_cons, (match_spaces_one _ _ Hsa), bind_single.
    rewrite match_tokens_cons, (match_year_here _ _ _ _ Hda Hdb Hdc Hde), bind_single.
    reflexivity.
  - unfold Str.to_int, Str.strip.
    cbn [Str.lstrip_with]. rewrite Hsa.
    cbn [Str.rstrip_with]. rewrite Hse.
    cbn [Str.digits_value]. rewrite Hda, Hdb, Hdc, Hde, Hva, Hvb, Hvc, Hve.
    f_equal. lia.
Qed.

Lemma list_bind_id {A} (l : list A) : l ≫= (fun x => [x]) = l.
Proof. induction l as [|x l IH]; [reflexivity|]. cbn. f_equal. exact IH. Qed.

Lemma list_bind_ext_all {A B} (f g : A -> list B) (l : list A) :
  (forall x, f x = g x) -> l ≫= f = l ≫= g.
Proof.
  intros Hfg. induction l as [|x l IH]; [reflexivity|].
  cbn. rewrite Hfg. f_equal. exact IH.
Qed.

Lemma list_bind_bind {A B C} (f : A -> list B) (g : B -> list C) (l : list A) :
  (l ≫= f) ≫= g = l ≫= (fun x => f x ≫= g).
Proof.
  induction l as [|x l IH]; [reflexivity|].
  cbn. rewrite bind_app. f_equal. exact IH.
Qed.

(** Matching a pattern in two parts. *)
Lemma match_tokens_app tks1 tks2 : forall s,
  datetime.match_tokens (tks1 ++ tks2) s
  = '(g1, s1) ← datetime.match_tokens tks1 s;
    '(g2, s2) ← datetime.match_tokens tks2 s1;
    [(g1 ++ g2, s2)].
Proof.
  induction tks1 as [|tk tks1 IH]; intros s.
  - cbn. rewrite app_nil_r. symmetry.
    rewrite <- (list_bind_id (datetime.match_tokens tks2 s)) at 2.
    apply list_bind_ext_all. intros [g2 s2]. reflexivity.
  - cbn [app datetime.match_tokens]. rewrite list_bind_bind.
    apply list_bind_ext_all. intros [g s']. rewrite IH, !list_bind_bind.
    apply list_bind_ext_all. intros [g1 s1]. cbn. rewrite app_nil_r, list_bind_bind.
    apply list_bind_ext_all. intros [g2 s2]. cbn. rewrite app_assoc. reflexivity.
Qed.

(** A date read in two parts: the month and the day by the beginning of the
    pattern, the year by its end. *)
Lemma strptime_in_two_parts fmt pre s bkey name dtext others year y m d :
  datetime.tokenize fmt
  = Some (pre ++ [datetime.TLit ","; datetime.TSpaces; datetime.TGroup "Y"]) ->
  datetime.match_tokens pre s
  = ([(bkey, name); ("d"%char, dtext)], String "," (String " " year)) :: others ->
  datetime.match_tokens
    [datetime.TLit ","; datetime.TSpaces; datetime.TGroup "Y"]
    (String "," (String " " year))
  = [([("Y"%char, year)], EmptyString)] ->
  Str.to_int year = Some y ->
  (bkey = "b"%char /\ datetime.index_from 1 datetime.a_month (Str.lower name) = Some m
   \/ bkey = "B"%char /\ datetime.index_from 1 datetime.f_month (Str.lower name) = Some m) ->
  Str.to_int dtext = Some d ->
  datetime.valid_date y m d = true ->
  datetime.strptime s fmt = Some (datetime.make y m d 0 0 0).
Proof.
  intros Htok Hpre Hsuf Hy Hm Hd Hv. unfold datetime.strptime.
  rewrite Htok. cbn [mbind option_bind]. rewrite match_tokens_app, Hpre.
  cbn [mbind list_bind]. rewrite Hsuf. cbn [mbind list_bind app head option_bind].
  cbn [Str.nonempty].
  destruct Hm as [[-> Hm] | [-> Hm]]; cbn [datetime.group List.find fmap option_fmap
    option_map snd Ascii.eqb Bool.eqb mbind option_bind];
    change (Ascii.eqb "b" "Y") with false; change (Ascii.eqb "B" "Y") with false;
    change (Ascii.eqb "d" "Y") with false; change (Ascii.eqb "Y" "Y") with true;
    change (Ascii.eqb "b" "b") with true; change (Ascii.eqb "B" "b") with false;
    change (Ascii.eqb "B" "B") with true; change (Ascii.eqb "d" "b") with false;
    change (Ascii.eqb "d" "B") with false; change (Ascii.eqb "Y" "b") with false;
    change (Ascii.eqb "Y" "B") with false; change (Ascii.eqb "b" "d") with false;
    change (Ascii.eqb "B" "d") with false; change (Ascii.eqb "d" "d") with true;
    cbn [datetime.group List.find fmap option_fmap option_map snd mbind option_bind];
    rewrite Hy; cbn [mbind option_bind]; rewrite Hm; cbn [mbind option_bind];
    rewrite Hd; cbn [mbind option_bind]; rewrite Hv; reflexivity.
Qed.

Lemma strptime_no_match fmt tks s :
  datetime.tokenize fmt = Some tks ->
  datetime.match_tokens tks s = [] ->
  datetime.strptime s fmt = None.
Proof. intros Htok Hm. unfold datetime.strptime. rewrite Htok. cbn. rewrite Hm. reflexivity. Qed.

End Spellings.

Section SpellingsAgree.

Lemma parse_date_by_first now s dt :
  Str.nonempty s = true -> String.eqb s "Unknown" = false ->
  datetime.strptime s "%b. %d, %Y" = Some dt ->
  parse_date now (Some s) = datetime.strftime dt RFC2822.
Proof.
  intros Hn Hu H1. unfold parse_date, formats. rewrite Hn, Hu.
  cbn [negb orb try_formats]. rewrite H1. reflexivity.
Qed.

Lemma parse_date_by_second now s dt :
  Str.nonempty s = true -> String.eqb s "Unknown" = false ->
  datetime.strptime s "%b. %d, %Y" = None ->
  datetime.strptime s "%B %d, %Y" = Some dt ->
  parse_date now (Some s) = datetime.strftime dt RFC2822.
Proof.
  intros Hn Hu H1 H2. unfold parse_date, formats. rewrite Hn, Hu.
  cbn [negb orb try_formats]. rewrite H1, H2. reflexivity.
Qed.

Lemma parse_date_by_third now s dt :
  Str.nonempty s = true -> String.eqb s "Unknown" = false ->
  datetime.strptime s "%b. %d, %Y" = None ->
  datetime.strptime s "%B %d, %Y" = None ->
  datetime.strptime s "%b %d, %Y" = Some dt ->
  parse_date now (Some s) = datetime.strftime dt RFC2822.
Proof.
  intros Hn Hu H1 H2 H3. unfold parse_date, formats. rewrite Hn, Hu.
  cbn [negb orb try_formats]. rewrite H1, H2, H3. reflexivity.
Qed.

Lemma days_in_month_le y m : datetime.days_in_month y m <= 31.
Proof.
  unfold datetime.days_in_month.
  destruct ((m =? 2) && datetime.is_leap y); [lia|].
  unfold datetime.DAYS_IN_MONTH.
  generalize (Z.to_nat (m - 1)). intros k.
  do 12 (destruct k as [|k]; [simpl; lia|]). destruct k; simpl; lia.
Qed.

Lemma valid_date_bounds y m d :
  datetime.valid_date y m d = true -> 1 <= y <= 9999 /\ 1 <= m <= 12 /\ 1 <= d <= 31.
Proof.
  unfold datetime.valid_date. intros Hv.
  repeat (apply andb_prop in Hv as [Hv ?]).
  pose proof (days_in_month_le y m). lia.
Qed.

End SpellingsAgree.

Ltac strptime_none :=
  match goal with
  | |- datetime.strptime ?s ?fmt = None =>
      let tks := eval vm_compute in (datetime.tokenize fmt) in
      match tks with
      | Some ?t => apply (strptime_no_match fmt t s); vm_compute; reflexivity
      end
  end.

Ltac strptime_some pre Hsuf Hint Hv :=
  match goal with
  | |- datetime.strptime ?s ?fmt = Some _ =>
      let r := eval vm_compute in (datetime.match_tokens pre s) in
      match r with
      | ([(?bkey, ?name); (_, ?dtext)], String _ (String _ ?yr)) :: ?others =>
          apply (strptime_in_two_parts fmt pre s bkey name dtext others yr);
          [ vm_compute; reflexivity
          | vm_compute; reflexivity
          | exact Hsuf
          | exact Hint
          | first [ left; split; vm_compute; reflexivity
                  | right; split; vm_compute; reflexivity ]
          | vm_compute; reflexivity
          | exact Hv ]
      end
  end.

Ltac spelled_date Hsuf Hint Hv :=
  first
    [ apply parse_date_by_first;
      [ vm_compute; reflexivity | vm_compute; reflexivity
      | strptime_some [datetime.TGroup "b"; datetime.TLit "."; datetime.TSpaces;
                       datetime.TGroup "d"] Hsuf Hint Hv ]
    | apply parse_date_by_second;
      [ vm_compute; reflexivity | vm_compute; reflexivity
      | strptime_none
      | strptime_some [datetime.TGroup "B"; datetime.TSpaces; datetime.TGroup "d"]
                      Hsuf Hint Hv ]
    | apply parse_date_by_third;
      [ vm_compute; reflexivity | vm_compute; reflexivity
      | strptime_none | strptime_none
      | strptime_some [datetime.TGroup "b"; datetime.TSpaces; datetime.TGroup "d"]
                      Hsuf Hint Hv ] ].

(** X7: for every date of the calendar, the three spellings that
    [parse_date] names, [Nov. 22, 2016], [November 22, 2016] and
    [Nov 22, 2016], give the same text, the RFC 2822 form of midnight of
    that date, whatever the clock says. *)
Theorem spellings_agree_on_every_date now y m d :
  datetime.valid_date y m d = true ->
  parse_date now (Some (spelling_dotted y m d))
  = datetime.strftime (datetime.make y m d 0 0 0) RFC2822
  /\ parse_date now (Some (spelling_full y m d))
     = datetime.strftime (datetime.make y m d 0 0 0) RFC2822
  /\ parse_date now (Some (spelling_short y m d))
     = datetime.strftime (datetime.make y m d 0 0 0) RFC2822.
Proof.
  intros Hv. destruct (valid_date_bounds y m d Hv) as (Hy & Hm & Hd).
  destruct (year_suffix y Hy) as [Hsuf Hint].
  unfold spelling_dotted, spelling_full, spelling_short.
  generalize dependent (pad4 y). intros year Hsuf Hint.
  assert (m = 1 \/ m = 2 \/ m = 3 \/ m = 4 \/ m = 5 \/ m = 6 \/ m = 7 \/ m = 8
          \/ m = 9 \/ m = 10 \/ m = 11 \/ m = 12) as Hmc by lia.
  assert (d = 1 \/ d = 2 \/ d = 3 \/ d = 4 \/ d = 5 \/ d = 6 \/ d = 7 \/ d = 8
          \/ d = 9 \/ d = 10 \/ d = 11 \/ d = 12 \/ d = 13 \/ d = 14 \/ d = 15
          \/ d = 16 \/ d = 17 \/ d = 18 \/ d = 19 \/ d = 20 \/ d = 21 \/ d = 22
          \/ d = 23 \/ d = 24 \/ d = 25 \/ d = 26 \/ d = 27 \/ d = 28 \/ d = 29
          \/ d = 30 \/ d = 31) as Hdc by lia.
  clear Hm Hd.
  repeat (destruct Hmc as [-> | Hmc]); try subst m;
    repeat (destruct Hdc as [-> | Hdc]); try subst d;
    (split; [|split]); spelled_date Hsuf Hint Hv.
Qed.

(* ===================================================================== *)
(** * The properties above at work *)
(* ===================================================================== *)

(** X1 at work: a row with the audio URL only. *)
Lemma absent_columns_get_defaults_witness :
  exists item,
    make_item MoreExamples.midnight 3 MoreExamples.row_audio_only = Ok item
    /\ child_text item "title" = Some "Episode 3"
    /\ child_text item "description" = child_text item "title"
    /\ child_text item "pubDate" = Some "Mon, 01 Mar 2027 00:00:00 +0000"
    /\ child_text item "link" = Some "https://msspoldt.com/audio/5.mp3".
Proof.
  destruct (make_item MoreExamples.midnight 3 MoreExamples.row_audio_only)
    as [item|] eqn:E; [|vm_compute in E; discriminate E].
  destruct (absent_columns_get_defaults _ _ _ _ E) as (Ht & _ & Hd & Hp & Hl).
  exists item. split; [reflexivity|].
  split; [apply Ht; vm_compute; reflexivity|].
  split; [apply Hd; left; vm_compute; reflexivity|].
  split; [rewrite Hp by (left; vm_compute; reflexivity); vm_compute; reflexivity|].
  rewrite Hl; [vm_compute; reflexivity | vm_compute; reflexivity | vm_compute; discriminate].
Defined.

(** X2 at work on the row with a stray [>]. *)
Lemma item_texts_are_trimmed_witness :
  exists item,
    make_item Examples.noon 1 Examples.row_stray = Ok item
    /\ Str.strip_chars STRAY "https://msspoldt.com/audio/8.mp3"
       = "https://msspoldt.com/audio/8.mp3".
Proof.
  destruct (make_item Examples.noon 1 Examples.row_stray)
    as [item|] eqn:E; [|vm_compute in E; discriminate E].
  destruct (item_texts_are_trimmed _ _ _ _ E) as (_ & _ & Hg).
  exists item. split; [reflexivity|]. apply Hg.
  vm_compute in E. injection E as <-. vm_compute. reflexivity.
Defined.

(** X3 at work on two rows. *)
Lemma feed_skeleton_is_fixed_witness :
  exists rss,
    csv_to_rss (fun _ => Examples.noon) [Examples.row7; Examples.row_bare] = Ok rss
    /\ ET.tag rss = "rss" /\ length (ET.children rss) = 1%nat.
Proof.
  destruct (csv_to_rss (fun _ => Examples.noon) [Examples.row7; Examples.row_bare])
    as [rss|] eqn:E; [|vm_compute in E; discriminate E].
  destruct (feed_skeleton_is_fixed (fun _ => Examples.noon)
              [Examples.row7; Examples.row_bare]) as (_ & _ & Hshape).
  destruct (Hshape rss E) as [Hrss _].
  exists rss. split; [reflexivity|]. rewrite Hrss. split; reflexivity.
Defined.

(** X5 at work: two rows with dates, two clocks. *)
Lemma feed_is_reproducible_when_dates_parse_witness :
  csv_to_rss (fun _ => Examples.noon) [Examples.row7; Examples.row_bare]
  = csv_to_rss (fun _ => MoreExamples.midnight) [Examples.row7; Examples.row_bare].
Proof.
  apply feed_is_reproducible_when_dates_parse. vm_compute. reflexivity.
Defined.

(** X7 at work on the leap day of 2024. *)
Lemma spellings_agree_on_every_date_witness :
  parse_date Examples.noon (Some "Feb. 29, 2024") = "Thu, 29 Feb 2024 00:00:00 +0000"
  /\ parse_date Examples.noon (Some "February 29, 2024") = "Thu, 29 Feb 2024 00:00:00 +0000"
  /\ parse_date Examples.noon (Some "Feb 29, 2024") = "Thu, 29 Feb 2024 00:00:00 +0000".
Proof.
  exact (spellings_agree_on_every_date Examples.noon 2024 2 29 eq_refl).
Defined.

(** X8 at work on the page whose audio element has no [controls]. *)
Lemma audio_without_controls_is_ignored_witness :
  extract_audio_urls (L := MoreExamples.libs) MoreExamples.bare_audio_html
    "https://msspoldt.com/ep/4" = None.
Proof.
  apply (audio_without_controls_is_ignored (L := MoreExamples.libs)).
  intros n Hn. vm_compute in Hn.
  repeat (apply elem_of_cons in Hn as [-> | Hn];
          [first [intros _; reflexivity | intros Heq; discriminate Heq]|]).
  apply elem_of_nil in Hn. destruct Hn.
Defined.

(** X9 at work on the page of episode 12. *)
Lemma record_fields_are_filled_witness :
  exists ep,
    extract_audio_urls (L := Examples.libs) Examples.page12_html
      "https://msspoldt.com/ep/12" = Some ep
    /\ page_url ep = "https://msspoldt.com/ep/12" /\ title ep <> "" /\ date ep <> "".
Proof.
  destruct (extract_audio_urls (L := Examples.libs) Examples.page12_html
              "https://msspoldt.com/ep/12") as [ep|] eqn:E;
    [|vm_compute in E; discriminate E].
  destruct (record_fields_are_filled (L := Examples.libs) _ _ _ E) as (Hp & Ht & Hd & _).
  exists ep. auto.
Defined.

Lemma dated_soup_dotless : dotless MoreExamples.dated_soup.
Proof.
  intros n nm Hn. vm_compute in Hn.
  repeat (apply elem_of_cons in Hn as [-> | Hn];
          [first [intros [= <-]; reflexivity | intros Heq; discriminate Heq]|]).
  apply elem_of_nil in Hn. destruct Hn.
Qed.

(** X10 at work: the [span] of class [episode-title] is not the title, and
    the date is the [datetime] attribute of the [time] element. *)
Lemma class_selectors_find_nothing_witness :
  exists ep,
    extract_audio_urls (L := MoreExamples.libs) MoreExamples.dated_html
      "https://msspoldt.com/ep/3" = Some ep
    /\ title ep = "Unknown" /\ date ep = "2016-11-22".
Proof.
  destruct (extract_audio_urls (L := MoreExamples.libs) MoreExamples.dated_html
              "https://msspoldt.com/ep/3") as [ep|] eqn:E;
    [|vm_compute in E; discriminate E].
  destruct (class_selectors_find_nothing (L := MoreExamples.libs)
              MoreExamples.dated_html "https://msspoldt.com/ep/3" ep
              dated_soup_dotless E) as (Ht & Hd).
  exists ep. split; [reflexivity|]. rewrite Ht, Hd. split; vm_compute; reflexivity.
Defined.

(** X11 at work on the example index. *)
Lemma discovered_links_come_from_anchors_witness :
  exists a href,
    a ∈ bs4.descendants Examples.index_soup
    /\ bs4.name a = Some "a"
    /\ bs4.get a "href" = Some href
    /\ "https://msspoldt.com/ep/8" = href.
Proof.
  apply (discovered_links_come_from_anchors (L := Examples.libs)
           Examples.index_html BASE_URL "https://msspoldt.com/ep/8").
  apply list_elem_of_In. vm_compute. right. right. left. reflexivity.
Defined.

(** X12 at work on the index with the foreign link. *)
Lemma container_drops_anchors_and_other_prefixes_witness :
  exists href,
    "https://msspoldt.com.evil.example/ep1" = href
    /\ Str.startswith href "#" = false
    /\ (Str.startswith href "http" = true -> Str.startswith href BASE_URL = true).
Proof.
  apply (container_drops_anchors_and_other_prefixes (L := Examples.libs)
           Examples.foreign_soup BASE_URL "https://msspoldt.com.evil.example/ep1").
  - discriminate.
  - reflexivity.
  - apply list_elem_of_In. vm_compute. left. reflexivity.
Defined.


(** X15 at work on the example site. *)
Lemma records_come_from_unvisited_links_witness :
  let st := crawl_episodes (L := Examples.libs) (N := Examples.site)
              EPISODE_INDEX_URL None 0%nat in
  (length (episodes st) <= length (page_gets (trace st)))%nat
  /\ (length (page_gets (trace st)) <= 5)%nat.
Proof.
  cbv zeta.
  destruct (records_come_from_unvisited_links (L := Examples.libs) (N := Examples.site)
              EPISODE_INDEX_URL None 0%nat
              {| status_code := 200; text := Examples.index_html |})
    as (_ & Hr & Hl); [vm_compute; reflexivity|].
  split; [exact Hr|exact Hl].
Defined.


(* ===================================================================== *)
(** * Exceptions at work *)
(* ===================================================================== *)



(** X4 at work: one short row among good ones makes the conversion raise
    [AttributeError]; a form feed in a title makes it raise [ExpatError];
    two good rows are written to the feed file, which begins with the new
    declaration. *)
Lemma csv_to_rss_raises_on_short_rows_witness :
  (exists msg,
     Raising.csv_to_rss (X := RaisingExamples.xml) (fun _ => Examples.noon)
       [Examples.row7; MoreExamples.row_short; Examples.row_bare] RaisingExamples.FEED_PATH
     = Exception (RowError (AttributeError msg)))
  /\ Raising.csv_to_rss (X := RaisingExamples.xml) (fun _ => Examples.noon)
       [Examples.row7; RaisingExamples.row_form_feed] RaisingExamples.FEED_PATH
     = Exception (XmlError {| expat_message := "not well-formed (invalid token)" |})
  /\ exists content,
       feed_writes <$> Raising.csv_to_rss (X := RaisingExamples.xml) (fun _ => Examples.noon)
                         [Examples.row7; Examples.row_blank] RaisingExamples.FEED_PATH
       = Value [(RaisingExamples.FEED_PATH, content)]
       /\ Str.startswith content UTF8_DECLARATION = true.
Proof.
  split; [|split].
  - apply (csv_to_rss_raises_on_short_rows (X := RaisingExamples.xml)
             (fun _ => Examples.noon)
             [Examples.row7; MoreExamples.row_short; Examples.row_bare]
             RaisingExamples.FEED_PATH).
    vm_compute. reflexivity.
  - destruct (csv_to_rss_raises_on_short_rows (X := RaisingExamples.xml)
                (fun _ => Examples.noon)
                [Examples.row7; RaisingExamples.row_form_feed] RaisingExamples.FEED_PATH)
      as (_ & Hbuilt & _).
    destruct (Hbuilt eq_refl) as (rss & Hrss & Hrun).
    vm_compute in Hrss. injection Hrss as <-.
    exact Hrun.
  - destruct (csv_to_rss_raises_on_short_rows (X := RaisingExamples.xml)
                (fun _ => Examples.noon)
                [Examples.row7; Examples.row_blank] RaisingExamples.FEED_PATH)
      as (_ & Hbuilt & _).
    destruct (Hbuilt eq_refl) as (rss & Hrss & Hrun).
    vm_compute in Hrss. injection Hrss as <-.
    cbv zeta in Hrun. eexists. rewrite Hrun. split; [reflexivity|].
    vm_compute. reflexivity.
Defined.


(** X17 at work: from the example site, whose index is fetched from the
    network, two records are written to both files; with a local index
    that holds a link which [urljoin] does not take, [main] is left by the
    exception, having written nothing and closed the session. *)
Lemma main_writes_both_files_or_none_witness :
  let crawl := Raising.main (L := Examples.libs) (U := RaisingExamples.url_errors)
                 (N := Examples.site) None 0%nat in
  let local := Raising.main (L := RaisingExamples.libs) (U := RaisingExamples.url_errors)
                 (N := Examples.site) (Some RaisingExamples.bracket_index_html) 0%nat in
  (exists ep7 ep12,
     writes crawl.1.1
     = [ WriteCsv OUTPUT_CSV ["title"; "date"; "audio_url"; "page_url"]
           [ ["Episode 7"; "Unknown"; "https://msspoldt.com/audio/7.mp3";
              "https://msspoldt.com/ep/7"];
             ["Unknown"; "Unknown"; "https://msspoldt.com/audio/12.mp3";
              "https://msspoldt.com/ep/12"] ];
         WriteJson OUTPUT_JSON [ep7; ep12] ])
  /\ crawl.2 = None
  /\ local.2 = Some {| reason := "Invalid IPv6 URL" |}
  /\ writes local.1.1 = []
  /\ last local.1.1 = Some SessionClose.
Proof.
  cbv zeta.
  destruct (main_writes_both_files_or_none (L := Examples.libs)
              (U := RaisingExamples.url_errors) (N := Examples.site) None 0%nat)
    as (Hwrites & _ & _).
  destruct (main_writes_both_files_or_none (L := RaisingExamples.libs)
              (U := RaisingExamples.url_errors) (N := Examples.site)
              (Some RaisingExamples.bracket_index_html) 0%nat)
    as (Hnone & Hlast & _).
  split; [|split; [vm_compute; reflexivity|split; [vm_compute; reflexivity|split]]].
  - rewrite Hwrites. eexists _, _. vm_compute. reflexivity.
  - rewrite Hnone. vm_compute. reflexivity.
  - exact Hlast.
Defined.
